(** * FinOps dashboard core: formatting helpers, period arithmetic, metric
      cards, pie shares and the recommendation battery.

    A shallow embedding of the Python sources
      utils/helpers.py, core/data_fetcher.py, core/query_store.py,
      models/dashboard_configs.py, ui/metric_card.py, ui/base_components.py,
      modules/dashboard_sections.py, ui/chart_renderer.py and
      insights/recommendations.py
    together with the properties stated about them.

    Numbers.  Python's [int] is [Z].  A finite Python [float] is the
    rational it denotes ([Q]), and [PNaN] is the one special float the
    dashboard tests for.  The scalar arithmetic of the helpers ([-], [/], the
    [%] presentation type, the conversion of an [int]) rounds to binary64,
    nearest with ties to even ([round64]); the column arithmetic of pie
    shares stays exact.  In [pynum] the exponent is unbounded above and the
    two zeros are one value; infinities and [OverflowError] are modelled in
    the module [IEEE], for the delta function.

    Exceptions.  A Python computation that may raise is a value of
    [result A]: [Ok a] or [Raise e]. *)

From Stdlib Require Import ZArith QArith Qabs Qpower Bool List Lia.
From Stdlib Require Import Strings.String Strings.Ascii.
From Stdlib Require Import Numbers.DecimalString.
From Stdlib Require Import Lqa.
Import ListNotations.

Local Open Scope string_scope.
Local Open Scope Z_scope.

(** ** Exceptions and the error monad *)

Inductive exn : Type :=
| TypeError
| ValueError
| KeyError
| IndexError
| OverflowError
| ZeroDivisionError
| DataFetchError.

Inductive result (A : Type) : Type :=
| Ok (a : A)
| Raise (e : exn).

Arguments Ok {A} a.
Arguments Raise {A} e.

Definition bind {A B : Type} (m : result A) (k : A -> result B) : result B :=
  match m with
  | Ok a => k a
  | Raise e => Raise e
  end.

Notation "x <- m ;; k" := (bind m (fun x => k))
  (at level 61, m at next level, right associativity).

(** ** Python values *)

Inductive pynum : Type :=
| PInt (z : Z)
| PFloat (q : Q)
| PNaN.

Inductive pyval : Type :=
| PNone
| PNum (n : pynum)
| PStr (s : string).

Definition is_nan (n : pynum) : bool :=
  match n with PNaN => true | _ => false end.

(** The rational a non-NaN number denotes. *)
Definition num_Q (n : pynum) : option Q :=
  match n with
  | PInt z => Some (inject_Z z)
  | PFloat q => Some q
  | PNaN => None
  end.

(** [math.isnan(v)]: a [TypeError] for anything that is not a number. *)
Definition math_isnan (v : pyval) : result bool :=
  match v with
  | PNum n => Ok (is_nan n)
  | _ => Raise TypeError
  end.

(** [v is None or math.isnan(v)], with Python's short-circuit [or]. *)
Definition is_none_or_nan (v : pyval) : result bool :=
  match v with
  | PNone => Ok true
  | _ => math_isnan v
  end.

(** *** Rounding to binary64 *)

(** [round(x)] to the nearest integer, ties to the even one. *)
Definition round_half_even (q : Q) : Z :=
  let n := Qnum q in
  let d := Zpos (Qden q) in
  let fl := n / d in
  let r := n mod d in
  match 2 * r ?= d with
  | Lt => fl
  | Gt => fl + 1
  | Eq => if Z.even fl then fl else fl + 1
  end.

(** [2 ^ e] for any integer [e]. *)
Definition pow2 (e : Z) : Q :=
  if 0 <=? e then inject_Z (2 ^ e) else 1 # Z.to_pos (2 ^ (- e)).

(** The binade of a non-zero [q]: the [e] with [2^e <= |q| < 2^(e+1)]. *)
Definition binade (q : Q) : Z :=
  let e := Z.log2 (Z.abs (Qnum q)) - Z.log2 (Zpos (Qden q)) in
  if Qle_bool (pow2 e) (Qabs q) then e else e - 1.

(** The exponent of the unit in the last place of the binary64 numbers
    around [q]: 53 significant bits, and [2^-1074] for the subnormals. *)
Definition ulp_exponent (q : Q) : Z := Z.max (binade q - 52) (-1074).

(** The binary64 number nearest to [q], ties to the even significand, with
    no bound on the exponent above. *)
Definition round64 (q : Q) : Q :=
  if Qnum q =? 0 then 0%Q
  else
    let u := ulp_exponent q in
    let m := round_half_even (Qabs q / pow2 u) in
    Qred (inject_Z (Z.sgn (Qnum q) * m) * pow2 u).

(** [float(n)]: an [int] is rounded to the nearest binary64 number. *)
Definition num_float (n : pynum) : option Q :=
  match n with
  | PInt z => Some (round64 (inject_Z z))
  | PFloat q => Some q
  | PNaN => None
  end.

(** *** Arithmetic and comparisons on numbers *)

(** [a - b]: an exact [int] when both are; otherwise the [int] operand is
    converted and the difference of the two floats is rounded. *)
Definition num_sub (a b : pynum) : pynum :=
  match a, b with
  | PInt x, PInt y => PInt (x - y)
  | _, _ =>
      match num_float a, num_float b with
      | Some x, Some y => PFloat (round64 (x - y))
      | _, _ => PNaN
      end
  end.

(** [a + b] in a column sum, kept exact. *)
Definition num_add (a b : pynum) : pynum :=
  match a, b with
  | PInt x, PInt y => PInt (x + y)
  | _, _ =>
      match num_Q a, num_Q b with
      | Some x, Some y => PFloat (Qred (x + y))
      | _, _ => PNaN
      end
  end.

(** True division [a / b] for a divisor known to be non-zero: always a
    [float].  The quotient of two [int]s is rounded once, from the exact
    quotient; otherwise the [int] operand is converted first. *)
Definition num_div (a b : pynum) : pynum :=
  match a, b with
  | PInt x, PInt y => PFloat (round64 (inject_Z x / inject_Z y))
  | _, _ =>
      match num_float a, num_float b with
      | Some x, Some y => PFloat (round64 (x / y))
      | _, _ => PNaN
      end
  end.

(** The exact quotient, for the shares of a pie. *)
Definition num_div_exact (a b : pynum) : pynum :=
  match num_Q a, num_Q b with
  | Some x, Some y => PFloat (Qred (x / y))
  | _, _ => PNaN
  end.

(** [a == b], [a > b], [a < b], exact also between an [int] and a [float]:
    every comparison with NaN is false. *)
Definition num_eqb (a b : pynum) : bool :=
  match num_Q a, num_Q b with
  | Some x, Some y => Qeq_bool x y
  | _, _ => false
  end.

Definition num_ltb (a b : pynum) : bool :=
  match num_Q a, num_Q b with
  | Some x, Some y => negb (Qle_bool y x)
  | _, _ => false
  end.

Definition num_gtb (a b : pynum) : bool := num_ltb b a.

(** [v > n] for a Python value [v]: ordering [None] or a string against a
    number is a [TypeError]. *)
Definition py_gt (v : pyval) (n : pynum) : result bool :=
  match v with
  | PNum a => Ok (num_gtb a n)
  | _ => Raise TypeError
  end.

Definition py_lt (v : pyval) (n : pynum) : result bool :=
  match v with
  | PNum a => Ok (num_ltb a n)
  | _ => Raise TypeError
  end.

(** [int(round(v))]. *)
Definition int_round (v : pyval) : result Z :=
  match v with
  | PNum (PInt z) => Ok z
  | PNum (PFloat q) => Ok (round_half_even q)
  | PNum PNaN => Raise ValueError
  | _ => Raise TypeError
  end.

(** ** Rendering numbers: the [f] and [%] presentation types *)

Definition Z_to_string (z : Z) : string :=
  NilZero.string_of_int (Z.to_int z).

Definition nat_to_string (n : nat) : string := Z_to_string (Z.of_nat n).

Fixpoint repeat_string (s : string) (n : nat) : string :=
  match n with
  | O => ""
  | S k => s ++ repeat_string s k
  end.

(** [s] padded with zeros on the left to [w] characters. *)
Definition zero_pad (w : nat) (s : string) : string :=
  repeat_string "0" (w - String.length s) ++ s.

Fixpoint string_rev (s : string) : string :=
  match s with
  | EmptyString => EmptyString
  | String c t => string_rev t ++ String c EmptyString
  end.

(** A comma after every third character; used on reversed digits. *)
Fixpoint group3 (s : string) (k : nat) : string :=
  match s with
  | EmptyString => EmptyString
  | String c t =>
      match k with
      | O => String "," (String c (group3 t 2))
      | S k' => String c (group3 t k')
      end
  end.

(** The thousands separator of the [,] option. *)
Definition group_thousands (digits : string) : string :=
  string_rev (group3 (string_rev digits) 3).

(** The sign and the number formatting options of a replacement field
    [{:[+][,].<prec>(f|%)}]. *)
Inductive presentation : Type := Fixed | Percent.

Record format_spec : Type := {
  fs_plus : bool;
  fs_comma : bool;
  fs_prec : nat;
  fs_type : presentation
}.

Definition sign_string (plus negative : bool) : string :=
  if negative then "-" else if plus then "+" else "".

(** [q] with [prec] digits after the point, correctly rounded (ties to
    even), as the [f] type prints a float. *)
Definition format_fixed (plus comma : bool) (prec : nat) (q : Q) : string :=
  let scale := 10 ^ Z.of_nat prec in
  let m := round_half_even (Qabs q * inject_Z scale) in
  let int_digits := Z_to_string (m / scale) in
  let int_part := if comma then group_thousands int_digits else int_digits in
  let frac_part :=
    match prec with
    | O => ""
    | _ => "." ++ zero_pad prec (Z_to_string (m mod scale))
    end in
  sign_string plus (negb (Qle_bool 0 q)) ++ int_part ++ frac_part.

(** A number under a format specification; an [int] is converted to a
    [float] first, the [%] type multiplies the float by 100 (a float
    product, rounded) and appends the sign. *)
Definition format_num (fs : format_spec) (n : pynum) : string :=
  let suffix := match fs_type fs with Fixed => "" | Percent => "%" end in
  match num_float n with
  | None => sign_string (fs_plus fs) false ++ "nan" ++ suffix
  | Some q =>
      let q' := match fs_type fs with
                | Fixed => q
                | Percent => round64 (q * 100)
                end in
      format_fixed (fs_plus fs) (fs_comma fs) (fs_prec fs) q' ++ suffix
  end.

Definition spec_f (comma : bool) (prec : nat) : format_spec :=
  {| fs_plus := false; fs_comma := comma; fs_prec := prec; fs_type := Fixed |}.

Definition spec_pct (plus : bool) (prec : nat) : format_spec :=
  {| fs_plus := plus; fs_comma := false; fs_prec := prec; fs_type := Percent |}.

(** ** utils/helpers.py *)

(** [format_currency(value, currency_symbol="$", decimal_places=2)]. *)
Definition format_currency (value : pyval) (currency_symbol : string)
    (decimal_places : nat) : result string :=
  b <- is_none_or_nan value ;;
  if b then Ok "N/A" else
  match value with
  | PNum n => Ok (currency_symbol ++ format_num (spec_f true decimal_places) n)
  | _ => Raise TypeError
  end.

(** [format_percentage(value, decimal_places=1)]. *)
Definition format_percentage (value : pyval) (decimal_places : nat)
    : result string :=
  b <- is_none_or_nan value ;;
  if b then Ok "N/A" else
  match value with
  | PNum n => Ok (format_num (spec_pct false decimal_places) n)
  | _ => Raise TypeError
  end.

(** [calculate_delta_percentage(current_value, previous_value)]: [None] is
    the "undefined" result. *)
Definition calculate_delta_percentage (current_value previous_value : pyval)
    : result (option pynum) :=
  match current_value, previous_value with
  | PNone, _ => Ok None
  | _, PNone => Ok None
  | _, _ =>
      nc <- math_isnan current_value ;;
      if nc then Ok None else
      np <- math_isnan previous_value ;;
      if np then Ok None else
      match current_value, previous_value with
      | PNum c, PNum p =>
          if num_eqb p (PInt 0) then
            Ok (if num_eqb c (PInt 0) then Some (PFloat 0) else None)
          else Ok (Some (num_div (num_sub c p) p))
      | _, _ => Raise TypeError
      end
  end.

(** [str.upper] on ASCII letters. *)
Definition upper_ascii (c : ascii) : ascii :=
  let n := nat_of_ascii c in
  if (andb (Nat.leb 97 n) (Nat.leb n 122)) then ascii_of_nat (n - 32) else c.

Fixpoint upper (s : string) : string :=
  match s with
  | EmptyString => EmptyString
  | String c t => String (upper_ascii c) (upper t)
  end.

(** The dictionary [units] of [format_bytes]. *)
Definition units (u : string) : option Z :=
  if String.eqb u "KB" then Some 1
  else if String.eqb u "MB" then Some 2
  else if String.eqb u "GB" then Some 3
  else if String.eqb u "TB" then Some 4
  else None.

(** [format_bytes(bytes_value, unit="GB", decimal_places=2)]. *)
Definition format_bytes (bytes_value : pyval) (unit : string)
    (decimal_places : nat) : result string :=
  b <- is_none_or_nan bytes_value ;;
  if b then Ok "N/A" else
  match units (upper unit) with
  | None => Raise ValueError
  | Some power =>
      match bytes_value with
      | PNum n =>
          let converted_value := num_div n (PInt (1024 ^ power)) in
          Ok (format_num (spec_f true decimal_places) converted_value
              ++ " " ++ upper unit)
      | _ => Raise TypeError
      end
  end.

(** [f"{seconds:.{decimal_places}f}"] for the integer [seconds]. *)
Definition fmt_seconds (seconds : Z) (decimal_places : nat) : string :=
  format_num (spec_f false decimal_places) (PInt seconds).

(** [format_duration_seconds(seconds, decimal_places=1)]. *)
Definition format_duration_seconds (seconds : pyval) (decimal_places : nat)
    : result string :=
  b <- is_none_or_nan seconds ;;
  if b then Ok "N/A" else
  seconds <- int_round seconds ;;
  if seconds <? 60 then Ok (fmt_seconds seconds decimal_places ++ "s") else
  let minutes := seconds / 60 in
  let seconds := seconds mod 60 in
  if minutes <? 60 then
    Ok (Z_to_string minutes ++ "m " ++ fmt_seconds seconds decimal_places ++ "s")
  else
  let hours := minutes / 60 in
  let minutes := minutes mod 60 in
  if hours <? 24 then
    Ok (Z_to_string hours ++ "h " ++ Z_to_string minutes ++ "m "
        ++ fmt_seconds seconds decimal_places ++ "s")
  else
  let days := hours / 24 in
  let hours := hours mod 24 in
  Ok (Z_to_string days ++ "d " ++ Z_to_string hours ++ "h "
      ++ Z_to_string minutes ++ "m " ++ fmt_seconds seconds decimal_places ++ "s").

(** ** utils/helpers.py on every Python number

    [pynum] has the finite numbers only.  The delta function is modelled
    here on every number Python has: an [int] of any size, and a float that
    is finite, an infinity or NaN.  Converting an [int] beyond the range of
    binary64 raises [OverflowError], as does a quotient of two [int]s that
    is; float arithmetic overflows to an infinity instead.  The two zeros
    are one value. *)

Module IEEE.

Inductive float : Type :=
| Finite (q : Q)
| Inf (negative : bool)
| NaN.

Inductive value : Type :=
| VNone
| VInt (z : Z)
| VFloat (f : float)
| VStr (s : string).

(** Whether [q], rounded, lies beyond the largest binary64 number. *)
Definition overflows (q : Q) : bool :=
  Qle_bool (pow2 1024) (Qabs (round64 q)).

Definition negative (q : Q) : bool := negb (Qle_bool 0 q).

(** The float that an operation with the exact result [q] delivers. *)
Definition fl (q : Q) : float :=
  if overflows q then Inf (negative q) else Finite (round64 q).

(** [float(z)]. *)
Definition int_to_float (z : Z) : result float :=
  if overflows (inject_Z z) then Raise OverflowError
  else Ok (Finite (round64 (inject_Z z))).

(** [math.isnan(v)]: the argument is converted to a float first. *)
Definition math_isnan (v : value) : result bool :=
  match v with
  | VInt z => f <- int_to_float z ;; Ok false
  | VFloat NaN => Ok true
  | VFloat _ => Ok false
  | _ => Raise TypeError
  end.

(** [v == 0]. *)
Definition eq_zero (v : value) : bool :=
  match v with
  | VInt z => z =? 0
  | VFloat (Finite q) => Qeq_bool q 0
  | _ => false
  end.

(** [a - b] on floats. *)
Definition float_sub (a b : float) : float :=
  match a, b with
  | NaN, _ => NaN
  | _, NaN => NaN
  | Inf s, Inf s' => if Bool.eqb s s' then NaN else Inf s
  | Inf s, Finite _ => Inf s
  | Finite _, Inf s => Inf (negb s)
  | Finite x, Finite y => fl (x - y)
  end.

(** [a / b] on floats. *)
Definition float_truediv (a b : float) : result float :=
  match a, b with
  | _, Finite y =>
      if Qeq_bool y 0 then Raise ZeroDivisionError else
      match a with
      | NaN => Ok NaN
      | Inf s => Ok (Inf (xorb s (negative y)))
      | Finite x => Ok (fl (x / y))
      end
  | NaN, _ => Ok NaN
  | _, NaN => Ok NaN
  | Inf _, Inf _ => Ok NaN
  | Finite _, Inf _ => Ok (Finite 0)
  end.

(** [a - b]: exact on two [int]s; otherwise an [int] is converted. *)
Definition sub (a b : value) : result value :=
  match a, b with
  | VInt x, VInt y => Ok (VInt (x - y))
  | VInt x, VFloat g => f <- int_to_float x ;; Ok (VFloat (float_sub f g))
  | VFloat f, VInt y => g <- int_to_float y ;; Ok (VFloat (float_sub f g))
  | VFloat f, VFloat g => Ok (VFloat (float_sub f g))
  | _, _ => Raise TypeError
  end.

(** [a / b]: the quotient of two [int]s is rounded once, from the exact
    quotient; otherwise an [int] is converted. *)
Definition truediv (a b : value) : result value :=
  match a, b with
  | VInt x, VInt y =>
      if y =? 0 then Raise ZeroDivisionError
      else if overflows (inject_Z x / inject_Z y) then Raise OverflowError
      else Ok (VFloat (Finite (round64 (inject_Z x / inject_Z y))))
  | VInt x, VFloat g =>
      f <- int_to_float x ;; q <- float_truediv f g ;; Ok (VFloat q)
  | VFloat f, VInt y =>
      g <- int_to_float y ;; q <- float_truediv f g ;; Ok (VFloat q)
  | VFloat f, VFloat g => q <- float_truediv f g ;; Ok (VFloat q)
  | _, _ => Raise TypeError
  end.

(** [calculate_delta_percentage(current_value, previous_value)], lines
    48-52, with the short-circuit order of the first test. *)
Definition calculate_delta_percentage (current_value previous_value : value)
    : result value :=
  match current_value, previous_value with
  | VNone, _ => Ok VNone
  | _, VNone => Ok VNone
  | _, _ =>
      nc <- math_isnan current_value ;;
      if nc then Ok VNone else
      np <- math_isnan previous_value ;;
      if np then Ok VNone else
      if eq_zero previous_value then
        Ok (if eq_zero current_value then VFloat (Finite 0) else VNone)
      else
        difference <- sub current_value previous_value ;;
        truediv difference previous_value
  end.

(** Reading the arguments: [None], NaN, a finite number, and the values
    [math.isnan] accepts without an error ([None], a float, an [int] within
    the range of binary64). *)
Definition is_none (v : value) : bool :=
  match v with VNone => true | _ => false end.

Definition is_nan (v : value) : bool :=
  match v with VFloat NaN => true | _ => false end.

Definition convertible (v : value) : bool :=
  match v with
  | VNone => true
  | VInt z => negb (overflows (inject_Z z))
  | VFloat _ => true
  | VStr _ => false
  end.

Definition finite (v : value) : bool :=
  match v with
  | VInt z => negb (overflows (inject_Z z))
  | VFloat (Finite _) => true
  | _ => false
  end.

End IEEE.

(** ** core/data_fetcher.py: the period calculator *)

(** A [datetime.date] is its proleptic Gregorian ordinal, as [toordinal()]
    gives it: day 1 is 0001-01-01 ([date.min]) and day 3652059 is 9999-12-31
    ([date.max]).  A [timedelta] between dates is a number of days. *)
Record date : Type := { toordinal : Z }.

Definition MINORDINAL : Z := 1.
Definition MAXORDINAL : Z := 3652059.

Definition valid_date (d : date) : Prop :=
  MINORDINAL <= toordinal d <= MAXORDINAL.

Definition date_min : date := {| toordinal := MINORDINAL |}.

(** [_days_before_year], [_days_in_month] and [_ymd2ord] of [datetime]. *)
Definition is_leap (y : Z) : bool :=
  ((y mod 4 =? 0) && negb (y mod 100 =? 0)) || (y mod 400 =? 0).

Definition days_before_year (y : Z) : Z :=
  let y1 := y - 1 in y1 * 365 + y1 / 4 - y1 / 100 + y1 / 400.

Definition days_before_month (y m : Z) : Z :=
  nth (Z.to_nat (m - 1)) [0; 31; 59; 90; 120; 151; 181; 212; 243; 273; 304; 334] 0
  + (if (2 <? m) && is_leap y then 1 else 0).

(** [date(y, m, d)] for a valid calendar day. *)
Definition ymd (y m d : Z) : date :=
  {| toordinal := days_before_year y + days_before_month y m + d |}.

(** [a - b] on dates: the [timedelta], in days. *)
Definition date_diff (a b : date) : Z := toordinal a - toordinal b.

(** [d - timedelta(days)]: [OverflowError] outside [date.min .. date.max]. *)
Definition date_sub_days (d : date) (days : Z) : result date :=
  let o := toordinal d - days in
  if (MINORDINAL <=? o) && (o <=? MAXORDINAL)
  then Ok {| toordinal := o |}
  else Raise OverflowError.

(** [DataFetcher.calculate_prev_period_dates(start_date, end_date)]. *)
Definition calculate_prev_period_dates (start_date end_date : date)
    : result (date * date) :=
  let duration := date_diff end_date start_date in
  prev_end_date <- date_sub_days start_date 1 ;;
  prev_start_date <- date_sub_days prev_end_date duration ;;
  Ok (prev_start_date, prev_end_date).

(** ** Format templates

    The templates of the configuration, [prefix{:[+][,].<prec>(f|%)}suffix]
    with brace-free [prefix] and [suffix], kept parsed; [template_string]
    is the Python text. *)
Record template : Type := {
  t_prefix : string;
  t_spec : format_spec;
  t_suffix : string
}.

Definition spec_string (fs : format_spec) : string :=
  (if fs_plus fs then "+" else "") ++ (if fs_comma fs then "," else "")
  ++ "." ++ nat_to_string (fs_prec fs)
  ++ match fs_type fs with Fixed => "f" | Percent => "%" end.

Definition template_string (t : template) : string :=
  t_prefix t ++ "{:" ++ spec_string (t_spec t) ++ "}" ++ t_suffix t.

(** [t.format(v)]: [None] has no such format ([TypeError]), a string
    rejects the numeric options ([ValueError]). *)
Definition str_format (t : template) (v : pyval) : result string :=
  match v with
  | PNum n => Ok (t_prefix t ++ format_num (t_spec t) n ++ t_suffix t)
  | PNone => Raise TypeError
  | PStr _ => Raise ValueError
  end.

(** [s.split('.')[-1]]: what follows the last point. *)
Fixpoint last_segment (s cur : string) : string :=
  match s with
  | EmptyString => cur
  | String c t =>
      if Ascii.eqb c "." then last_segment t ""
      else last_segment t (cur ++ String c "")
  end.

(** [int(c)] for a one-character string. *)
Definition digit_of (c : ascii) : result nat :=
  let n := nat_of_ascii c in
  if (andb (Nat.leb 48 n) (Nat.leb n 57)) then Ok (n - 48)%nat
  else Raise ValueError.

(** [int(format_value.split('.')[-1][0])]. *)
Definition parse_decimal_places (format_value : template) : result nat :=
  match last_segment (template_string format_value) "" with
  | EmptyString => Raise IndexError
  | String c _ => digit_of c
  end.

(** ** The user interface: messages, events and the [ui] monad *)

(** The texts handed to [st.warning], [display_error_box] and
    [display_warning_box], one constructor per call site. *)
Inductive message : Type :=
| FormatterFailed (formatter_func : string) (value : pyval) (e : exn)
    (* Error applying formatter_func '..' to value '..': e. Displaying raw value. *)
| FormatterNotFound (formatter_func : string)
    (* Formatter function '..' not found in helpers. Using default format. *)
| DeltaFailed (label : string) (e : exn)
    (* Error processing delta for '..': e. Delta will not be displayed. *)
| NoMetricConfigs (section_key : string)
| IncompleteConfig (label : string)
| MetricLoadFailed (label : string) (e : exn)
| MetricMissingColumns (label : string)
| MetricUnexpected (label : string) (e : exn)
| PieMissingColumns (title : string)
| WarehouseDataFailed (e : exn)
| TotalCostDataFailed (e : exn)
| UserDataFailed (e : exn).

(** A data frame, column by column. *)
Definition DataFrame : Type := list (string * list pyval).

Inductive ui_event : Type :=
| st_warning (m : message)
| display_error_box (m : message)
| display_warning_box (m : message)
| display_section_header (title : string)
| st_metric (label value : string) (delta : option string)
    (delta_color : option string) (help : option string)
| st_dataframe (data : DataFrame)
| st_altair_chart (title : string) (data : DataFrame).

(** A computation that leaves a trace of effects of type [E] and may
    raise: the effects it produced, in order, and its outcome.  What was
    produced before an exception stays produced. *)
Definition writer (E A : Type) : Type := (list E * result A)%type.

Definition w_ret {E A : Type} (a : A) : writer E A := ([], Ok a).

Definition w_bind {E A B : Type} (m : writer E A) (k : A -> writer E B)
    : writer E B :=
  match m with
  | (ev, Ok a) => let (ev', r) := k a in ((ev ++ ev')%list, r)
  | (ev, Raise e) => (ev, Raise e)
  end.

Definition emit {E : Type} (e : E) : writer E unit := ([e], Ok tt).

Definition lift {E A : Type} (r : result A) : writer E A := ([], r).

(** [try: m  except <handles> as e: handler e]. *)
Definition try_except {E A : Type} (m : writer E A) (handles : exn -> bool)
    (handler : exn -> writer E A) : writer E A :=
  match m with
  | (ev, Ok a) => (ev, Ok a)
  | (ev, Raise e) =>
      if handles e then let (ev', r) := handler e in ((ev ++ ev')%list, r)
      else (ev, Raise e)
  end.

(** [except Exception] and [except DataFetchError]. *)
Definition any_exception (_ : exn) : bool := true.

Definition is_DataFetchError (e : exn) : bool :=
  match e with DataFetchError => true | _ => false end.

Notation "x <~ m ;; k" := (w_bind m (fun x => k))
  (at level 61, m at next level, right associativity).
Notation "m ;;; k" := (w_bind m (fun _ => k))
  (at level 61, right associativity).

(** The page: what the Streamlit calls have shown so far. *)
Definition ui (A : Type) : Type := writer ui_event A.

(** [try: m  except (ValueError, IndexError): fallback], on pure code. *)
Definition try_value_index {A : Type} (m fallback : result A) : result A :=
  match m with
  | Raise ValueError => fallback
  | Raise IndexError => fallback
  | r => r
  end.

(** ** models/dashboard_configs.py: the theme *)

Record theme : Type := {
  primary_color : string;
  background_color : string;
  secondary_background_color : string;
  text_color : string;
  font : string;
  chart_height : Z;
  chart_colors : list string
}.

Definition APP_THEME : theme := {|
  primary_color := "#007BFF";
  background_color := "#F0F2F6";
  secondary_background_color := "#FFFFFF";
  text_color := "#212529";
  font := "Segoe UI";
  chart_height := 350;
  chart_colors := ["#007BFF"; "#28A745"; "#FFC107"; "#DC3545"; "#6F42C1";
                   "#17A2B8"; "#FD7E14"; "#E83E8C"; "#6C757D"; "#20C997"]
|}.

(** ** Data frames *)

Definition df_columns (data : DataFrame) : list string := map fst data.

Definition df_len (data : DataFrame) : nat :=
  match data with
  | [] => O
  | (_, vs) :: _ => List.length vs
  end.

(** [data.empty]: no column or no row. *)
Definition df_empty (data : DataFrame) : bool :=
  match data with
  | [] => true
  | _ => Nat.eqb (df_len data) 0
  end.

(** [col in data.columns]. *)
Definition has_column (col : string) (data : DataFrame) : bool :=
  existsb (String.eqb col) (df_columns data).

(** [data[col]]: [KeyError] for a missing column. *)
Fixpoint df_getitem (data : DataFrame) (col : string)
    : result (list pyval) :=
  match data with
  | [] => Raise KeyError
  | (c, vs) :: rest => if String.eqb col c then Ok vs else df_getitem rest col
  end.

(** [series.iloc[0]]. *)
Definition iloc0 (series : list pyval) : result pyval :=
  match series with
  | [] => Raise IndexError
  | v :: _ => Ok v
  end.

(** [data[col].iloc[0]]. *)
Definition cell0 (data : DataFrame) (col : string) : result pyval :=
  series <- df_getitem data col ;; iloc0 series.

(** [data[col] = series]: replaces the column or adds it last. *)
Fixpoint df_setitem (data : DataFrame) (col : string) (series : list pyval)
    : DataFrame :=
  match data with
  | [] => [(col, series)]
  | (c, vs) :: rest =>
      if String.eqb col c then (c, series) :: rest
      else (c, vs) :: df_setitem rest col series
  end.

(** [a / b] on values, for a divisor already known to be non-zero. *)
Definition py_truediv (a b : pyval) : result pynum :=
  match a, b with
  | PNum x, PNum y => Ok (num_div x y)
  | _, _ => Raise TypeError
  end.

(** Python truthiness of an optional string: [None] and [""] are false. *)
Definition truthy (s : option string) : bool :=
  match s with
  | None => false
  | Some EmptyString => false
  | Some _ => true
  end.

(** ** models/dashboard_configs.py: metric cards *)

Record metric_config : Type := {
  cfg_label : option string;
  cfg_query_id : option string;
  cfg_value_col : option string;
  cfg_delta_col : option string;
  cfg_format_value : option template;
  cfg_format_delta : option template;
  cfg_formatter_func : option string;
  cfg_help_text : option string
}.

Definition tmpl (prefix : string) (fs : format_spec) (suffix : string)
    : template :=
  {| t_prefix := prefix; t_spec := fs; t_suffix := suffix |}.

(** ["{:,.0f}"] and ["{:+.2%}"], the defaults of a metric card. *)
Definition default_format_value : template := tmpl "" (spec_f true 0) "".
Definition default_format_delta : template := tmpl "" (spec_pct true 2) "".

Definition card (label query_id value_col : string)
    (delta_col : option string) (format_value : template)
    (format_delta : option template) (formatter_func : option string)
    (help_text : string) : metric_config :=
  {| cfg_label := Some label; cfg_query_id := Some query_id;
     cfg_value_col := Some value_col; cfg_delta_col := delta_col;
     cfg_format_value := Some format_value;
     cfg_format_delta := format_delta;
     cfg_formatter_func := formatter_func;
     cfg_help_text := Some help_text |}.

Definition OVERVIEW_METRICS : list metric_config := [
  card "Total Credits Used" "TOTAL_COST_AND_CREDITS_OVERVIEW" "TOTAL_CREDITS"
    (Some "PREV_TOTAL_CREDITS") (tmpl "" (spec_f true 0) "")
    (Some (tmpl "" (spec_pct true 2) "")) None
    "Total Snowflake credits consumed in the selected period.";
  card "Estimated Total Cost" "TOTAL_COST_AND_CREDITS_OVERVIEW"
    "ESTIMATED_COST_USD" (Some "PREV_ESTIMATED_COST_USD")
    (tmpl "$" (spec_f true 2) "") (Some (tmpl "" (spec_pct true 2) "")) None
    "Estimated cost based on consumed credits (assuming $2/credit)."
].

Definition USER_360_METRICS : list metric_config := [
  card "Total Credits (User)" "USER_360_SUMMARY_METRICS" "TOTAL_CREDITS"
    (Some "PREV_TOTAL_CREDITS") (tmpl "" (spec_f true 0) "")
    (Some (tmpl "" (spec_pct true 2) "")) None
    "Total Snowflake credits consumed by this user in the selected period.";
  card "Estimated Cost (User)" "USER_360_SUMMARY_METRICS" "ESTIMATED_COST_USD"
    (Some "PREV_ESTIMATED_COST_USD") (tmpl "$" (spec_f true 2) "")
    (Some (tmpl "" (spec_pct true 2) "")) None
    "Estimated cost for this user (assuming $2/credit).";
  card "Avg. Query Duration" "USER_360_SUMMARY_METRICS"
    "AVG_QUERY_DURATION_SEC" None (tmpl "" (spec_f true 1) "s") None
    (Some "format_duration_seconds")
    "Average execution time of queries run by this user.";
  card "Avg. Credits/Query" "USER_360_SUMMARY_METRICS" "AVG_CREDITS_PER_QUERY"
    None (tmpl "" (spec_f true 3) "") None None
    "Average credits consumed per query by this user. High value might indicate inefficient queries.";
  card "Total Query Count" "USER_360_SUMMARY_METRICS" "TOTAL_QUERY_COUNT"
    None (tmpl "" (spec_f true 0) "") None None
    "Total number of queries executed by this user.";
  card "Failed Query Rate" "USER_360_SUMMARY_METRICS" "FAILED_QUERY_RATE"
    None (tmpl "" (spec_pct false 1) "") None (Some "format_percentage")
    "Percentage of queries that failed for this user. High rate indicates issues.";
  card "Total Data Scanned" "USER_360_SUMMARY_METRICS" "TOTAL_BYTES_SCANNED"
    None (tmpl "" (spec_f true 2) " GB") None (Some "format_bytes")
    "Total data scanned by user's queries. High volume can lead to high cost."
].

Definition WAREHOUSE_METRICS : list metric_config := [
  card "Total Credits (Warehouse)" "WAREHOUSE_SUMMARY_METRICS"
    "TOTAL_CREDITS_USED" (Some "PREV_TOTAL_CREDITS_USED")
    (tmpl "" (spec_f true 0) "") (Some (tmpl "" (spec_pct true 2) "")) None
    "Total Snowflake credits consumed by this warehouse in the selected period.";
  card "Estimated Cost (Warehouse)" "WAREHOUSE_SUMMARY_METRICS"
    "ESTIMATED_COST_USD" (Some "PREV_ESTIMATED_COST_USD")
    (tmpl "$" (spec_f true 2) "") (Some (tmpl "" (spec_pct true 2) "")) None
    "Estimated cost for this warehouse (assuming $2/credit).";
  card "Idle Percentage" "WAREHOUSE_SUMMARY_METRICS" "IDLE_PERCENTAGE"
    None (tmpl "" (spec_pct false 1) "") None (Some "format_percentage")
    "Percentage of time the warehouse was running but idle. High value indicates over-provisioning or poor auto-suspend settings.";
  card "Total Active Minutes" "WAREHOUSE_SUMMARY_METRICS" "ACTIVE_MINUTES"
    None (tmpl "" (spec_f true 0) " min") None None
    "Total minutes the warehouse was actively processing queries.";
  card "Auto Suspend" "WAREHOUSE_SUMMARY_METRICS" "AUTO_SUSPEND"
    None (tmpl "" (spec_f true 0) " s") None None
    "Current AUTO_SUSPEND setting for the warehouse."
].

(** [METRIC_CARD_CONFIGS.get(section_key, [])]. *)
Definition METRIC_CARD_CONFIGS (section_key : string) : list metric_config :=
  if String.eqb section_key "OVERVIEW_METRICS" then OVERVIEW_METRICS
  else if String.eqb section_key "USER_360_METRICS" then USER_360_METRICS
  else if String.eqb section_key "WAREHOUSE_METRICS" then WAREHOUSE_METRICS
  else [].

(** ** Pages: metric cards, metric sections, pie charts, recommendations *)

(** The value bound to a query parameter. *)
Inductive param : Type :=
| ParamDate (d : date)
| ParamName (name : option string).

Definition params : Type := list (string * param).

(** What the recommendation battery does: it shows something on the page
    or appends to its [recommendations] list. *)
Inductive rec_effect : Type :=
| Show (e : ui_event)
| Append (recommendation : string).

(** The functions of [helpers], by name. *)
Inductive helper : Type :=
| h_format_currency
| h_format_percentage
| h_calculate_delta_percentage
| h_format_bytes
| h_format_duration_seconds.

(** [getattr(helpers, name)] when it exists and is a function. *)
Definition helpers_function (name : string) : option helper :=
  if String.eqb name "format_currency" then Some h_format_currency
  else if String.eqb name "format_percentage" then Some h_format_percentage
  else if String.eqb name "calculate_delta_percentage"
       then Some h_calculate_delta_percentage
  else if String.eqb name "format_bytes" then Some h_format_bytes
  else if String.eqb name "format_duration_seconds"
       then Some h_format_duration_seconds
  else None.

(** ["decimal_places" in inspect.signature(formatter).parameters]. *)
Definition has_decimal_places (formatter : helper) : bool :=
  match formatter with
  | h_calculate_delta_percentage => false
  | _ => true
  end.

Definition or_default {A : Type} (d : A) (o : option A) : A :=
  match o with Some a => a | None => d end.

(** [formatter(value)] and [formatter(value, decimal_places=d)]; the
    two-argument [calculate_delta_percentage] cannot be called so. *)
Definition call_formatter (formatter : helper) (value : pyval)
    (decimal_places : option nat) : result string :=
  match formatter with
  | h_format_currency =>
      format_currency value "$" (or_default 2%nat decimal_places)
  | h_format_percentage =>
      format_percentage value (or_default 1%nat decimal_places)
  | h_format_bytes =>
      format_bytes value "GB" (or_default 2%nat decimal_places)
  | h_format_duration_seconds =>
      format_duration_seconds value (or_default 1%nat decimal_places)
  | h_calculate_delta_percentage => Raise TypeError
  end.

(** [isinstance(value, (int, float))]. *)
Definition is_number (v : pyval) : bool :=
  match v with PNum _ => true | _ => false end.

(** metric_card.py, lines 45-56: the call of a formatter that was found. *)
Definition apply_formatter (formatter : helper) (value : pyval)
    (format_value : template) : result string :=
  if is_number value && has_decimal_places formatter then
    try_value_index
      (decimal_places <- parse_decimal_places format_value ;;
       call_formatter formatter value (Some decimal_places))
      (call_formatter formatter value None)
  else call_formatter formatter value None.

(** [format_value.format(value) if value is not None else "N/A"]. *)
Definition default_display (format_value : template) (value : pyval)
    : result string :=
  match value with
  | PNone => Ok "N/A"
  | _ => str_format format_value value
  end.

(** metric_card.py, lines 77-82. *)
Definition delta_color_of (delta_percentage : pynum) : string :=
  if num_gtb delta_percentage (PInt 0) then "inverse"
  else if num_ltb delta_percentage (PInt 0) then "normal"
  else "off".

(** [for x in l: body x]. *)
Fixpoint for_each {E A : Type} (l : list A) (body : A -> writer E unit)
    : writer E unit :=
  match l with
  | [] => w_ret tt
  | x :: rest => body x ;;; for_each rest body
  end.

(** [[f x for x in l]] for an [f] that may raise. *)
Fixpoint mapM {A B : Type} (f : A -> result B) (l : list A)
    : result (list B) :=
  match l with
  | [] => Ok []
  | x :: rest => y <- f x ;; ys <- mapM f rest ;; Ok (y :: ys)
  end.

(** *** Series: pandas' column operations

    A [PNone] or NaN cell is a missing value: a comparison with it is
    false, a sum skips it, a quotient with it is NaN. *)

(** [series.sum()]. *)
Fixpoint series_sum (series : list pyval) : result pynum :=
  match series with
  | [] => Ok (PInt 0)
  | PNone :: rest => series_sum rest
  | PNum PNaN :: rest => series_sum rest
  | PNum n :: rest => t <- series_sum rest ;; Ok (num_add n t)
  | PStr _ :: rest => Raise TypeError
  end.

(** [series / total], for a non-zero number [total]. *)
Definition series_div (series : list pyval) (total : pynum) : list pyval :=
  map (fun v => match v with
                | PNum n => PNum (num_div_exact n total)
                | _ => PNum PNaN
                end) series.

(** [series > n], row by row. *)
Definition series_gt (series : list pyval) (n : pynum) : result (list bool) :=
  mapM (fun v => match v with
                 | PNone => Ok false
                 | PNum a => Ok (num_gtb a n)
                 | PStr _ => Raise TypeError
                 end) series.

(** A row, as [iterrows] yields it: its cell in every column. *)
Definition row : Type := list (string * pyval).

Definition df_row (data : DataFrame) (i : nat) : row :=
  map (fun cv => (fst cv, nth i (snd cv) PNone)) data.

Definition iterrows (data : DataFrame) : list row :=
  map (df_row data) (seq 0 (df_len data)).

(** [row[col]]. *)
Fixpoint row_getitem (r : row) (col : string) : result pyval :=
  match r with
  | [] => Raise KeyError
  | (c, v) :: rest => if String.eqb col c then Ok v else row_getitem rest col
  end.

(** [data[mask_a & mask_b].iterrows()]. *)
Definition rows_where (data : DataFrame) (mask_a mask_b : list bool)
    : list row :=
  map snd
    (filter (fun mr => fst (fst mr) && snd (fst mr))
       (combine (combine mask_a mask_b) (iterrows data))).

(** [v is not None and v > n]. *)
Definition not_none_and_gt (v : pyval) (n : pynum) : result bool :=
  match v with
  | PNone => Ok false
  | _ => py_gt v n
  end.

(** ** models/dashboard_configs.py: a pie chart's configuration *)
Record chart_config : Type := {
  ch_title : option string;
  ch_name_col : option string;
  ch_value_col : option string
}.

(** [col in data.columns] for a configured, possibly absent, name. *)
Definition has_opt_column (col : option string) (data : DataFrame) : bool :=
  match col with
  | Some c => has_column c data
  | None => false
  end.

(** chart_renderer.py, lines 120-126: the frame with its [percentage]
    column. *)
Definition pie_percentages (data : DataFrame) (value_col : string)
    : result DataFrame :=
  let data_with_percentages := data in
  series <- df_getitem data_with_percentages value_col ;;
  total <- series_sum series ;;
  if num_gtb total (PInt 0) then
    Ok (df_setitem data_with_percentages "percentage" (series_div series total))
  else
    Ok (df_setitem data_with_percentages "percentage"
          (repeat (PNum (PInt 0)) (df_len data_with_percentages))).

(** The pie that lines 128-156 build with Altair: its frame, its title,
    its two columns and the theme whose colours and height it reads. *)
Record pie_chart : Type := {
  pie_data : DataFrame;
  pie_title : string;
  pie_name_col : option string;
  pie_value_col : option string;
  pie_theme : theme
}.

(** [_render_pie_chart(data, config, theme_config)].  [draw_pie] is
    Altair building the pie and its labels, the look-ups in the theme
    included: the chart is built, or an exception is raised. *)
Definition _render_pie_chart (draw_pie : pie_chart -> result unit)
    (data : DataFrame) (config : chart_config) (theme_config : theme)
    : ui unit :=
  let name_col := ch_name_col config in
  let value_col := ch_value_col config in
  let title := or_default "Pie Chart" (ch_title config) in
  if negb (has_opt_column name_col data && has_opt_column value_col data) then
    emit (st_warning (PieMissingColumns title)) ;;; emit (st_dataframe data)
  else
    data_with_percentages <~
      lift (pie_percentages data (or_default "" value_col)) ;;
    lift (draw_pie {| pie_data := data_with_percentages; pie_title := title;
                      pie_name_col := name_col; pie_value_col := value_col;
                      pie_theme := theme_config |}) ;;;
    emit (st_altair_chart title data_with_percentages).

(** The texts of the recommendations. *)
Definition NO_RECOMMENDATIONS : string :=
  "No specific recommendations at this time for the selected criteria. Keep monitoring!".

Definition shown (log : list rec_effect) : list ui_event :=
  flat_map (fun x => match x with Show e => [e] | Append _ => [] end) log.

Definition appended (log : list rec_effect) : list string :=
  flat_map (fun x => match x with Show _ => [] | Append r => [r] end) log.

(** [when b: m]. *)
Definition when {E : Type} (b : bool) (m : writer E unit) : writer E unit :=
  if b then m else w_ret tt.

Section Pages.

(** Python's [repr] of a finite float, which [str] and f-strings print. *)
Variable float_repr : Q -> string.

(** [data_fetcher.execute_query(query_id, params)], the collaborator. *)
Variable execute_query : string -> params -> result DataFrame.

(** [str(v)]. *)
Definition py_str (v : pyval) : string :=
  match v with
  | PNone => "None"
  | PNum (PInt z) => Z_to_string z
  | PNum (PFloat q) => float_repr q
  | PNum PNaN => "nan"
  | PStr s => s
  end.

(** *** ui/metric_card.py *)

(** metric_card.py, lines 40-64: the text shown for the value. *)
Definition value_display (value : pyval) (format_value : template)
    (formatter_func : option string) : ui string :=
  if truthy formatter_func then
    let name := or_default "" formatter_func in
    match helpers_function name with
    | Some formatter =>
        try_except
          (lift (apply_formatter formatter value format_value))
          any_exception
          (fun e =>
             emit (st_warning (FormatterFailed name value e)) ;;;
             w_ret (match value with
                    | PNone => "N/A"
                    | _ => py_str value
                    end))
    | None =>
        emit (st_warning (FormatterNotFound name)) ;;;
        lift (default_display format_value value)
    end
  else lift (default_display format_value value).

(** metric_card.py, lines 67-87: [display_delta] and [delta_color]. *)
Definition delta_display (label : string) (value delta : pyval)
    (format_delta : template) (theme_config : option theme)
    : ui (option string * option string) :=
  match delta with
  | PNone => w_ret (None, None)
  | _ =>
      try_except
        (delta_percentage <~
           lift (calculate_delta_percentage value delta) ;;
         match delta_percentage with
         | Some dp =>
             display_delta <~ lift (str_format format_delta (PNum dp)) ;;
             w_ret (Some display_delta,
                    match theme_config with
                    | Some _ => Some (delta_color_of dp)
                    | None => None
                    end)
         | None => w_ret (Some "N/A", None)
         end)
        any_exception
        (fun e =>
           emit (st_warning (DeltaFailed label e)) ;;; w_ret (None, None))
  end.

(** [render_metric_card(label, value, delta, format_value, format_delta,
    formatter_func, help_text, theme_config)]. *)
Definition render_metric_card (label : string) (value delta : pyval)
    (format_value format_delta : template) (formatter_func : option string)
    (help_text : option string) (theme_config : option theme) : ui unit :=
  display_value <~ value_display value format_value formatter_func ;;
  shown <~ delta_display label value delta format_delta theme_config ;;
  emit (st_metric label display_value (fst shown) (snd shown) help_text).

(** *** modules/dashboard_sections.py *)

(** dashboard_sections.py, lines 65-75. *)
Definition metric_params (section_key : string) (start_date end_date : date)
    (prev_start_date prev_end_date : date) (selected_entity : option string)
    : params :=
  ([("start_date", ParamDate start_date); ("end_date", ParamDate end_date);
    ("prev_start_date", ParamDate prev_start_date);
    ("prev_end_date", ParamDate prev_end_date)]
   ++ (if truthy selected_entity then
         if String.prefix "USER_" section_key
         then [("selected_user_name", ParamName selected_entity)]
         else if String.prefix "WAREHOUSE_" section_key
         then [("selected_warehouse_name", ParamName selected_entity)]
         else []
       else []))%list.

(** [data[col].iloc[0] if col in data.columns and not data.empty else 0]. *)
Definition cell0_or_zero (data : DataFrame) (col : string) : result pyval :=
  if has_column col data && negb (df_empty data) then cell0 data col
  else Ok (PNum (PInt 0)).

(** dashboard_sections.py, lines 80-98: the current and the previous value
    of a metric, read from the fetched frame. *)
Definition resolve_metric (section_key label value_col : string)
    (delta_col : option string) (data : DataFrame)
    : result (pyval * pyval) :=
  read <-
    (if negb (df_empty data) && has_column value_col data then
       current_value <- cell0 data value_col ;;
       previous_value <-
         (if truthy delta_col && has_column (or_default "" delta_col) data
          then cell0 data (or_default "" delta_col)
          else Ok PNone) ;;
       Ok (current_value, previous_value)
     else Ok (PNone, PNone)) ;;
  if String.eqb label "Failed Query Rate"
     && String.eqb section_key "USER_360_METRICS"
  then
    total_queries <- cell0_or_zero data "TOTAL_QUERY_COUNT" ;;
    failed_queries <- cell0_or_zero data "FAILED_QUERY_COUNT" ;;
    positive <- py_gt total_queries (PInt 0) ;;
    current_value <-
      (if positive then
         rate <- py_truediv failed_queries total_queries ;; Ok (PNum rate)
       else Ok (PNum (PFloat 0))) ;;
    Ok (current_value, PNone)
  else Ok read.

(** The body of the loop of [display_metric_section], for one [config]. *)
Definition display_metric (section_key : string) (start_date end_date : date)
    (prev_start_date prev_end_date : date) (selected_entity : option string)
    (config : metric_config) : ui unit :=
  let label := or_default "Unknown Metric" (cfg_label config) in
  let format_value := or_default default_format_value (cfg_format_value config) in
  let format_delta := or_default default_format_delta (cfg_format_delta config) in
  if negb (truthy (cfg_query_id config)) || negb (truthy (cfg_value_col config))
  then emit (display_error_box (IncompleteConfig label))
  else
    let query_id := or_default "" (cfg_query_id config) in
    let value_col := or_default "" (cfg_value_col config) in
    let params :=
      metric_params section_key start_date end_date prev_start_date
        prev_end_date selected_entity in
    try_except
      (data <~ lift (execute_query query_id params) ;;
       values <~
         lift (resolve_metric section_key label value_col
                 (cfg_delta_col config) data) ;;
       render_metric_card label (fst values) (snd values) format_value
         format_delta (cfg_formatter_func config) (cfg_help_text config)
         (Some APP_THEME))
      any_exception
      (fun e =>
         match e with
         | DataFetchError => emit (display_error_box (MetricLoadFailed label e))
         | KeyError => emit (display_error_box (MetricMissingColumns label))
         | _ => emit (display_error_box (MetricUnexpected label e))
         end).

(** [display_metric_section(data_fetcher, section_title, section_key,
    start_date, end_date, selected_entity)]; the layout in columns is not
    modelled. *)
Definition display_metric_section (section_title section_key : string)
    (start_date end_date : date) (selected_entity : option string)
    : ui unit :=
  emit (display_section_header section_title) ;;;
  match METRIC_CARD_CONFIGS section_key with
  | [] => emit (display_warning_box (NoMetricConfigs section_key))
  | metric_configs =>
      prev <~ lift (calculate_prev_period_dates start_date end_date) ;;
      for_each metric_configs
        (display_metric section_key start_date end_date (fst prev) (snd prev)
           selected_entity)
  end.

(** *** insights/recommendations.py *)

Definition display_warning (m : message) : writer rec_effect unit :=
  emit (Show (display_warning_box m)).

(** recommendations.py, lines 52-57, for one row. *)
Definition high_idle_advice (r : row) : result string :=
  name <- row_getitem r "WAREHOUSE_NAME" ;;
  size <- row_getitem r "SIZE" ;;
  idle <- row_getitem r "IDLE_PERCENTAGE" ;;
  fraction <- py_truediv idle (PNum (PInt 100)) ;;
  pct <- format_percentage (PNum fraction) 1 ;;
  Ok ("Consider adjusting auto-suspend for warehouse **" ++ py_str name
      ++ "** (Size: " ++ py_str size ++ ") due to **" ++ pct
      ++ "** idle time. A shorter auto-suspend period can reduce costs.").

(** recommendations.py, lines 36-80: the account-wide rules. *)
Definition overview_recommendations (start_date end_date : date)
    : writer rec_effect unit :=
  try_except
    (warehouse_summary <~
       lift (execute_query "WAREHOUSE_SUMMARY_METRICS"
               [("start_date", ParamDate start_date);
                ("end_date", ParamDate end_date);
                ("selected_warehouse_name", ParamName None)]) ;;
     when (negb (df_empty warehouse_summary))
       (idle <~ lift (df_getitem warehouse_summary "IDLE_PERCENTAGE") ;;
        idle_mask <~ lift (series_gt idle (PInt 20)) ;;
        credits <~ lift (df_getitem warehouse_summary "TOTAL_CREDITS_USED") ;;
        credits_mask <~ lift (series_gt credits (PInt 0)) ;;
        for_each (rows_where warehouse_summary idle_mask credits_mask)
          (fun r => text <~ lift (high_idle_advice r) ;; emit (Append text))))
    is_DataFetchError
    (fun e => display_warning (WarehouseDataFailed e)) ;;;
  try_except
    (prev <~ lift (calculate_prev_period_dates start_date end_date) ;;
     total_cost_data <~
       lift (execute_query "TOTAL_COST_AND_CREDITS_OVERVIEW"
               [("start_date", ParamDate start_date);
                ("end_date", ParamDate end_date);
                ("prev_start_date", ParamDate (fst prev));
                ("prev_end_date", ParamDate (snd prev))]) ;;
     when (negb (df_empty total_cost_data))
       (current_cost <~ lift (cell0 total_cost_data "ESTIMATED_COST_USD") ;;
        prev_cost <~ lift (cell0 total_cost_data "PREV_ESTIMATED_COST_USD") ;;
        delta_pct <~ lift (calculate_delta_percentage current_cost prev_cost) ;;
        match delta_pct with
        | Some d =>
            when (num_gtb d (PFloat (round64 (1 # 10))))
              (pct <~ lift (format_percentage (PNum d) 1) ;;
               emit (Append
                 ("Overall estimated cost increased by **" ++ pct
                  ++ "** compared to the previous period. "
                  ++ "Investigate top cost drivers (warehouses, users, services) for potential optimizations.")))
        | None => w_ret tt
        end))
    is_DataFetchError
    (fun e => display_warning (TotalCostDataFailed e)).

(** recommendations.py, lines 84-135: the rules for one user. *)
Definition user_recommendations (start_date end_date : date)
    (selected_user : string) : writer rec_effect unit :=
  try_except
    (prev <~ lift (calculate_prev_period_dates start_date end_date) ;;
     user_summary_data <~
       lift (execute_query "USER_360_SUMMARY_METRICS"
               [("start_date", ParamDate start_date);
                ("end_date", ParamDate end_date);
                ("prev_start_date", ParamDate (fst prev));
                ("prev_end_date", ParamDate (snd prev));
                ("selected_user_name", ParamName (Some selected_user))]) ;;
     when (negb (df_empty user_summary_data))
       (avg_query_duration_sec <~
          lift (cell0 user_summary_data "AVG_QUERY_DURATION_SEC") ;;
        avg_credits_per_query <~
          lift (cell0 user_summary_data "AVG_CREDITS_PER_QUERY") ;;
        failed_query_count <~
          lift (cell0 user_summary_data "FAILED_QUERY_COUNT") ;;
        total_query_count <~
          lift (cell0 user_summary_data "TOTAL_QUERY_COUNT") ;;
        slow <~ lift (not_none_and_gt avg_query_duration_sec (PInt 300)) ;;
        when slow
          (duration <~
             lift (format_duration_seconds avg_query_duration_sec 1) ;;
           emit (Append
             ("User **" ++ selected_user
              ++ "** has an average query duration of **" ++ duration
              ++ "**. "
              ++ "Review long-running queries for optimization (e.g., using better filters, indexing, or materialized views)."))) ;;;
        costly <~ lift (not_none_and_gt avg_credits_per_query (PFloat 1)) ;;
        when costly
          (credits <~ lift (str_format (tmpl "" (spec_f false 2) "")
                              avg_credits_per_query) ;;
           emit (Append
             ("User **" ++ selected_user
              ++ "** shows high average credits per query (**" ++ credits
              ++ "**). "
              ++ "Suggest reviewing query patterns for potential inefficiencies, especially large scans or joins."))) ;;;
        any_queries <~ lift (py_gt total_query_count (PInt 0)) ;;
        failing <~
          (if any_queries then
             lift (rate <- py_truediv failed_query_count total_query_count ;;
                   Ok (num_gtb rate (PFloat (round64 (5 # 100)))))
           else w_ret false) ;;
        when failing
          (rate <~ lift (py_truediv failed_query_count total_query_count) ;;
           pct <~ lift (format_percentage (PNum rate) 1) ;;
           emit (Append
             ("User **" ++ selected_user ++ "** has a **" ++ pct
              ++ "** failed query rate. "
              ++ "Investigate common errors or complex queries failing frequently to improve user experience and reduce retries.")))) ;;;
     user_warehouse_util_data <~
       lift (execute_query "USER_WAREHOUSE_UTILIZATION_OVERVIEW"
               [("start_date", ParamDate start_date);
                ("end_date", ParamDate end_date);
                ("selected_user_name", ParamName (Some selected_user))]) ;;
     when (negb (df_empty user_warehouse_util_data))
       (for_each (iterrows user_warehouse_util_data)
          (fun r =>
             idle <~ lift (row_getitem r "IDLE_PERCENTAGE_ON_WH_USER_USED") ;;
             high <~ lift (not_none_and_gt idle (PInt 20)) ;;
             when high
               (name <~ lift (row_getitem r "WAREHOUSE_NAME") ;;
                fraction <~ lift (py_truediv idle (PNum (PInt 100))) ;;
                pct <~ lift (format_percentage (PNum fraction) 1) ;;
                emit (Append
                  ("User **" ++ selected_user
                   ++ "** frequently uses warehouse **" ++ py_str name
                   ++ "** which has **" ++ pct ++ "** idle time. "
                   ++ "Ensure the user is selecting the most appropriate warehouse size and auto-suspend settings."))))))
    is_DataFetchError
    (fun e => display_warning (UserDataFailed e)).

(** The advisory of lines 156-160. *)
Definition idle_suspend_advice (selected_warehouse pct duration : string)
    : string :=
  "Warehouse **" ++ selected_warehouse ++ "** has **" ++ pct
  ++ "** idle time and an auto-suspend setting of **" ++ duration ++ "**. "
  ++ "Consider reducing auto-suspend to 1 or 5 minutes to optimize cost.".

(** The advisory of lines 173-177. *)
Definition queued_advice (selected_warehouse duration : string) : string :=
  "Warehouse **" ++ selected_warehouse ++ "** experienced **" ++ duration
  ++ "** in queued overload time. This may indicate the warehouse is undersized for peak loads. "
  ++ "Consider temporarily or permanently increasing its size during high usage periods.".

(** The advisory of lines 182-185. *)
Definition low_usage_advice (selected_warehouse minutes size : string)
    : string :=
  "Warehouse **" ++ selected_warehouse
  ++ "** has relatively low active usage (**" ++ minutes
  ++ " minutes**) for its size (**" ++ size
  ++ "**). If this pattern persists, consider rightsizing to a smaller warehouse.".

(** [warehouse_size not in ('X-SMALL', 'SMALL')]. *)
Definition not_small (warehouse_size : pyval) : bool :=
  match warehouse_size with
  | PStr s => negb (String.eqb s "X-SMALL" || String.eqb s "SMALL")
  | _ => true
  end.

(** Line 155: [idle_percentage is not None and idle_percentage > 20 and
    auto_suspend_setting > 60 * 5]. *)
Definition idle_suspend_fires (idle_percentage auto_suspend_setting : pyval)
    : result bool :=
  idle <- not_none_and_gt idle_percentage (PInt 20) ;;
  if idle then py_gt auto_suspend_setting (PInt (60 * 5)) else Ok false.

(** recommendations.py, lines 155-160: idle time with a long auto-suspend. *)
Definition idle_suspend_rule (selected_warehouse : string)
    (idle_percentage auto_suspend_setting : pyval) : writer rec_effect unit :=
  fires <~ lift (idle_suspend_fires idle_percentage auto_suspend_setting) ;;
  when fires
    (fraction <~ lift (py_truediv idle_percentage (PNum (PInt 100))) ;;
     pct <~ lift (format_percentage (PNum fraction) 1) ;;
     duration <~ lift (format_duration_seconds auto_suspend_setting 1) ;;
     emit (Append (idle_suspend_advice selected_warehouse pct duration))).

(** recommendations.py, lines 162-177: queued overload time. *)
Definition queued_overload_rule (start_date end_date : date)
    (selected_warehouse : string) : writer rec_effect unit :=
  queued_time_data <~
    lift (execute_query "WAREHOUSE_QUEUED_OVERLOAD_TIME_TREND"
            [("start_date", ParamDate start_date);
             ("end_date", ParamDate end_date);
             ("selected_warehouse_name",
              ParamName (Some selected_warehouse))]) ;;
  when (negb (df_empty queued_time_data))
    (queued <~
       lift (df_getitem queued_time_data "TOTAL_QUEUED_OVERLOAD_TIME_SEC") ;;
     total_queued_time <~ lift (series_sum queued) ;;
     when (num_gtb total_queued_time (PFloat 1800))
       (duration <~
          lift (format_duration_seconds (PNum total_queued_time) 1) ;;
        emit (Append (queued_advice selected_warehouse duration)))).

(** recommendations.py, lines 179-185: low active usage for the size. *)
Definition low_usage_rule (start_date end_date : date)
    (selected_warehouse : string) (total_active_minutes warehouse_size : pyval)
    : writer rec_effect unit :=
  low <~
    lift (py_lt total_active_minutes
            (PFloat (Qred (inject_Z (date_diff end_date start_date)
                           * 60 * (1 # 10))))) ;;
  when (low && not_small warehouse_size)
    (emit (Append
             (low_usage_advice selected_warehouse
                (py_str total_active_minutes) (py_str warehouse_size)))).

(** recommendations.py, lines 138-189: the rules for one warehouse. *)
Definition warehouse_recommendations (start_date end_date : date)
    (selected_warehouse : string) : writer rec_effect unit :=
  try_except
    (prev <~ lift (calculate_prev_period_dates start_date end_date) ;;
     warehouse_summary_data <~
       lift (execute_query "WAREHOUSE_SUMMARY_METRICS"
               [("start_date", ParamDate start_date);
                ("end_date", ParamDate end_date);
                ("prev_start_date", ParamDate (fst prev));
                ("prev_end_date", ParamDate (snd prev));
                ("selected_warehouse_name",
                 ParamName (Some selected_warehouse))]) ;;
     when (negb (df_empty warehouse_summary_data))
       (idle_percentage <~
          lift (cell0 warehouse_summary_data "IDLE_PERCENTAGE") ;;
        auto_suspend_setting <~
          lift (cell0 warehouse_summary_data "AUTO_SUSPEND") ;;
        warehouse_size <~ lift (cell0 warehouse_summary_data "SIZE") ;;
        total_active_minutes <~
          lift (cell0 warehouse_summary_data "ACTIVE_MINUTES") ;;
        idle_suspend_rule selected_warehouse idle_percentage
          auto_suspend_setting ;;;
        queued_overload_rule start_date end_date selected_warehouse ;;;
        low_usage_rule start_date end_date selected_warehouse
          total_active_minutes warehouse_size))
    is_DataFetchError
    (fun e => display_warning (WarehouseDataFailed e)).

(** The rule battery: everything before the final test of line 191. *)
Definition rule_battery (start_date end_date : date)
    (selected_user selected_warehouse : option string)
    : writer rec_effect unit :=
  when (negb (truthy selected_user) && negb (truthy selected_warehouse))
    (overview_recommendations start_date end_date) ;;;
  when (truthy selected_user)
    (user_recommendations start_date end_date (or_default "" selected_user)) ;;;
  when (truthy selected_warehouse)
    (warehouse_recommendations start_date end_date
       (or_default "" selected_warehouse)).

(** Lines 191-194. *)
Definition final_recommendations (recommendations : list string)
    : list string :=
  match recommendations with
  | [] => [NO_RECOMMENDATIONS]
  | _ => recommendations
  end.

(** [generate_finops_recommendations(data_fetcher, start_date, end_date,
    selected_user, selected_warehouse)]. *)
Definition generate_finops_recommendations (start_date end_date : date)
    (selected_user selected_warehouse : option string) : ui (list string) :=
  match rule_battery start_date end_date selected_user selected_warehouse with
  | (log, Ok _) => (shown log, Ok (final_recommendations (appended log)))
  | (log, Raise e) => (shown log, Raise e)
  end.

End Pages.

(** ** models/dashboard_configs.py: the date range presets *)

(** [DATE_RANGE_OPTIONS]: a number of days, or [None] for the custom
    range. *)
Definition DATE_RANGE_OPTIONS : list (string * option Z) :=
  [("Last 7 Days", Some 7); ("Last 30 Days", Some 30);
   ("Last 90 Days", Some 90); ("Last 1 Year", Some 365);
   ("Custom Range", None)].

(** [d[key]] on a dictionary: [KeyError] for a missing key. *)
Fixpoint dict_getitem {A : Type} (d : list (string * A)) (key : string)
    : result A :=
  match d with
  | [] => Raise KeyError
  | (k, v) :: rest => if String.eqb key k then Ok v else dict_getitem rest key
  end.

(** [list(d.keys()).index(key) if key in d else 0]. *)
Fixpoint index_or_zero {A : Type} (d : list (string * A)) (key : string)
    : nat :=
  match d with
  | [] => O
  | (k, _) :: rest =>
      if String.eqb key k then O
      else if existsb (fun kv => String.eqb key (fst kv)) rest
           then S (index_or_zero rest key)
           else O
  end.

(** ** ui/base_components.py: the date range selector *)

(** What the selector puts on the page. *)
Inductive selector_event : Type :=
| st_markdown_select_date_range
| st_selectbox_preset (options : list string) (index : nat)
| st_date_input (label : string) (value : date)
| st_error_end_before_start
| st_info_showing (start_date end_date : date).

(** [date_range_selector(data_fetcher, key_prefix, default_days)], where
    [today] is [date.today()], [selected_option] what the select box
    returns, and [custom_start] and [custom_end] what the two date inputs
    return. *)
Definition date_range_selector (today : date) (default_days : Z)
    (selected_option : string) (custom_start custom_end : date)
    : writer selector_event (date * date) :=
  emit st_markdown_select_date_range ;;;
  let default_end_date := today in
  default_start_date <~
    lift (date_sub_days default_end_date (default_days - 1)) ;;
  emit (st_selectbox_preset (map fst DATE_RANGE_OPTIONS)
          (index_or_zero DATE_RANGE_OPTIONS
             ("Last " ++ Z_to_string default_days ++ " Days"))) ;;;
  days <~ lift (dict_getitem DATE_RANGE_OPTIONS selected_option) ;;
  match days with
  | Some days =>
      let end_date := default_end_date in
      start_date <~ lift (date_sub_days end_date (days - 1)) ;;
      emit (st_info_showing start_date end_date) ;;;
      w_ret (start_date, end_date)
  | None =>
      emit (st_date_input "Start Date:" default_start_date) ;;;
      emit (st_date_input "End Date:" default_end_date) ;;;
      let start_date := custom_start in
      let end_date := custom_end in
      range <~
        (if toordinal end_date <? toordinal start_date then
           emit st_error_end_before_start ;;;
           w_ret (default_start_date, default_end_date)
         else w_ret (start_date, end_date)) ;;
      emit (st_info_showing (fst range) (snd range)) ;;;
      w_ret range
  end.

(** ** models/dashboard_configs.py: charts *)

(** One entry of [CHART_CONFIGS]; an absent key is [None]. *)
Record chart_entry : Type := {
  ce_title : option string;
  ce_description : option string;
  ce_query_id : option string;
  ce_chart_type : option string;
  ce_x_col : option string;
  ce_y_col : option string;
  ce_x_axis_title : option string;
  ce_y_axis_title : option string;
  ce_sort_desc : option bool;
  ce_name_col : option string;
  ce_value_col : option string
}.

Definition line_entry (title description query_id x_col y_col x_axis_title
    y_axis_title : string) : chart_entry :=
  {| ce_title := Some title; ce_description := Some description;
     ce_query_id := Some query_id; ce_chart_type := Some "line";
     ce_x_col := Some x_col; ce_y_col := Some y_col;
     ce_x_axis_title := Some x_axis_title;
     ce_y_axis_title := Some y_axis_title; ce_sort_desc := None;
     ce_name_col := None; ce_value_col := None |}.

Definition bar_entry (title description query_id x_col y_col x_axis_title
    y_axis_title : string) : chart_entry :=
  {| ce_title := Some title; ce_description := Some description;
     ce_query_id := Some query_id; ce_chart_type := Some "bar";
     ce_x_col := Some x_col; ce_y_col := Some y_col;
     ce_x_axis_title := Some x_axis_title;
     ce_y_axis_title := Some y_axis_title; ce_sort_desc := Some true;
     ce_name_col := None; ce_value_col := None |}.

Definition pie_entry (title description query_id name_col value_col
    x_axis_title y_axis_title : string) : chart_entry :=
  {| ce_title := Some title; ce_description := Some description;
     ce_query_id := Some query_id; ce_chart_type := Some "pie";
     ce_x_col := None; ce_y_col := None;
     ce_x_axis_title := Some x_axis_title;
     ce_y_axis_title := Some y_axis_title; ce_sort_desc := None;
     ce_name_col := Some name_col; ce_value_col := Some value_col |}.

Definition table_entry (title description query_id : string) : chart_entry :=
  {| ce_title := Some title; ce_description := Some description;
     ce_query_id := Some query_id; ce_chart_type := Some "table";
     ce_x_col := None; ce_y_col := None; ce_x_axis_title := None;
     ce_y_axis_title := None; ce_sort_desc := None;
     ce_name_col := None; ce_value_col := None |}.

Definition OVERVIEW_CHARTS : list chart_entry := [
  line_entry "Daily Credit Consumption Trend"
    "Total daily credit consumption across all services."
    "DAILY_CREDIT_CONSUMPTION_TREND" "USAGE_DAY" "DAILY_CREDITS_USED"
    "Date" "Credits Used";
  bar_entry "Estimated Cost by Service Type"
    "Cost breakdown by Snowflake service type (e.g., Compute, Storage, Cloud Services)."
    "COST_BY_SERVICE_TYPE" "SERVICE_TYPE" "ESTIMATED_COST_USD"
    "Service Type" "Estimated Cost (USD)";
  bar_entry "Top 10 Warehouses by Cost"
    "The warehouses incurring the highest costs."
    "TOP_10_WAREHOUSES_BY_COST" "WAREHOUSE_NAME" "ESTIMATED_COST_USD"
    "Warehouse Name" "Estimated Cost (USD)";
  bar_entry "Top 10 Users by Cost" "The users incurring the highest costs."
    "TOP_10_USERS_BY_COST" "USER_NAME" "ESTIMATED_COST_USD"
    "User Name" "Estimated Cost (USD)"
].

Definition USER_360_CHARTS : list chart_entry := [
  line_entry "User's Daily Credit Consumption Trend"
    "Visualizes daily credit consumption by the selected user to identify personal trends."
    "USER_DAILY_CREDIT_CONSUMPTION" "USAGE_DAY" "DAILY_CREDITS_USED"
    "Date" "Credits Used";
  bar_entry "User's Estimated Cost by Query Type"
    "Breakdown of estimated costs by the types of queries run by this user (e.g., SELECT, DML, DDL)."
    "USER_QUERY_TYPE_DISTRIBUTION" "QUERY_TYPE" "ESTIMATED_COST_USD"
    "Query Type" "Estimated Cost (USD)";
  bar_entry "User's Top 10 Warehouses by Estimated Cost"
    "Warehouses where the user incurred the highest estimated costs. Consider if the right warehouse size/type is being used."
    "USER_WAREHOUSE_COST_BREAKDOWN" "WAREHOUSE_NAME" "ESTIMATED_COST_USD"
    "Warehouse Name" "Estimated Cost (USD)";
  bar_entry "User's Top 10 Roles by Estimated Cost"
    "Snowflake roles the user frequently assumed that incurred the highest estimated costs. Review role privileges and usage patterns."
    "USER_ROLE_COST_BREAKDOWN" "ROLE_NAME" "ESTIMATED_COST_USD"
    "Role Name" "Estimated Cost (USD)";
  table_entry "Underutilized Warehouses (Used by User)"
    "Warehouses used by this user that exhibit significant idle time. Opportunities to adjust AUTO_SUSPEND."
    "USER_WAREHOUSE_UTILIZATION_OVERVIEW";
  table_entry "User's Top 20 Most Expensive Queries"
    "The user's queries that consumed the most credits. Prioritize these for optimization, examining `QUERY_TEXT`."
    "USER_TOP_EXPENSIVE_QUERIES";
  table_entry "User's Top 20 Longest Running Queries"
    "The user's queries with the longest execution times. Analyze `QUEUED_OVERLOAD_TIME` and `COMPILATION_TIME` for bottlenecks."
    "USER_TOP_LONG_RUNNING_QUERIES"
].

Definition WAREHOUSE_INSIGHTS_CHARTS : list chart_entry := [
  line_entry "Warehouse Daily Credit Consumption"
    "Trend of daily credit consumption for the selected warehouse."
    "WAREHOUSE_DAILY_CREDIT_CONSUMPTION" "USAGE_DAY" "DAILY_CREDITS_USED"
    "Date" "Credits Used";
  pie_entry "Warehouse Query Completion Status"
    "Breakdown of query success vs. failure rates for this warehouse."
    "WAREHOUSE_QUERY_COMPLETION_STATUS" "STATUS" "QUERY_COUNT"
    "Status" "Query Count";
  pie_entry "Warehouse Query Completion Cost"
    "Cost breakdown by query success vs. failure rates for this warehouse."
    "WAREHOUSE_QUERY_COMPLETION_STATUS" "STATUS" "ESTIMATED_COST_USD"
    "Status" "Estimated Cost (USD)";
  bar_entry "Top 10 Users on this Warehouse by Cost"
    "Users who incurred the most cost on this specific warehouse."
    "WAREHOUSE_TOP_USERS_BY_COST" "USER_NAME" "ESTIMATED_COST_USD"
    "User Name" "Estimated Cost (USD)";
  bar_entry "Top 10 Roles on this Warehouse by Cost"
    "Roles that incurred the most cost on this specific warehouse."
    "WAREHOUSE_TOP_ROLES_BY_COST" "ROLE_NAME" "ESTIMATED_COST_USD"
    "Role Name" "Estimated Cost (USD)";
  line_entry "Warehouse Queued Overload Time Trend"
    "Daily trend of time queries spent queued due to warehouse overload. High values indicate undersized warehouse."
    "WAREHOUSE_QUEUED_OVERLOAD_TIME_TREND" "USAGE_DAY"
    "TOTAL_QUEUED_OVERLOAD_TIME_SEC" "Date" "Total Queued Time (seconds)"
].

(** [CHART_CONFIGS.get(section_key, [])]. *)
Definition CHART_CONFIGS (section_key : string) : list chart_entry :=
  if String.eqb section_key "OVERVIEW_CHARTS" then OVERVIEW_CHARTS
  else if String.eqb section_key "USER_360_CHARTS" then USER_360_CHARTS
  else if String.eqb section_key "WAREHOUSE_INSIGHTS_CHARTS"
       then WAREHOUSE_INSIGHTS_CHARTS
  else [].

(** ** ui/chart_renderer.py and the chart sections *)

(** The texts of the chart renderer and of the chart sections, one
    constructor per call site. *)
Inductive chart_message : Type :=
| NoDataAvailable (title : string)
| LineMissingColumns (title : string) (x_col y_col : option string)
| BarMissingColumns (title : string) (x_col y_col : option string)
| UnsupportedChartType (chart_type : option string)
| NoChartConfigs (section_key : string)
| IncompleteChartConfig (title : string)
| ChartLoadFailed (title : string) (e : exn)
| ChartMissingColumns (title : string)
| ChartUnexpected (title : string) (e : exn).

Inductive mark : Type := mark_line | mark_bar.

(** A line or bar chart as [_render_line_chart] and [_render_bar_chart]
    build it. *)
Record xy_chart : Type := {
  xy_mark : mark;
  xy_data : DataFrame;
  xy_title : string;
  xy_x_col : option string;
  xy_y_col : option string;
  xy_x_axis_title : option string;
  xy_y_axis_title : option string;
  xy_sort_desc : bool;
  xy_theme : theme
}.

(** What a chart section puts on the page: the events of the metric and
    pie renderers, and its own. *)
Inductive chart_event : Type :=
| Ui (e : ui_event)
| st_info (m : chart_message)
| chart_st_warning (m : chart_message)
| chart_warning_box (m : chart_message)
| chart_error_box (m : chart_message)
| st_dataframe_wide (data : DataFrame)
| st_markdown_bold (title : string)
| st_caption (description : string)
| st_altair_xy (chart : xy_chart).

(** The events of a [ui] computation, on the page of a chart section. *)
Definition on_page {A : Type} (m : ui A) : writer chart_event A :=
  (map Ui (fst m), snd m).

(** [config.get(key, default)] where the default is itself optional. *)
Definition or_else {A : Type} (o d : option A) : option A :=
  match o with Some a => Some a | None => d end.

(** The pie chart's view of an entry. *)
Definition pie_config (config : chart_entry) : chart_config :=
  {| ch_title := ce_title config; ch_name_col := ce_name_col config;
     ch_value_col := ce_value_col config |}.

Section Charts.

(** Building a line or bar chart with Altair, from [_create_base_chart]
    to [st.altair_chart], the look-ups in the theme included: the chart is
    drawn, or an exception is raised. *)
Variable draw : xy_chart -> result unit.

(** Building a pie chart with Altair, likewise. *)
Variable draw_pie : pie_chart -> result unit.

Variable execute_query : string -> params -> result DataFrame.

(** The chart is built and handed to [st.altair_chart]. *)
Definition st_altair_chart_xy (chart : xy_chart) : writer chart_event unit :=
  lift (draw chart) ;;; emit (st_altair_xy chart).

(** [_render_line_chart(data, config, theme_config)]. *)
Definition _render_line_chart (data : DataFrame) (config : chart_entry)
    (theme_config : theme) : writer chart_event unit :=
  let x_col := ce_x_col config in
  let y_col := ce_y_col config in
  let x_axis_title := or_else (ce_x_axis_title config) x_col in
  let y_axis_title := or_else (ce_y_axis_title config) y_col in
  let title := or_default "Line Chart" (ce_title config) in
  if negb (has_opt_column x_col data && has_opt_column y_col data) then
    emit (chart_st_warning (LineMissingColumns title x_col y_col)) ;;;
    emit (Ui (st_dataframe data))
  else
    st_altair_chart_xy
      {| xy_mark := mark_line; xy_data := data; xy_title := title;
         xy_x_col := x_col; xy_y_col := y_col;
         xy_x_axis_title := x_axis_title; xy_y_axis_title := y_axis_title;
         xy_sort_desc := false; xy_theme := theme_config |}.

(** [_render_bar_chart(data, config, theme_config)]. *)
Definition _render_bar_chart (data : DataFrame) (config : chart_entry)
    (theme_config : theme) : writer chart_event unit :=
  let x_col := ce_x_col config in
  let y_col := ce_y_col config in
  let x_axis_title := or_else (ce_x_axis_title config) x_col in
  let y_axis_title := or_else (ce_y_axis_title config) y_col in
  let title := or_default "Bar Chart" (ce_title config) in
  let sort_desc := or_default false (ce_sort_desc config) in
  if negb (has_opt_column x_col data && has_opt_column y_col data) then
    emit (chart_st_warning (BarMissingColumns title x_col y_col)) ;;;
    emit (Ui (st_dataframe data))
  else
    st_altair_chart_xy
      {| xy_mark := mark_bar; xy_data := data; xy_title := title;
         xy_x_col := x_col; xy_y_col := y_col;
         xy_x_axis_title := x_axis_title; xy_y_axis_title := y_axis_title;
         xy_sort_desc := sort_desc; xy_theme := theme_config |}.

(** [_render_table(data, config, theme_config)]. *)
Definition _render_table (data : DataFrame) (config : chart_entry)
    (theme_config : theme) : writer chart_event unit :=
  let title := or_default "Data Table" (ce_title config) in
  let description := or_default "" (ce_description config) in
  emit (st_markdown_bold title) ;;;
  when (truthy (Some description)) (emit (st_caption description)) ;;;
  if df_empty data then emit (st_info (NoDataAvailable title))
  else emit (st_dataframe_wide data).

(** [render_chart(data, chart_config, theme_config)]. *)
Definition render_chart (data : DataFrame) (chart_config : chart_entry)
    (theme_config : theme) : writer chart_event unit :=
  if df_empty data then
    emit (st_info
            (NoDataAvailable (or_default "this chart" (ce_title chart_config))))
  else
    let chart_type := ce_chart_type chart_config in
    if String.eqb (or_default "" chart_type) "line" then
      _render_line_chart data chart_config theme_config
    else if String.eqb (or_default "" chart_type) "bar" then
      _render_bar_chart data chart_config theme_config
    else if String.eqb (or_default "" chart_type) "pie" then
      on_page
        (_render_pie_chart draw_pie data (pie_config chart_config)
           theme_config)
    else if String.eqb (or_default "" chart_type) "table" then
      _render_table data chart_config theme_config
    else
      emit (chart_st_warning (UnsupportedChartType chart_type)) ;;;
      emit (st_dataframe_wide data).

(** dashboard_sections.py, lines 160-168. *)
Definition chart_params (section_key : string) (start_date end_date : date)
    (selected_entity : option string) : params :=
  ([("start_date", ParamDate start_date); ("end_date", ParamDate end_date)]
   ++ (if truthy selected_entity then
         if String.prefix "USER_" section_key
         then [("selected_user_name", ParamName selected_entity)]
         else if String.prefix "WAREHOUSE_" section_key
         then [("selected_warehouse_name", ParamName selected_entity)]
         else []
       else []))%list.

(** The body of the loop of [display_chart_section], for one [config]. *)
Definition display_chart (section_key : string) (start_date end_date : date)
    (selected_entity : option string) (config : chart_entry)
    : writer chart_event unit :=
  let title := or_default "Unknown Chart" (ce_title config) in
  if negb (truthy (ce_query_id config))
  then emit (chart_error_box (IncompleteChartConfig title))
  else
    let query_id := or_default "" (ce_query_id config) in
    let params := chart_params section_key start_date end_date selected_entity in
    try_except
      (data <~ lift (execute_query query_id params) ;;
       render_chart data config APP_THEME)
      any_exception
      (fun e =>
         match e with
         | DataFetchError => emit (chart_error_box (ChartLoadFailed title e))
         | KeyError => emit (chart_error_box (ChartMissingColumns title))
         | _ => emit (chart_error_box (ChartUnexpected title e))
         end).

(** [display_chart_section(data_fetcher, section_title, section_key,
    start_date, end_date, selected_entity)]; the layout in columns is not
    modelled. *)
Definition display_chart_section (section_title section_key : string)
    (start_date end_date : date) (selected_entity : option string)
    : writer chart_event unit :=
  emit (Ui (display_section_header section_title)) ;;;
  match CHART_CONFIGS section_key with
  | [] => emit (chart_warning_box (NoChartConfigs section_key))
  | chart_configs =>
      for_each chart_configs
        (display_chart section_key start_date end_date selected_entity)
  end.

End Charts.

(** An error box, of a metric or of a chart. *)
Definition is_error_box (e : chart_event) : bool :=
  match e with
  | chart_error_box _ => true
  | Ui (display_error_box _) => true
  | _ => false
  end.

(** ** core/query_store.py and core/data_fetcher.py: the fetcher *)

(** The keys of [SQL_QUERIES]. *)
Definition SQL_QUERY_IDS : list string :=
  ["TOTAL_COST_AND_CREDITS_OVERVIEW"; "DAILY_CREDIT_CONSUMPTION_TREND";
   "COST_BY_SERVICE_TYPE"; "COST_BY_WAREHOUSE_TYPE";
   "TOP_10_WAREHOUSES_BY_COST"; "TOP_10_USERS_BY_COST";
   "LIST_ACTIVE_USERS_BY_COST"; "USER_360_SUMMARY_METRICS";
   "USER_DAILY_CREDIT_CONSUMPTION"; "USER_WAREHOUSE_COST_BREAKDOWN";
   "USER_ROLE_COST_BREAKDOWN"; "USER_QUERY_TYPE_DISTRIBUTION";
   "USER_TOP_EXPENSIVE_QUERIES"; "USER_TOP_LONG_RUNNING_QUERIES";
   "USER_WAREHOUSE_UTILIZATION_OVERVIEW"; "WAREHOUSE_SUMMARY_METRICS";
   "WAREHOUSE_DAILY_CREDIT_CONSUMPTION"; "WAREHOUSE_QUERY_COMPLETION_STATUS";
   "WAREHOUSE_TOP_USERS_BY_COST"; "WAREHOUSE_TOP_ROLES_BY_COST";
   "WAREHOUSE_QUEUED_OVERLOAD_TIME_TREND"; "LIST_ACTIVE_WAREHOUSES_BY_COST"].

Module DataFetcher.

Section Session.

(** The Snowpark session on the text stored under a query id:
    [pd.DataFrame(session.sql(SQL_QUERIES[query_id])
    .collect(_bind_parameters=params))], or the exception it raises. *)
Variable session : string -> params -> result DataFrame.

(** [DataFetcher.execute_query(query_id, params=None)], without the cache
    in front of it. *)
Definition execute_query (query_id : string) (params : option params)
    : result DataFrame :=
  if negb (existsb (String.eqb query_id) SQL_QUERY_IDS) then
    Raise DataFetchError
  else
    let params := or_default [] params in
    match session query_id params with
    | Ok result_df => Ok result_df
    | Raise _ => Raise DataFetchError
    end.

End Session.

End DataFetcher.

(** ** ui/base_components.py: the entity selector *)

Inductive entity_event : Type :=
| st_markdown_select (entity_type : string)
| st_warning_no_active (entity_type : string)
| st_selectbox_entity (entity_type : string) (options : list pyval)
| st_error_load_failed (entity_type : string) (e : exn)
| st_error_missing_columns (entity_type : string).

Section EntitySelector.

Variable execute_query : string -> option params -> result DataFrame.

(** [sorted(series.unique().tolist())]. *)
Variable sorted_unique : list pyval -> result (list pyval).

(** What the select box returns for its options. *)
Variable selectbox : list pyval -> option string.

(** [entity_selector(data_fetcher, entity_type, key_prefix)]. *)
Definition entity_selector (entity_type : string)
    : writer entity_event (option string) :=
  emit (st_markdown_select entity_type) ;;;
  let query_id := "LIST_ACTIVE_" ++ upper entity_type ++ "S_BY_COST" in
  try_except
    (entity_data <~ lift (execute_query query_id None) ;;
     if df_empty entity_data then
       emit (st_warning_no_active entity_type) ;;; w_ret None
     else
       names <~ lift (df_getitem entity_data (upper entity_type ++ "_NAME")) ;;
       entity_names <~ lift (sorted_unique names) ;;
       emit (st_selectbox_entity entity_type entity_names) ;;;
       w_ret (selectbox entity_names))
    (fun e => match e with
              | DataFetchError | KeyError => true
              | _ => false
              end)
    (fun e =>
       match e with
       | DataFetchError =>
           emit (st_error_load_failed entity_type e) ;;; w_ret None
       | _ => emit (st_error_missing_columns entity_type) ;;; w_ret None
       end).

End EntitySelector.

(** The fetcher as the pages call it, with parameters. *)
Definition fetch (session : string -> params -> result DataFrame)
    : string -> params -> result DataFrame :=
  fun query_id params => DataFetcher.execute_query session query_id (Some params).



(** ** Reading a series as rationals (for the statements about shares) *)




(** ** Reading the trace of the rule battery *)

(** Every recommendation appended in [log] satisfies [P]. *)
Definition only_advice (P : string -> Prop) (log : list rec_effect) : Prop :=
  forall s, In s (appended log) -> P s.

(** The advisories of the two later warehouse rules. *)
Definition other_advice (selected_warehouse s : string) : Prop :=
  (exists d, s = queued_advice selected_warehouse d)
  \/ (exists m z, s = low_usage_advice selected_warehouse m z).

(** The condition of the idle/auto-suspend rule on numbers. *)
Definition fires (i a : pynum) : bool :=
  num_gtb i (PInt 20) && num_gtb a (PInt 300).

(** ** Fixtures for the examples *)

(** Stands for [repr] on floats where no float is printed raw. *)
Definition no_float_repr (_ : Q) : string := "".

(** A data fetcher that always returns the frame [data]. *)
Definition fetch_const (data : DataFrame) : string -> params -> result DataFrame :=
  fun _ _ => Ok data.

(** The overview result of the end-to-end scenario. *)
Definition overview_frame : DataFrame :=
  [("TOTAL_CREDITS", [PNum (PInt 1000)]);
   ("ESTIMATED_COST_USD", [PNum (PInt 2000)]);
   ("PREV_TOTAL_CREDITS", [PNum (PInt 800)]);
   ("PREV_ESTIMATED_COST_USD", [PNum (PInt 1600)])].

(** A data fetcher whose every query fails. *)
Definition fetch_fail : string -> params -> result DataFrame :=
  fun _ _ => Raise DataFetchError.

(** A warehouse summary row. *)
Definition summary_frame (idle_percentage auto_suspend : Z) : DataFrame :=
  [("WAREHOUSE_NAME", [PStr "WH1"]); ("SIZE", [PStr "X-SMALL"]);
   ("AUTO_SUSPEND", [PNum (PInt auto_suspend)]);
   ("ACTIVE_MINUTES", [PNum (PInt 900)]);
   ("IDLE_PERCENTAGE", [PNum (PInt idle_percentage)])].

(** The summary of one warehouse; no queued overload in the period. *)
Definition fetch_warehouse (summary : DataFrame)
    : string -> params -> result DataFrame :=
  fun query_id _ =>
    if String.eqb query_id "WAREHOUSE_SUMMARY_METRICS" then Ok summary
    else Ok [].



(** A cost breakdown with one row per value. *)
Definition pie_frame (values : list Z) : DataFrame :=
  [("SERVICE_TYPE", map (fun _ => PStr "service") values);
   ("ESTIMATED_COST_USD", map (fun z => PNum (PInt z)) values)].

(** ** Reading a duration as its units *)

(** The text of a duration given by its units: the highest unit that is
    not zero and every unit below it. *)
Definition duration_text (days hours minutes seconds : Z)
    (decimal_places : nat) : string :=
  if 0 <? days then
    Z_to_string days ++ "d " ++ Z_to_string hours ++ "h "
    ++ Z_to_string minutes ++ "m " ++ fmt_seconds seconds decimal_places ++ "s"
  else if 0 <? hours then
    Z_to_string hours ++ "h " ++ Z_to_string minutes ++ "m "
    ++ fmt_seconds seconds decimal_places ++ "s"
  else if 0 <? minutes then
    Z_to_string minutes ++ "m " ++ fmt_seconds seconds decimal_places ++ "s"
  else fmt_seconds seconds decimal_places ++ "s".

(** ** Reading a template's text *)

(** The string holds no point. *)
Fixpoint no_point (s : string) : bool :=
  match s with
  | EmptyString => true
  | String c t => negb (Ascii.eqb c ".") && no_point t
  end.

(** ** Kinds of events on the page *)

Definition is_st_warning (e : ui_event) : bool :=
  match e with st_warning _ => true | _ => false end.

(** A metric card or an error box. *)
Definition is_card_or_error (e : ui_event) : bool :=
  match e with
  | st_metric _ _ _ _ _ => true
  | display_error_box _ => true
  | _ => false
  end.

(** The configuration names a query and a value column. *)
Definition complete (config : metric_config) : bool :=
  truthy (cfg_query_id config) && truthy (cfg_value_col config).

(** ** Frames as pandas builds them *)

(** Every column has as many cells as the frame has rows. *)
Definition df_rectangular (data : DataFrame) : bool :=
  forallb (fun cv => Nat.eqb (List.length (snd cv)) (df_len data)) data.

(** The columns the warehouse rules read from the summary. *)
Definition WAREHOUSE_RULE_COLUMNS : list string :=
  ["IDLE_PERCENTAGE"; "AUTO_SUSPEND"; "SIZE"; "ACTIVE_MINUTES"].

(** A data fetcher that has the warehouse summary and fails on every
    other query. *)
Definition fetch_summary_only (summary : DataFrame)
    : string -> params -> result DataFrame :=
  fun query_id _ =>
    if String.eqb query_id "WAREHOUSE_SUMMARY_METRICS" then Ok summary
    else Raise DataFetchError.

(** The advisory of recommendations.py, lines 75-78. *)
Definition cost_increase_advice (pct : string) : string :=
  "Overall estimated cost increased by **" ++ pct
  ++ "** compared to the previous period. "
  ++ "Investigate top cost drivers (warehouses, users, services) for potential optimizations.".

(** A data fetcher for the account-wide rules: no warehouse in the
    summary, and the total cost of the two periods. *)
Definition fetch_overview (total_cost_data : DataFrame)
    : string -> params -> result DataFrame :=
  fun query_id _ =>
    if String.eqb query_id "TOTAL_COST_AND_CREDITS_OVERVIEW"
    then Ok total_cost_data
    else Ok [].

(** A warehouse summary without the size of the warehouse. *)
Definition summary_without_size : DataFrame :=
  [("IDLE_PERCENTAGE", [PNum (PInt 35)]);
   ("AUTO_SUSPEND", [PNum (PInt 600)]);
   ("ACTIVE_MINUTES", [PNum (PInt 900)])].

(** The summary of a large warehouse, idle and hardly used. *)
Definition large_idle_summary : DataFrame :=
  [("IDLE_PERCENTAGE", [PNum (PInt 35)]);
   ("AUTO_SUSPEND", [PNum (PInt 600)]);
   ("SIZE", [PStr "LARGE"]);
   ("ACTIVE_MINUTES", [PNum (PInt 10)])].

(** The advisory of recommendations.py, lines 112-115. *)
Definition failed_rate_advice (selected_user pct : string) : string :=
  "User **" ++ selected_user ++ "** has a **" ++ pct
  ++ "** failed query rate. "
  ++ "Investigate common errors or complex queries failing frequently to improve user experience and reduce retries.".

(** A data fetcher that has the summary of the selected user; the user
    ran on no warehouse. *)
Definition fetch_user (user_summary_data : DataFrame)
    : string -> params -> result DataFrame :=
  fun query_id _ =>
    if String.eqb query_id "USER_360_SUMMARY_METRICS"
    then Ok user_summary_data
    else Ok [].

(** The summary of a user whose averages are missing. *)
Definition quiet_user_frame (total failed : Z) : DataFrame :=
  [("AVG_QUERY_DURATION_SEC", [PNone]);
   ("AVG_CREDITS_PER_QUERY", [PNone]);
   ("FAILED_QUERY_COUNT", [PNum (PInt failed)]);
   ("TOTAL_QUERY_COUNT", [PNum (PInt total)])].

(** The entry names a query of the store. *)
Definition metric_query_known (config : metric_config) : bool :=
  match cfg_query_id config with
  | Some q => existsb (String.eqb q) SQL_QUERY_IDS
  | None => false
  end.

Definition chart_query_known (config : chart_entry) : bool :=
  match ce_query_id config with
  | Some q => existsb (String.eqb q) SQL_QUERY_IDS
  | None => false
  end.

(** Fixtures for the examples of the charts and of the fetcher. *)
Definition credit_trend_chart : chart_entry :=
  line_entry "Daily Credit Consumption Trend"
    "Total daily credit consumption across all services."
    "DAILY_CREDIT_CONSUMPTION_TREND" "USAGE_DAY" "DAILY_CREDITS_USED"
    "Date" "Credits Used".

Definition scatter_chart : chart_entry :=
  {| ce_title := Some "Scatter"; ce_description := None;
     ce_query_id := Some "COST_BY_SERVICE_TYPE";
     ce_chart_type := Some "scatter"; ce_x_col := None; ce_y_col := None;
     ce_x_axis_title := None; ce_y_axis_title := None; ce_sort_desc := None;
     ce_name_col := None; ce_value_col := None |}.

Definition total_credits_card : metric_config :=
  card "Total Credits Used" "TOTAL_COST_AND_CREDITS_OVERVIEW" "TOTAL_CREDITS"
    (Some "PREV_TOTAL_CREDITS") (tmpl "" (spec_f true 0) "")
    (Some (tmpl "" (spec_pct true 2) "")) None
    "Total Snowflake credits consumed in the selected period.".

(** Altair when every chart can be drawn. *)
Definition draw_ok (_ : xy_chart) : result unit := Ok tt.

Definition draw_pie_ok (_ : pie_chart) : result unit := Ok tt.

(** A select box left at no choice. *)
Definition no_choice (_ : list pyval) : option string := None.

(** [sorted] and [unique] on names already in order. *)
Definition as_listed (names : list pyval) : result (list pyval) := Ok names.



(** * Properties *)

(** ** Helper lemmas *)

Lemma Qred_zero (q : Q) : q == 0 -> Qred q = 0%Q.
Proof.
  intro H. apply (Qred_complete q 0%Q H).
Qed.

(** *** Rounding to an integer *)

Lemma round_half_even_bounds (x : Q) :
  (inject_Z (round_half_even x) - (1 # 2) <= x
   /\ x <= inject_Z (round_half_even x) + (1 # 2))%Q.
Proof.
  destruct x as [n d]. unfold round_half_even. cbn [Qnum Qden].
  pose proof (Z.div_mod n (Zpos d) ltac:(lia)) as E.
  pose proof (Z.mod_pos_bound n (Zpos d) ltac:(lia)) as B.
  set (fl := n / Zpos d) in *. set (r := n mod Zpos d) in *.
  destruct (Z.compare_spec (2 * r) (Zpos d)) as [C | C | C];
    [destruct (Z.even fl) |..];
    unfold Qle, Qminus, Qplus, Qopp, inject_Z; cbn [Qnum Qden];
    split; nia.
Qed.

Lemma round_half_even_tie (x : Q) :
  (x == inject_Z (round_half_even x) - (1 # 2)
   \/ x == inject_Z (round_half_even x) + (1 # 2))%Q ->
  Z.even (round_half_even x) = true.
Proof.
  destruct x as [n d]. unfold round_half_even. cbn [Qnum Qden].
  pose proof (Z.div_mod n (Zpos d) ltac:(lia)) as E.
  pose proof (Z.mod_pos_bound n (Zpos d) ltac:(lia)) as B.
  set (fl := n / Zpos d) in *. set (r := n mod Zpos d) in *.
  destruct (Z.compare_spec (2 * r) (Zpos d)) as [C | C | C].
  - intros _. destruct (Z.even fl) eqn:P; [exact P |].
    rewrite Z.even_add, P. reflexivity.
  - unfold Qeq, Qminus, Qplus, Qopp, inject_Z; cbn [Qnum Qden].
    intros [H | H]; exfalso; nia.
  - unfold Qeq, Qminus, Qplus, Qopp, inject_Z; cbn [Qnum Qden].
    intros [H | H]; exfalso; nia.
Qed.

Lemma round_half_even_monotone (x y : Q) :
  (x <= y)%Q -> round_half_even x <= round_half_even y.
Proof.
  intro L.
  destruct (round_half_even_bounds x) as [Lx Ux].
  destruct (round_half_even_bounds y) as [Ly Uy].
  destruct (Z_le_gt_dec (round_half_even x) (round_half_even y)) as [| G];
    [assumption | exfalso].
  assert (G' : (inject_Z (round_half_even y) + 1
                <= inject_Z (round_half_even x))%Q).
  { rewrite <- (inject_Z_plus _ 1). rewrite <- Zle_Qle. lia. }
  assert (Ex : (x == inject_Z (round_half_even x) - (1 # 2))%Q) by lra.
  assert (Ey : (y == inject_Z (round_half_even y) + (1 # 2))%Q) by lra.
  assert (S : round_half_even x = round_half_even y + 1).
  { assert (Q1 : (inject_Z (round_half_even x)
                  <= inject_Z (round_half_even y) + 1)%Q) by lra.
    rewrite <- (inject_Z_plus _ 1) in Q1. rewrite <- Zle_Qle in Q1. lia. }
  pose proof (round_half_even_tie x (or_introl Ex)) as Px.
  pose proof (round_half_even_tie y (or_intror Ey)) as Py.
  rewrite S, Z.even_add, Py in Px. discriminate.
Qed.

Lemma round_half_even_int (k : Z) : round_half_even (inject_Z k) = k.
Proof.
  unfold round_half_even, inject_Z. cbn [Qnum Qden].
  rewrite Z.div_1_r, Z.mod_1_r. reflexivity.
Qed.

Lemma round_half_even_ge (x : Q) (k : Z) :
  (inject_Z k <= x)%Q -> k <= round_half_even x.
Proof.
  intro L. rewrite <- (round_half_even_int k).
  apply round_half_even_monotone, L.
Qed.

Lemma round_half_even_le (x : Q) (k : Z) :
  (x <= inject_Z k)%Q -> round_half_even x <= k.
Proof.
  intro L. rewrite <- (round_half_even_int k).
  apply round_half_even_monotone, L.
Qed.

(** *** Powers of two *)

Lemma pow2_Qpower (e : Z) : (pow2 e == 2 ^ e)%Q.
Proof.
  unfold pow2. destruct (Z.leb_spec 0 e) as [P | N].
  - apply (Zpower_Qpower 2 e P).
  - replace e with (- (- e)) at 2 by lia.
    rewrite Qpower_opp, <- (Zpower_Qpower 2 (- e)) by lia.
    assert (0 < 2 ^ (- e)) by (apply Z.pow_pos_nonneg; lia).
    destruct (2 ^ (- e)) as [| p | p] eqn:E; try lia.
    cbn [Z.to_pos]. unfold Qinv, inject_Z, Qeq. cbn. lia.
Qed.

Lemma pow2_pos (e : Z) : (0 < pow2 e)%Q.
Proof.
  rewrite pow2_Qpower. apply Qpower_0_lt. reflexivity.
Qed.

Lemma pow2_add (a b : Z) : (pow2 (a + b) == pow2 a * pow2 b)%Q.
Proof.
  rewrite !pow2_Qpower. apply Qpower_plus. discriminate.
Qed.

Lemma pow2_le (a b : Z) : a <= b -> (pow2 a <= pow2 b)%Q.
Proof.
  intro L. rewrite !pow2_Qpower. apply Qpower_le_compat_l; [exact L |].
  discriminate.
Qed.

Lemma pow2_lt (a b : Z) : a < b -> (pow2 a < pow2 b)%Q.
Proof.
  intro L. rewrite !pow2_Qpower. apply Qpower_lt_compat_l; [exact L |].
  reflexivity.
Qed.

Lemma pow2_lt_inv (a b : Z) : (pow2 a < pow2 b)%Q -> a < b.
Proof.
  rewrite !pow2_Qpower. intro L.
  apply (Qpower_lt_compat_l_inv 2); [exact L | reflexivity].
Qed.

Lemma pow2_int (e : Z) : 0 <= e -> pow2 e = inject_Z (2 ^ e).
Proof.
  intro P. unfold pow2. destruct (Z.leb_spec 0 e); [reflexivity | lia].
Qed.

(** *** The binade *)

Lemma Qabs_make (q : Q) : Qabs q = (Z.abs (Qnum q) # Qden q).
Proof. destruct q. reflexivity. Qed.

Lemma Qabs_frac (q : Q) :
  (Qabs q == inject_Z (Z.abs (Qnum q)) / inject_Z (Zpos (Qden q)))%Q.
Proof.
  rewrite Qabs_make. apply Qmake_Qdiv.
Qed.

Lemma Qnum_nonzero (q : Q) : ~ (q == 0)%Q -> Qnum q <> 0.
Proof.
  intros H E. apply H. destruct q as [n d]. cbn in E. subst n. reflexivity.
Qed.

Lemma binade_spec (q : Q) :
  ~ (q == 0)%Q ->
  (pow2 (binade q) <= Qabs q /\ Qabs q < pow2 (binade q + 1))%Q.
Proof.
  intro NZ. apply Qnum_nonzero in NZ.
  unfold binade.
  set (n := Z.abs (Qnum q)). set (d := Zpos (Qden q)).
  assert (Pn : 0 < n) by (subst n; lia).
  assert (Pd : 0 < d) by (subst d; lia).
  destruct (Z.log2_spec n Pn) as [Ln Un].
  destruct (Z.log2_spec d Pd) as [Ld Ud].
  pose proof (Z.log2_nonneg n) as Na. pose proof (Z.log2_nonneg d) as Nb.
  set (a := Z.log2 n) in *. set (b := Z.log2 d) in *.
  assert (A : (Qabs q == inject_Z n / inject_Z d)%Q) by apply Qabs_frac.
  assert (Dq : (0 < inject_Z d)%Q) by (rewrite (Zlt_Qlt 0 d) in Pd; exact Pd).
  assert (Hn1 : (inject_Z n < pow2 (a + 1))%Q).
  { rewrite pow2_int by lia. rewrite <- Zlt_Qlt.
    replace (a + 1) with (Z.succ a) by lia. exact Un. }
  assert (Hn0 : (pow2 a <= inject_Z n)%Q).
  { rewrite pow2_int by lia. rewrite <- Zle_Qle. exact Ln. }
  assert (Hd1 : (inject_Z d <= pow2 (b + 1))%Q).
  { rewrite pow2_int by lia. rewrite <- Zle_Qle. lia. }
  assert (Hd0 : (pow2 b <= inject_Z d)%Q).
  { rewrite pow2_int by lia. rewrite <- Zle_Qle. exact Ld. }
  destruct (Qle_bool (pow2 (a - b)) (Qabs q)) eqn:C.
  - apply Qle_bool_iff in C. split; [exact C |].
    rewrite A. apply Qlt_shift_div_r; [exact Dq |].
    pose proof (pow2_add (a - b + 1) b) as E.
    replace (a - b + 1 + b) with (a + 1) in E by lia.
    pose proof (pow2_pos (a - b + 1)) as P1.
    apply Qlt_le_trans with (1 := Hn1). rewrite E.
    apply Qmult_le_l; [exact P1 | exact Hd0].
  - assert (C' : (Qabs q < pow2 (a - b))%Q).
    { apply Qnot_le_lt. intro L. apply Qle_bool_iff in L. congruence. }
    replace (a - b - 1 + 1) with (a - b) by lia.
    split; [| exact C'].
    rewrite A. apply Qle_shift_div_l; [exact Dq |].
    pose proof (pow2_add (a - b - 1) (b + 1)) as E.
    replace (a - b - 1 + (b + 1)) with a in E by lia.
    pose proof (pow2_pos (a - b - 1)) as P1.
    apply Qle_trans with (2 := Hn0). rewrite E.
    apply Qmult_le_l; [exact P1 | exact Hd1].
Qed.

Lemma binade_unique (q : Q) (e : Z) :
  (pow2 e <= Qabs q)%Q -> (Qabs q < pow2 (e + 1))%Q -> binade q = e.
Proof.
  intros L U.
  assert (NZ : ~ (q == 0)%Q).
  { intro Z. rewrite Z in L. pose proof (pow2_pos e). cbn in L. lra. }
  destruct (binade_spec q NZ) as [L' U'].
  assert (binade q < e + 1)
    by (apply pow2_lt_inv; apply Qle_lt_trans with (1 := L'); exact U).
  assert (e < binade q + 1)
    by (apply pow2_lt_inv; apply Qle_lt_trans with (1 := L); exact U').
  lia.
Qed.

Lemma binade_monotone (x y : Q) :
  ~ (x == 0)%Q -> (Qabs x <= Qabs y)%Q -> binade x <= binade y.
Proof.
  intros NZ L.
  destruct (binade_spec x NZ) as [Lx _].
  assert (NY : ~ (y == 0)%Q).
  { intro Z. rewrite Z in L. pose proof (pow2_pos (binade x)).
    change (Qabs 0) with 0%Q in L. lra. }
  destruct (binade_spec y NY) as [_ Uy].
  assert (binade x < binade y + 1); [| lia].
  apply pow2_lt_inv. apply Qle_lt_trans with (1 := Lx).
  apply Qle_lt_trans with (1 := L). exact Uy.
Qed.

(** *** Rounding to binary64 *)

Lemma round_half_even_proper (x y : Q) :
  (x == y)%Q -> round_half_even x = round_half_even y.
Proof.
  intro E. apply Z.le_antisymm; apply round_half_even_monotone;
    rewrite E; apply Qle_refl.
Qed.

Lemma round64_zero (q : Q) : (q == 0)%Q -> round64 q = 0%Q.
Proof.
  intro H. unfold round64. destruct q as [n d]. unfold Qeq in H.
  cbn in H. rewrite Z.mul_1_r in H. subst n. reflexivity.
Qed.

Lemma Qnum_pos (q : Q) : (0 < q)%Q -> 0 < Qnum q.
Proof.
  destruct q as [n d]. unfold Qlt. cbn. lia.
Qed.

Lemma ulp_exponent_opp (q : Q) : ulp_exponent (- q) = ulp_exponent q.
Proof.
  unfold ulp_exponent, binade. rewrite !Qabs_make.
  destruct q as [n d]. unfold Qopp. cbn [Qnum Qden].
  rewrite Z.abs_opp. reflexivity.
Qed.

Lemma round64_positive (q : Q) :
  (0 < q)%Q ->
  (round64 q
   == inject_Z (round_half_even (q / pow2 (ulp_exponent q)))
      * pow2 (ulp_exponent q))%Q.
Proof.
  intro P. apply Qnum_pos in P. unfold round64.
  destruct q as [[| p | p] d]; cbn [Qnum] in P; try lia.
  change (Qabs (Zpos p # d)) with (Zpos p # d).
  cbn [Z.eqb Qnum Z.sgn]. rewrite Qred_correct, Z.mul_1_l. reflexivity.
Qed.

Lemma round64_opp (q : Q) : (round64 (- q) == - round64 q)%Q.
Proof.
  unfold round64. rewrite ulp_exponent_opp.
  destruct q as [[| p | p] d]; [reflexivity | |];
    cbn [Qopp Qnum Z.opp Z.eqb Z.sgn];
    change (Qabs (Zneg p # d)) with (Zpos p # d);
    change (Qabs (Zpos p # d)) with (Zpos p # d);
    rewrite !Qred_correct;
    set (m := round_half_even _); set (u := pow2 _);
    rewrite !inject_Z_mult; change (inject_Z (-1)) with (- (1))%Q;
    change (inject_Z 1) with 1%Q; ring.
Qed.

Lemma round64_ge_grid (q : Q) (k : Z) :
  (0 < q)%Q ->
  (inject_Z k * pow2 (ulp_exponent q) <= q)%Q ->
  (inject_Z k * pow2 (ulp_exponent q) <= round64 q)%Q.
Proof.
  intros P L. rewrite (round64_positive q P).
  pose proof (pow2_pos (ulp_exponent q)) as U.
  apply Qmult_le_compat_r; [| apply Qlt_le_weak, U].
  rewrite <- Zle_Qle. apply round_half_even_ge.
  apply Qle_shift_div_l; assumption.
Qed.

Lemma round64_le_grid (q : Q) (k : Z) :
  (0 < q)%Q ->
  (q <= inject_Z k * pow2 (ulp_exponent q))%Q ->
  (round64 q <= inject_Z k * pow2 (ulp_exponent q))%Q.
Proof.
  intros P L. rewrite (round64_positive q P).
  pose proof (pow2_pos (ulp_exponent q)) as U.
  apply Qmult_le_compat_r; [| apply Qlt_le_weak, U].
  rewrite <- Zle_Qle. apply round_half_even_le.
  apply Qle_shift_div_r; assumption.
Qed.

Lemma round64_nonneg (q : Q) : (0 <= q)%Q -> (0 <= round64 q)%Q.
Proof.
  intro P. destruct (Qlt_le_dec 0 q) as [S | Z].
  - pose proof (round64_ge_grid q 0 S) as G.
    rewrite Qmult_0_l in G. apply G, P.
  - rewrite (round64_zero q); [apply Qle_refl | lra].
Qed.

Lemma Qabs_of_pos (q : Q) : (0 < q)%Q -> (Qabs q == q)%Q.
Proof.
  intro P. apply Qabs_pos, Qlt_le_weak, P.
Qed.

Lemma pow2_grid (a b : Z) :
  b <= a -> (pow2 a == inject_Z (2 ^ (a - b)) * pow2 b)%Q.
Proof.
  intro L. rewrite <- pow2_int by lia. rewrite <- pow2_add.
  replace (a - b + b) with a by lia. reflexivity.
Qed.

Lemma round64_monotone_positive (x y : Q) :
  (0 < x)%Q -> (x <= y)%Q -> (round64 x <= round64 y)%Q.
Proof.
  intros Px L.
  assert (Py : (0 < y)%Q) by lra.
  assert (NZx : ~ (x == 0)%Q) by lra.
  assert (NZy : ~ (y == 0)%Q) by lra.
  assert (B : binade x <= binade y).
  { apply binade_monotone; [exact NZx |].
    rewrite (Qabs_of_pos x Px), (Qabs_of_pos y Py). exact L. }
  destruct (Z.eq_dec (ulp_exponent x) (ulp_exponent y)) as [E | NE].
  - rewrite (round64_positive x Px), (round64_positive y Py), E.
    pose proof (pow2_pos (ulp_exponent y)) as U.
    apply Qmult_le_compat_r; [| apply Qlt_le_weak, U].
    rewrite <- Zle_Qle. apply round_half_even_monotone.
    apply Qmult_le_compat_r; [exact L |].
    apply Qlt_le_weak, Qinv_lt_0_compat, U.
  - destruct (binade_spec x NZx) as [_ Ux].
    destruct (binade_spec y NZy) as [Ly _].
    rewrite (Qabs_of_pos x Px) in Ux. rewrite (Qabs_of_pos y Py) in Ly.
    assert (Uy : ulp_exponent y = binade y - 52)
      by (unfold ulp_exponent in *; lia).
    assert (Bs : binade x + 1 <= binade y)
      by (unfold ulp_exponent in *; lia).
    apply Qle_trans with (pow2 (binade y)).
    + rewrite (pow2_grid (binade y) (ulp_exponent x))
        by (unfold ulp_exponent in *; lia).
      apply round64_le_grid; [exact Px |].
      rewrite <- pow2_grid by (unfold ulp_exponent in *; lia).
      apply Qlt_le_weak, Qlt_le_trans with (1 := Ux), pow2_le, Bs.
    + rewrite (pow2_grid (binade y) (ulp_exponent y)) by lia.
      apply round64_ge_grid; [exact Py |].
      rewrite <- pow2_grid by lia. exact Ly.
Qed.

Lemma round64_monotone (x y : Q) :
  (x <= y)%Q -> (round64 x <= round64 y)%Q.
Proof.
  intro L.
  destruct (Qlt_le_dec 0 x) as [Px | Nx].
  - apply round64_monotone_positive; assumption.
  - destruct (Qlt_le_dec y 0) as [Ny | Py].
    + assert (O : (round64 (- y) <= round64 (- x))%Q)
        by (apply round64_monotone_positive; lra).
      rewrite !round64_opp in O. lra.
    + apply Qle_trans with 0%Q; [| apply round64_nonneg, Py].
      assert (O : (0 <= round64 (- x))%Q) by (apply round64_nonneg; lra).
      rewrite round64_opp in O. lra.
Qed.

Lemma round64_proper (x y : Q) : (x == y)%Q -> (round64 x == round64 y)%Q.
Proof.
  intro E. apply Qle_antisym; apply round64_monotone; rewrite E;
    apply Qle_refl.
Qed.

(** A number on the grid of its own binade is not changed. *)
Lemma round64_exact_positive (q : Q) (k u : Z) :
  (0 < q)%Q -> (q == inject_Z k * pow2 u)%Q -> ulp_exponent q <= u ->
  (round64 q == q)%Q.
Proof.
  intros P E U.
  assert (G : (q == inject_Z (k * 2 ^ (u - ulp_exponent q))
                    * pow2 (ulp_exponent q))%Q).
  { apply Qeq_trans with (1 := E).
    rewrite (pow2_grid u (ulp_exponent q) U), inject_Z_mult. ring. }
  apply Qle_antisym.
  - rewrite G at 2. apply round64_le_grid; [exact P |].
    rewrite <- G. apply Qle_refl.
  - rewrite G at 1. apply round64_ge_grid; [exact P |].
    rewrite <- G. apply Qle_refl.
Qed.

Lemma round64_exact (q : Q) (k u : Z) :
  (q == inject_Z k * pow2 u)%Q -> ulp_exponent q <= u ->
  (round64 q == q)%Q.
Proof.
  intros E U.
  destruct (Qlt_le_dec 0 q) as [P | N].
  - exact (round64_exact_positive q k u P E U).
  - destruct (Qlt_le_dec q 0) as [P | Z].
    + assert (O : (round64 (- q) == - q)%Q).
      { apply (round64_exact_positive (- q) (- k) u); [lra | |].
        - rewrite E, inject_Z_opp. ring.
        - rewrite ulp_exponent_opp. exact U. }
      rewrite round64_opp in O. lra.
    + rewrite (round64_zero q); lra.
Qed.

(** Integers of at most 53 bits are binary64 numbers. *)
Lemma round64_int (z : Z) :
  Z.abs z < 2 ^ 53 -> (round64 (inject_Z z) == inject_Z z)%Q.
Proof.
  intro B.
  destruct (Z.eq_dec z 0) as [-> | NZ]; [reflexivity |].
  apply (round64_exact (inject_Z z) z 0).
  - change (pow2 0) with 1%Q. ring.
  - assert (NQ : ~ (inject_Z z == 0)%Q).
    { intro E. apply NZ. apply (proj1 (inject_Z_injective z 0)), E. }
    destruct (binade_spec (inject_Z z) NQ) as [L _].
    assert (A : (Qabs (inject_Z z) < pow2 53)%Q).
    { rewrite Qabs_make. cbn [inject_Z Qnum Qden].
      change (Z.abs z # 1) with (inject_Z (Z.abs z)).
      rewrite pow2_int by lia. rewrite <- Zlt_Qlt. exact B. }
    assert (binade (inject_Z z) < 53)
      by (apply pow2_lt_inv; apply Qle_lt_trans with (1 := L); exact A).
    unfold ulp_exponent. lia.
Qed.

(** The rounding error is at most half a unit in the last place. *)
Lemma round64_error (q : Q) :
  ~ (q == 0)%Q ->
  (Qabs (round64 q - q) <= pow2 (ulp_exponent q - 1))%Q.
Proof.
  assert (Pos : forall x, (0 < x)%Q ->
            (Qabs (round64 x - x) <= pow2 (ulp_exponent x - 1))%Q).
  { intros x P. rewrite (round64_positive x P).
    set (u := ulp_exponent x).
    pose proof (pow2_pos u) as U.
    destruct (round_half_even_bounds (x / pow2 u)) as [Lo Hi].
    set (m := inject_Z (round_half_even (x / pow2 u))) in *.
    assert (H : (pow2 (u - 1) == (1 # 2) * pow2 u)%Q).
    { rewrite (pow2_add u (-1)). change (pow2 (-1)) with (1 # 2)%Q. ring. }
    assert (X : (x == (x / pow2 u) * pow2 u)%Q) by (field; lra).
    set (t := (x / pow2 u)%Q) in *.
    rewrite H. apply Qabs_Qle_condition. rewrite X at 1 2.
    split.
    - assert ((t - m) * pow2 u <= (1 # 2) * pow2 u)%Q
        by (apply Qmult_le_compat_r; lra).
      lra.
    - assert ((m - t) * pow2 u <= (1 # 2) * pow2 u)%Q
        by (apply Qmult_le_compat_r; lra).
      lra. }
  intro NZ. destruct (Qlt_le_dec 0 q) as [P | N]; [exact (Pos q P) |].
  assert (P : (0 < - q)%Q) by lra.
  pose proof (Pos (- q)%Q P) as E.
  rewrite ulp_exponent_opp, round64_opp in E.
  assert (S : (- round64 q - - q == - (round64 q - q))%Q) by ring.
  rewrite S, Qabs_opp in E. exact E.
Qed.

Lemma round64_relative_error (q : Q) :
  (pow2 (-1022) <= Qabs q)%Q ->
  (Qabs (round64 q - q) <= pow2 (-53) * Qabs q)%Q.
Proof.
  intro L.
  assert (NZ : ~ (q == 0)%Q).
  { intro Z. rewrite Z in L. pose proof (pow2_pos (-1022)).
    change (Qabs 0) with 0%Q in L. lra. }
  destruct (binade_spec q NZ) as [Lo Hi].
  assert (B : -1022 < binade q + 1)
    by (apply pow2_lt_inv; apply Qle_lt_trans with (1 := L); exact Hi).
  apply Qle_trans with (1 := round64_error q NZ).
  assert (U : ulp_exponent q - 1 = -53 + binade q)
    by (unfold ulp_exponent; lia).
  rewrite U, pow2_add.
  apply Qmult_le_l; [apply pow2_pos | exact Lo].
Qed.

(** Above a binary64 number [t] with an even significand [M], in the
    binade [e]: a rational rounds to more than [t] exactly when it lies
    beyond the midpoint between [t] and the next binary64 number. *)
Lemma round64_gt_even (t : Q) (M e : Z) :
  (pow2 e <= t)%Q -> (t < pow2 (e + 1))%Q ->
  (t == inject_Z M * pow2 (e - 52))%Q ->
  -1022 <= e -> Z.even M = true ->
  forall q : Q,
    (t < round64 q)%Q <-> ((inject_Z M + (1 # 2)) * pow2 (e - 52) < q)%Q.
Proof.
  intros Lo Hi E N Ev q.
  pose proof (pow2_pos (e - 52)) as U.
  pose proof (pow2_pos e) as Pe.
  assert (Pt : (0 < t)%Q) by lra.
  assert (G : (pow2 (e + 1) == inject_Z (2 ^ 53) * pow2 (e - 52))%Q).
  { rewrite (pow2_grid (e + 1) (e - 52)) by lia.
    replace (e + 1 - (e - 52)) with 53 by lia. reflexivity. }
  assert (MB : M + 1 <= 2 ^ 53).
  { assert (S : (inject_Z M * pow2 (e - 52)
                 < inject_Z (2 ^ 53) * pow2 (e - 52))%Q)
      by (rewrite <- E, <- G; exact Hi).
    assert (S' : (inject_Z M < inject_Z (2 ^ 53))%Q).
    { apply Qnot_le_lt. intro C.
      assert ((inject_Z (2 ^ 53) * pow2 (e - 52)
               <= inject_Z M * pow2 (e - 52))%Q)
        by (apply Qmult_le_compat_r; [exact C | lra]).
      lra. }
    rewrite <- Zlt_Qlt in S'. lia. }
  assert (Bt : binade t = e).
  { apply binade_unique; rewrite (Qabs_of_pos t Pt); assumption. }
  assert (Rt : (round64 t == t)%Q).
  { apply (round64_exact t M (e - 52) E). unfold ulp_exponent. lia. }
  assert (Same : forall x, (t < x)%Q -> (x < pow2 (e + 1))%Q ->
            (round64 x
             == inject_Z (round_half_even (x / pow2 (e - 52)))
                * pow2 (e - 52))%Q).
  { intros x L H.
    assert (Px : (0 < x)%Q) by lra.
    assert (Bx : binade x = e).
    { apply binade_unique; rewrite (Qabs_of_pos x Px); lra. }
    rewrite (round64_positive x Px).
    replace (ulp_exponent x) with (e - 52)
      by (unfold ulp_exponent; lia).
    reflexivity. }
  set (T := ((inject_Z M + (1 # 2)) * pow2 (e - 52))%Q).
  assert (TH : (T < pow2 (e + 1))%Q).
  { rewrite G. subst T.
    assert (H : (inject_Z (M + 1) <= inject_Z (2 ^ 53))%Q)
      by (rewrite <- Zle_Qle; exact MB).
    rewrite inject_Z_plus in H. change (inject_Z 1) with 1%Q in H.
    set (K := inject_Z (2 ^ 53)) in *.
    assert ((inject_Z M + 1) * pow2 (e - 52) <= K * pow2 (e - 52))%Q
      by (apply Qmult_le_compat_r; [exact H | lra]).
    assert (((inject_Z M + 1) * pow2 (e - 52)
             == (inject_Z M + (1 # 2)) * pow2 (e - 52)
                + (1 # 2) * pow2 (e - 52))%Q) by ring.
    lra. }
  assert (tT : (t < T)%Q).
  { subst T. rewrite E.
    assert (((inject_Z M + (1 # 2)) * pow2 (e - 52)
             == inject_Z M * pow2 (e - 52) + (1 # 2) * pow2 (e - 52))%Q)
      by ring.
    lra. }
  split.
  - (* rounding above t: the number is beyond the midpoint *)
    intro R. apply Qnot_le_lt. intro C.
    destruct (Qlt_le_dec t q) as [L | L'].
    + assert (H : (q < pow2 (e + 1))%Q) by lra.
      rewrite (Same q L H) in R.
      destruct (round_half_even_bounds (q / pow2 (e - 52))) as [B1 B2].
      set (x := (q / pow2 (e - 52))%Q) in *.
      assert (X : (x <= inject_Z M + (1 # 2))%Q).
      { subst x. apply Qle_shift_div_r; [exact U | exact C]. }
      assert (R' : (inject_Z M < inject_Z (round_half_even x))%Q).
      { apply Qnot_le_lt. intro D.
        assert ((inject_Z (round_half_even x) * pow2 (e - 52)
                 <= inject_Z M * pow2 (e - 52))%Q)
          by (apply Qmult_le_compat_r; [exact D | lra]).
        lra. }
      rewrite <- Zlt_Qlt in R'.
      assert (R2 : (inject_Z (round_half_even x) <= inject_Z (M + 1))%Q).
      { rewrite inject_Z_plus. change (inject_Z 1) with 1%Q. lra. }
      rewrite <- Zle_Qle in R2.
      assert (Eq : round_half_even x = M + 1) by lia.
      assert (Tie : (x == inject_Z (round_half_even x) - (1 # 2))%Q).
      { rewrite Eq, inject_Z_plus. change (inject_Z 1) with 1%Q.
        rewrite Eq, inject_Z_plus in B1. change (inject_Z 1) with 1%Q in B1.
        lra. }
      pose proof (round_half_even_tie x (or_introl Tie)) as P.
      rewrite Eq, Z.even_add, Ev in P. discriminate.
    + pose proof (round64_monotone q t L') as Mn. lra.
  - (* beyond the midpoint: rounding gives more than t *)
    intro C.
    destruct (Qlt_le_dec q (pow2 (e + 1))) as [H | H].
    + assert (L : (t < q)%Q) by lra.
      rewrite (Same q L H).
      destruct (round_half_even_bounds (q / pow2 (e - 52))) as [B1 B2].
      set (x := (q / pow2 (e - 52))%Q) in *.
      assert (X : (inject_Z M + (1 # 2) < x)%Q).
      { subst x. apply Qlt_shift_div_l; [exact U | exact C]. }
      assert (R : (inject_Z M < inject_Z (round_half_even x))%Q) by lra.
      rewrite <- Zlt_Qlt in R.
      assert (R2 : (inject_Z (M + 1) <= inject_Z (round_half_even x))%Q)
        by (rewrite <- Zle_Qle; lia).
      rewrite inject_Z_plus in R2. change (inject_Z 1) with 1%Q in R2.
      rewrite E.
      assert ((inject_Z M + 1) * pow2 (e - 52)
              <= inject_Z (round_half_even x) * pow2 (e - 52))%Q
        by (apply Qmult_le_compat_r; [exact R2 | lra]).
      assert (((inject_Z M + 1) * pow2 (e - 52)
               == inject_Z M * pow2 (e - 52) + pow2 (e - 52))%Q) by ring.
      lra.
    + pose proof (round64_monotone _ _ H) as Mn.
      assert (Rp : (round64 (pow2 (e + 1)) == pow2 (e + 1))%Q).
      { apply (round64_exact (pow2 (e + 1)) 1 (e + 1)); [ring |].
        pose proof (pow2_pos (e + 1)) as P1.
        assert (binade (pow2 (e + 1)) = e + 1).
        { apply binade_unique; rewrite (Qabs_of_pos _ P1);
            [apply Qle_refl | apply pow2_lt; lia]. }
        unfold ulp_exponent. lia. }
      lra.
Qed.

Lemma round64_over_tenth (q : Q) :
  (round64 (1 # 10) < round64 q)%Q
  <-> ((14411518807585589 # 144115188075855872) < q)%Q.
Proof.
  assert (H := round64_gt_even (round64 (1 # 10)) 7205759403792794 (-4)).
  assert (E : ((inject_Z 7205759403792794 + (1 # 2)) * pow2 (-4 - 52)
               == 14411518807585589 # 144115188075855872)%Q)
    by (vm_compute; reflexivity).
  rewrite <- E. apply H.
  - vm_compute. discriminate.
  - vm_compute. reflexivity.
  - vm_compute. reflexivity.
  - lia.
  - reflexivity.
Qed.

Lemma round64_over_twentieth (q : Q) :
  (round64 (5 # 100) < round64 q)%Q
  <-> ((14411518807585589 # 288230376151711744) < q)%Q.
Proof.
  assert (H := round64_gt_even (round64 (5 # 100)) 7205759403792794 (-5)).
  assert (E : ((inject_Z 7205759403792794 + (1 # 2)) * pow2 (-5 - 52)
               == 14411518807585589 # 288230376151711744)%Q)
    by (vm_compute; reflexivity).
  rewrite <- E. apply H.
  - vm_compute. discriminate.
  - vm_compute. reflexivity.
  - vm_compute. reflexivity.
  - lia.
  - reflexivity.
Qed.


(** ** utils/helpers.py *)

(** C1, as the code has it.  The duration formatter rounds to whole
    seconds first and then prints the seconds with [decimal_places] digits:
    with the default of one digit, [format_duration(59.4)] is ["59.0s"],
    [format_duration(60)] is ["1m 0.0s"], [format_duration(3661)] is
    ["1h 1m 1.0s"] and [format_duration(None)] is ["N/A"]; a float is
    formatted as the integer it rounds to. *)
Theorem format_duration_examples :
  format_duration_seconds (PNum (PFloat (594 # 10))) 1 = Ok "59.0s"
  /\ format_duration_seconds (PNum (PInt 60)) 1 = Ok "1m 0.0s"
  /\ format_duration_seconds (PNum (PInt 3661)) 1 = Ok "1h 1m 1.0s"
  /\ format_duration_seconds PNone 1 = Ok "N/A"
  /\ (forall (q : Q) (decimal_places : nat),
        format_duration_seconds (PNum (PFloat q)) decimal_places
        = format_duration_seconds (PNum (PInt (round_half_even q)))
            decimal_places).
Proof.
  repeat split; reflexivity.
Qed.

(** C1, as stated, fails: none of the three strings it names for 59.4, 60
    and 3661 is what the formatter returns. *)
Lemma format_duration_claimed_strings_differ :
  format_duration_seconds (PNum (PFloat (594 # 10))) 1 <> Ok "59.4s"
  /\ format_duration_seconds (PNum (PInt 60)) 1 <> Ok "1m 0s"
  /\ format_duration_seconds (PNum (PInt 3661)) 1 <> Ok "1h 1m 1s".
Proof.
  repeat split; vm_compute; discriminate.
Qed.



(** C10.  [format_bytes] tests for [None] and NaN before it looks at the
    unit: such a value gives ["N/A"] whatever the unit, while a number with
    an unknown unit raises [ValueError]. *)
Theorem format_bytes_null_before_unit :
  (forall (unit : string) (decimal_places : nat),
     format_bytes PNone unit decimal_places = Ok "N/A"
     /\ format_bytes (PNum PNaN) unit decimal_places = Ok "N/A")
  /\ format_bytes PNone "XB" 2 = Ok "N/A"
  /\ format_bytes (PNum (PInt 100)) "XB" 2 = Raise ValueError
  /\ (forall (n : pynum) (unit : string) (decimal_places : nat),
        is_nan n = false -> units (upper unit) = None ->
        format_bytes (PNum n) unit decimal_places = Raise ValueError).
Proof.
  repeat split; try reflexivity.
  intros n unit dp Hn Hu. unfold format_bytes. simpl.
  rewrite Hn, Hu. reflexivity.
Qed.

(** C10 at the value 100 and the unit ["XB"]. *)
Lemma format_bytes_null_before_unit_witness :
  format_bytes (PNum (PInt 100)) "XB" 2 = Raise ValueError.
Proof.
  exact (proj2 (proj2 (proj2 format_bytes_null_before_unit))
           (PInt 100) "XB" 2%nat eq_refl eq_refl).
Defined.

(** ** core/data_fetcher.py *)

(** C3, as the code has it.  For valid dates [start <= end]: when the
    previous period does not begin before [date.min], the result is
    [(prev_start, prev_end)] with [prev_end = start - 1 day],
    [prev_end - prev_start = end - start] and [prev_end < start]; when it
    would begin before [date.min], the date arithmetic raises
    [OverflowError]. *)
Theorem previous_period_adjacent (start_date end_date : date) :
  valid_date start_date -> valid_date end_date ->
  toordinal start_date <= toordinal end_date ->
  (MINORDINAL <= toordinal start_date - 1 - date_diff end_date start_date ->
   exists prev_start prev_end,
     calculate_prev_period_dates start_date end_date
       = Ok (prev_start, prev_end)
     /\ valid_date prev_start /\ valid_date prev_end
     /\ toordinal prev_end = toordinal start_date - 1
     /\ date_diff prev_end prev_start = date_diff end_date start_date
     /\ toordinal prev_end < toordinal start_date)
  /\ (toordinal start_date - 1 - date_diff end_date start_date < MINORDINAL ->
      calculate_prev_period_dates start_date end_date = Raise OverflowError).
Proof.
  unfold valid_date, calculate_prev_period_dates, date_sub_days, date_diff,
    MINORDINAL, MAXORDINAL.
  intros Hs He Hle. split.
  - intro Hin.
    exists {| toordinal := toordinal start_date - 1
                           - (toordinal end_date - toordinal start_date) |},
           {| toordinal := toordinal start_date - 1 |}.
    simpl.
    replace (1 <=? toordinal start_date - 1) with true
      by (symmetry; apply Z.leb_le; lia).
    replace (toordinal start_date - 1 <=? 3652059) with true
      by (symmetry; apply Z.leb_le; lia).
    simpl.
    replace (1 <=? toordinal start_date - 1
                   - (toordinal end_date - toordinal start_date)) with true
      by (symmetry; apply Z.leb_le; lia).
    replace (toordinal start_date - 1
             - (toordinal end_date - toordinal start_date) <=? 3652059)
      with true by (symmetry; apply Z.leb_le; lia).
    simpl. repeat split; lia.
  - intro Hout.
    destruct (1 <=? toordinal start_date - 1) eqn:E1; simpl.
    + replace (toordinal start_date - 1 <=? 3652059) with true
        by (symmetry; apply Z.leb_le; lia).
      simpl.
      replace (1 <=? toordinal start_date - 1
                     - (toordinal end_date - toordinal start_date)) with false
        by (symmetry; apply Z.leb_gt; lia).
      reflexivity.
    + reflexivity.
Qed.

(** C3 at January 2024: the previous period is December 2023. *)
Lemma previous_period_adjacent_witness :
  exists prev_start prev_end,
    calculate_prev_period_dates (ymd 2024 1 1) (ymd 2024 1 31)
      = Ok (prev_start, prev_end)
    /\ valid_date prev_start /\ valid_date prev_end
    /\ toordinal prev_end = toordinal (ymd 2024 1 1) - 1
    /\ date_diff prev_end prev_start
       = date_diff (ymd 2024 1 31) (ymd 2024 1 1)
    /\ toordinal prev_end < toordinal (ymd 2024 1 1).
Proof.
  refine (proj1 (previous_period_adjacent (ymd 2024 1 1) (ymd 2024 1 31)
                   _ _ _) _);
    unfold valid_date, MINORDINAL, MAXORDINAL; simpl; lia.
Defined.

(** C3, as stated, fails at [date.min]: there is no day before it, and the
    function raises instead of returning a period. *)
Lemma previous_period_at_date_min :
  valid_date date_min
  /\ toordinal date_min <= toordinal date_min
  /\ calculate_prev_period_dates date_min date_min = Raise OverflowError
  /\ ~ (exists prev_start prev_end,
          calculate_prev_period_dates date_min date_min
          = Ok (prev_start, prev_end)).
Proof.
  unfold valid_date, date_min, MINORDINAL, MAXORDINAL. simpl.
  split; [lia | split; [lia | split; [reflexivity |]]].
  intros (prev_start & prev_end & H). discriminate H.
Qed.

(** ** ui/metric_card.py *)

Lemma delta_display_returns (label : string) (value delta : pyval)
    (format_delta : template) (theme_config : option theme) :
  exists events shown,
    delta_display label value delta format_delta theme_config
    = (events, Ok shown).
Proof.
  unfold delta_display.
  destruct delta as [| n | s]; [exists [], (None, None); reflexivity | |];
    match goal with
    | |- context [try_except ?m _ _] => destruct m as [ev [a | e]]
    end; simpl; eauto.
Qed.

Lemma w_bind_snd {E A B : Type} (m : writer E A) (k : A -> writer E B) :
  snd (w_bind m k)
  = match snd m with
    | Ok a => snd (k a)
    | Raise e => Raise e
    end.
Proof.
  destruct m as [ev [a | e]]; simpl; [destruct (k a) |]; reflexivity.
Qed.

Lemma w_bind_lift_ok {E A B : Type} (a : A) (k : A -> writer E B) :
  w_bind (lift (Ok a)) k = k a.
Proof.
  unfold w_bind, lift. destruct (k a); reflexivity.
Qed.

Lemma for_each_returns {E A : Type} (l : list A) (body : A -> writer E unit) :
  (forall x, snd (body x) = Ok tt) -> snd (for_each l body) = Ok tt.
Proof.
  intro H. induction l as [| x rest IH]; simpl; [reflexivity |].
  specialize (H x). destruct (body x) as [ev r]. simpl in H. subst r.
  simpl. destruct (for_each rest body) as [ev' r']. simpl in *. exact IH.
Qed.

Lemma display_metric_returns (float_repr : Q -> string)
    (execute_query : string -> params -> result DataFrame)
    (section_key : string) (start_date end_date prev_start prev_end : date)
    (selected_entity : option string) (config : metric_config) :
  snd (display_metric float_repr execute_query section_key start_date
         end_date prev_start prev_end selected_entity config) = Ok tt.
Proof.
  unfold display_metric.
  match goal with |- context [if ?b then _ else _] => destruct b end;
    [reflexivity |].
  match goal with
  | |- context [try_except ?m _ _] => destruct m as [ev [[] | e]]
  end; simpl; [reflexivity |].
  destruct e; reflexivity.
Qed.

(** C4, as the code has it.  A metric naming a formatter that [helpers]
    does not have is not fatal: a warning is shown and the value is rendered
    with the metric's own format template (["N/A"] for [None]), not as a raw
    string; a value the template cannot format leaves the card with an
    exception, which the metric section turns into an error box for that
    metric only, so that neither one metric nor the section raises. *)
Theorem unknown_formatter_default_format
    (float_repr : Q -> string) (label : string) (value delta : pyval)
    (format_value format_delta : template)
    (formatter_func help_text : option string) (theme_config : option theme) :
  truthy formatter_func = true ->
  helpers_function (or_default "" formatter_func) = None ->
  let warning :=
    st_warning (FormatterNotFound (or_default "" formatter_func)) in
  let card :=
    render_metric_card float_repr label value delta format_value
      format_delta formatter_func help_text theme_config in
  (value = PNone ->
   exists delta_events shown,
     card = (warning :: delta_events
             ++ [st_metric label "N/A" (fst shown) (snd shown) help_text],
             Ok tt))
  /\ (forall n, value = PNum n ->
      exists delta_events shown,
        card = (warning :: delta_events
                ++ [st_metric label
                      (t_prefix format_value
                       ++ format_num (t_spec format_value) n
                       ++ t_suffix format_value)
                      (fst shown) (snd shown) help_text],
                Ok tt))
  /\ (forall s, value = PStr s -> card = ([warning], Raise ValueError))
  /\ (forall execute_query section_key start_date end_date prev_start
        prev_end selected_entity config,
        snd (display_metric float_repr execute_query section_key start_date
               end_date prev_start prev_end selected_entity config) = Ok tt)
  /\ (forall execute_query section_key start_date end_date prev_start
        prev_end selected_entity config data s previous,
        truthy (cfg_query_id config) = true ->
        truthy (cfg_value_col config) = true ->
        cfg_formatter_func config = formatter_func ->
        execute_query (or_default "" (cfg_query_id config))
          (metric_params section_key start_date end_date prev_start prev_end
             selected_entity) = Ok data ->
        resolve_metric section_key
          (or_default "Unknown Metric" (cfg_label config))
          (or_default "" (cfg_value_col config)) (cfg_delta_col config) data
        = Ok (PStr s, previous) ->
        display_metric float_repr execute_query section_key start_date
          end_date prev_start prev_end selected_entity config
        = ([warning;
            display_error_box
              (MetricUnexpected (or_default "Unknown Metric" (cfg_label config))
                 ValueError)], Ok tt))
  /\ (forall execute_query section_title section_key start_date end_date
        selected_entity prev,
        calculate_prev_period_dates start_date end_date = Ok prev ->
        snd (display_metric_section float_repr execute_query section_title
               section_key start_date end_date selected_entity) = Ok tt).
Proof.
  intros Ht Hn warning card. subst warning card.
  unfold render_metric_card, value_display. rewrite Ht, Hn.
  split; [| split; [| split; [| split; [| split]]]].
  - intros ->.
    destruct (delta_display_returns label PNone delta format_delta
                theme_config) as (ev & shown & E).
    exists ev, shown. cbn. rewrite E. reflexivity.
  - intros n ->.
    destruct (delta_display_returns label (PNum n) delta format_delta
                theme_config) as (ev & shown & E).
    exists ev, shown. cbn. rewrite E. reflexivity.
  - intros s ->. reflexivity.
  - intros. apply display_metric_returns.
  - intros execute_query section_key start_date end_date prev_start prev_end
      selected_entity config data s previous Hq Hc Hf He Hr.
    unfold display_metric. rewrite Hq, Hc. cbn [negb orb].
    rewrite He, w_bind_lift_ok, Hr, w_bind_lift_ok. cbn [fst snd].
    unfold render_metric_card, value_display. rewrite Hf, Ht, Hn.
    reflexivity.
  - intros execute_query section_title section_key start_date end_date
      selected_entity prev Hprev.
    unfold display_metric_section. rewrite w_bind_snd.
    change (snd (emit (display_section_header section_title)))
      with (@Ok unit tt).
    destruct (METRIC_CARD_CONFIGS section_key) as [| c cs] eqn:Hc;
      [reflexivity |].
    cbv beta iota. rewrite w_bind_snd, Hprev.
    change (snd (@lift ui_event _ (Ok prev))) with (Ok prev).
    cbv beta iota.
    apply for_each_returns. intro x. apply display_metric_returns.
Qed.

(** C4 at the integer 1234 with the unknown formatter ["format_money"]. *)
Lemma unknown_formatter_default_format_witness :
  exists delta_events shown,
    render_metric_card no_float_repr "Total Credits Used" (PNum (PInt 1234))
      PNone default_format_value default_format_delta (Some "format_money")
      None (Some APP_THEME)
    = (st_warning (FormatterNotFound "format_money") :: delta_events
       ++ [st_metric "Total Credits Used" "1,234" (fst shown) (snd shown)
             None],
       Ok tt).
Proof.
  exact (proj1 (proj2
    (unknown_formatter_default_format no_float_repr "Total Credits Used"
       (PNum (PInt 1234)) PNone default_format_value default_format_delta
       (Some "format_money") None (Some APP_THEME) eq_refl eq_refl))
    (PInt 1234) eq_refl).
Defined.

(** C4, as stated, fails: with an unknown formatter the integer 1234 is
    shown as ["1,234"], the template's rendering, while its raw string is
    ["1234"]. *)
Lemma unknown_formatter_not_raw_string :
  helpers_function "format_money" = None
  /\ render_metric_card no_float_repr "Total Credits Used" (PNum (PInt 1234))
       PNone default_format_value default_format_delta (Some "format_money")
       None (Some APP_THEME)
     = ([st_warning (FormatterNotFound "format_money");
         st_metric "Total Credits Used" "1,234" None None None], Ok tt)
  /\ py_str no_float_repr (PNum (PInt 1234)) = "1234"
  /\ "1,234" <> py_str no_float_repr (PNum (PInt 1234)).
Proof.
  repeat split. vm_compute. discriminate.
Qed.







(** ** modules/dashboard_sections.py *)





(** ** ui/chart_renderer.py *)








(** ** insights/recommendations.py *)

Lemma w_bind_fst {E A B : Type} (m : writer E A) (k : A -> writer E B) :
  fst (w_bind m k)
  = (fst m ++ match snd m with
              | Ok a => fst (k a)
              | Raise _ => []
              end)%list.
Proof.
  destruct m as [ev [a | e]]; simpl;
    [destruct (k a) | rewrite app_nil_r]; reflexivity.
Qed.

Lemma appended_app (l1 l2 : list rec_effect) :
  appended (l1 ++ l2) = (appended l1 ++ appended l2)%list.
Proof.
  apply flat_map_app.
Qed.

Lemma only_advice_nil (P : string -> Prop) : only_advice P [].
Proof.
  intros s [].
Qed.

Lemma only_advice_app (P : string -> Prop) (l1 l2 : list rec_effect) :
  only_advice P l1 -> only_advice P l2 -> only_advice P (l1 ++ l2).
Proof.
  intros H1 H2 s H. rewrite appended_app in H.
  apply in_app_or in H. destruct H; auto.
Qed.

Lemma only_advice_weaken (P Q : string -> Prop) (l : list rec_effect) :
  (forall s, P s -> Q s) -> only_advice P l -> only_advice Q l.
Proof.
  intros H Hl s Hs. auto.
Qed.

Lemma only_advice_bind {A B : Type} (P : string -> Prop)
    (m : writer rec_effect A) (k : A -> writer rec_effect B) :
  only_advice P (fst m) -> (forall a, only_advice P (fst (k a))) ->
  only_advice P (fst (w_bind m k)).
Proof.
  intros Hm Hk. rewrite w_bind_fst. apply only_advice_app; [exact Hm |].
  destruct (snd m); [apply Hk | apply only_advice_nil].
Qed.

Lemma only_advice_lift {A : Type} (P : string -> Prop) (r : result A) :
  only_advice P (fst (@lift rec_effect A r)).
Proof.
  apply only_advice_nil.
Qed.

Lemma only_advice_emit (P : string -> Prop) (s : string) :
  P s -> only_advice P (fst (emit (Append s))).
Proof.
  intros H x [<- | []]. exact H.
Qed.

Lemma only_advice_when (P : string -> Prop) (b : bool)
    (m : writer rec_effect unit) :
  only_advice P (fst m) -> only_advice P (fst (when b m)).
Proof.
  intro H. destruct b; [exact H | apply only_advice_nil].
Qed.

Ltac only_advice_steps :=
  repeat first
    [ apply only_advice_lift
    | apply only_advice_when
    | apply only_advice_emit
    | apply only_advice_bind; [| intro] ].

Lemma queued_overload_rule_advice
    (execute_query : string -> params -> result DataFrame)
    (start_date end_date : date) (selected_warehouse : string) :
  only_advice (fun s => exists d, s = queued_advice selected_warehouse d)
    (fst (queued_overload_rule execute_query start_date end_date
            selected_warehouse)).
Proof.
  unfold queued_overload_rule. only_advice_steps. eauto.
Qed.

Lemma low_usage_rule_advice (float_repr : Q -> string)
    (start_date end_date : date) (selected_warehouse : string)
    (total_active_minutes warehouse_size : pyval) :
  only_advice
    (fun s => exists m z, s = low_usage_advice selected_warehouse m z)
    (fst (low_usage_rule float_repr start_date end_date selected_warehouse
            total_active_minutes warehouse_size)).
Proof.
  unfold low_usage_rule. only_advice_steps. eauto.
Qed.

Lemma append_cancel_l (s a b : string) : s ++ a = s ++ b -> a = b.
Proof.
  induction s as [| c s IH]; simpl; intro H; [exact H |].
  injection H as H. exact (IH H).
Qed.

Lemma idle_advice_not_queued (w p d d' : string) :
  idle_suspend_advice w p d <> queued_advice w d'.
Proof.
  unfold idle_suspend_advice, queued_advice. intro H.
  apply (append_cancel_l "Warehouse **") in H.
  apply append_cancel_l in H. simpl in H. discriminate.
Qed.

Lemma idle_advice_not_low_usage (w p d m z : string) :
  idle_suspend_advice w p d <> low_usage_advice w m z.
Proof.
  unfold idle_suspend_advice, low_usage_advice. intro H.
  apply (append_cancel_l "Warehouse **") in H.
  apply append_cancel_l in H. simpl in H. discriminate.
Qed.

Lemma idle_advice_not_sentinel (w p d : string) :
  idle_suspend_advice w p d <> NO_RECOMMENDATIONS.
Proof.
  unfold idle_suspend_advice, NO_RECOMMENDATIONS. simpl. discriminate.
Qed.

Lemma format_duration_returns (n : pynum) (decimal_places : nat) :
  is_nan n = false ->
  exists text, format_duration_seconds (PNum n) decimal_places = Ok text.
Proof.
  intro H. unfold format_duration_seconds.
  cbn [is_none_or_nan math_isnan bind]. rewrite H.
  assert (R : exists z, int_round (PNum n) = Ok z)
    by (destruct n; try discriminate; eexists; reflexivity).
  destruct R as [z ->]. cbn [bind].
  repeat match goal with
         | |- context [if ?b then _ else _] => destruct b
         end; eexists; reflexivity.
Qed.

Lemma num_gtb_not_nan (n m : pynum) : num_gtb n m = true -> is_nan n = false.
Proof.
  unfold num_gtb, num_ltb. destruct n; try reflexivity.
  destruct (num_Q m); discriminate.
Qed.

(** The trace of the idle/auto-suspend rule on numbers. *)
Lemma idle_suspend_rule_trace (selected_warehouse : string) (i a : pynum) :
  exists pct duration,
    idle_suspend_rule selected_warehouse (PNum i) (PNum a)
    = ((if num_gtb i (PInt 20) && num_gtb a (PInt 300)
        then [Append (idle_suspend_advice selected_warehouse pct duration)]
        else []), Ok tt)
    /\ (num_gtb i (PInt 20) && num_gtb a (PInt 300) = true ->
        format_percentage (PNum (num_div i (PInt 100))) 1 = Ok pct
        /\ format_duration_seconds (PNum a) 1 = Ok duration).
Proof.
  unfold idle_suspend_rule, idle_suspend_fires, not_none_and_gt, py_gt.
  change (60 * 5) with 300. cbn [bind].
  destruct (num_gtb i (PInt 20)) eqn:Hi;
    [destruct (num_gtb a (PInt 300)) eqn:Ha |];
    try (exists "", ""; split; [reflexivity | discriminate]).
  destruct (format_duration_returns a 1 (num_gtb_not_nan _ _ Ha)) as [dur Hd].
  assert (Hp : exists pct,
             format_percentage (PNum (num_div i (PInt 100))) 1 = Ok pct)
    by (destruct i; try discriminate; eexists; reflexivity).
  destruct Hp as [pct Hp].
  exists pct, dur. split; [| intros _; split; assumption].
  rewrite w_bind_lift_ok. cbn [when andb py_truediv].
  rewrite w_bind_lift_ok, Hp, w_bind_lift_ok, Hd, w_bind_lift_ok.
  reflexivity.
Qed.

Section WarehouseScope.

Variable float_repr : Q -> string.
Variable execute_query : string -> params -> result DataFrame.
Variables start_date end_date : date.
Variable selected_warehouse : string.
Variable summary : DataFrame.
Variables i a : pynum.
Variables size minutes : pyval.
Variable prev : date * date.

Hypothesis warehouse_selected : truthy (Some selected_warehouse) = true.
Hypothesis prev_period :
  calculate_prev_period_dates start_date end_date = Ok prev.
Hypothesis summary_fetched :
  forall p, execute_query "WAREHOUSE_SUMMARY_METRICS" p = Ok summary.
Hypothesis summary_not_empty : df_empty summary = false.
Hypothesis idle_cell : cell0 summary "IDLE_PERCENTAGE" = Ok (PNum i).
Hypothesis suspend_cell : cell0 summary "AUTO_SUSPEND" = Ok (PNum a).
Hypothesis size_cell : cell0 summary "SIZE" = Ok size.
Hypothesis minutes_cell : cell0 summary "ACTIVE_MINUTES" = Ok minutes.

Lemma battery_is_warehouse_rules :
  rule_battery float_repr execute_query start_date end_date None
    (Some selected_warehouse)
  = warehouse_recommendations float_repr execute_query start_date end_date
      selected_warehouse.
Proof.
  unfold rule_battery. rewrite warehouse_selected.
  cbn [truthy negb andb when or_default].
  destruct (warehouse_recommendations _ _ _ _ _) as [ev r]. reflexivity.
Qed.

Lemma warehouse_trace :
  exists pct duration rest outcome,
    warehouse_recommendations float_repr execute_query start_date end_date
      selected_warehouse
    = (((if fires i a
         then [Append (idle_suspend_advice selected_warehouse pct duration)]
         else []) ++ rest)%list, outcome)
    /\ only_advice (other_advice selected_warehouse) rest
    /\ (fires i a = true ->
        format_percentage (PNum (num_div i (PInt 100))) 1 = Ok pct
        /\ format_duration_seconds (PNum a) 1 = Ok duration).
Proof.
  destruct (idle_suspend_rule_trace selected_warehouse i a)
    as (pct & duration & Hrule & Htext).
  exists pct, duration.
  unfold warehouse_recommendations.
  rewrite prev_period, w_bind_lift_ok, summary_fetched, w_bind_lift_ok,
    summary_not_empty.
  cbn [negb when].
  rewrite idle_cell, w_bind_lift_ok, suspend_cell, w_bind_lift_ok, size_cell,
    w_bind_lift_ok, minutes_cell, w_bind_lift_ok, Hrule.
  fold (fires i a).
  pose proof (only_advice_bind (other_advice selected_warehouse)
    (queued_overload_rule execute_query start_date end_date selected_warehouse)
    (fun _ => low_usage_rule float_repr start_date end_date
                selected_warehouse minutes size)
    (only_advice_weaken _ (other_advice selected_warehouse) _ (fun s H => or_introl H)
       (queued_overload_rule_advice execute_query start_date end_date
          selected_warehouse))
    (fun _ => only_advice_weaken _ (other_advice selected_warehouse) _ (fun s H => or_intror H)
       (low_usage_rule_advice float_repr start_date end_date
          selected_warehouse minutes size))) as Hrest.
  destruct (queued_overload_rule execute_query start_date end_date
              selected_warehouse ;;;
            low_usage_rule float_repr start_date end_date selected_warehouse
              minutes size) as [ev r].
  cbn [fst] in Hrest. cbn [w_bind try_except].
  destruct r as [[] | e]; [| destruct (is_DataFetchError e)].
  - exists ev, (Ok tt). auto.
  - exists (ev ++ [Show (display_warning_box (WarehouseDataFailed e))])%list,
      (Ok tt).
    split; [| split; [| exact Htext]].
    + cbn. rewrite <- app_assoc. reflexivity.
    + apply only_advice_app; [exact Hrest |]. intros s [].
  - exists ev, (Raise e). auto.
Qed.

Lemma idle_advice_not_other (p d s : string) :
  other_advice selected_warehouse s -> idle_suspend_advice selected_warehouse p d <> s.
Proof.
  intros [[q ->] | (m & z & ->)];
    [apply idle_advice_not_queued | apply idle_advice_not_low_usage].
Qed.

Lemma idle_advice_in_final (p d : string) (l : list string) :
  In (idle_suspend_advice selected_warehouse p d) (final_recommendations l)
  <-> In (idle_suspend_advice selected_warehouse p d) l.
Proof.
  destruct l as [| x l]; [| reflexivity]. simpl. split; [| tauto].
  intros [H | []]. symmetry in H.
  exact (idle_advice_not_sentinel _ _ _ H).
Qed.

Lemma warehouse_scope_advice (page : list ui_event) (recs : list string) :
  generate_finops_recommendations float_repr execute_query start_date
    end_date None (Some selected_warehouse) = (page, Ok recs) ->
  exists pct duration,
    (fires i a = true ->
     format_percentage (PNum (num_div i (PInt 100))) 1 = Ok pct
     /\ format_duration_seconds (PNum a) 1 = Ok duration
     /\ In (idle_suspend_advice selected_warehouse pct duration) recs)
    /\ (fires i a = false ->
        forall p d, ~ In (idle_suspend_advice selected_warehouse p d) recs).
Proof.
  unfold generate_finops_recommendations.
  rewrite battery_is_warehouse_rules.
  destruct warehouse_trace as (pct & duration & rest & outcome & -> & Hrest
                               & Htext).
  intro Hgen. exists pct, duration.
  destruct outcome as [[] | e]; [| discriminate].
  injection Hgen as _ <-. rewrite appended_app. split; intro Hf.
  - destruct (Htext Hf) as [Hp Hd]. repeat split; try assumption.
    apply idle_advice_in_final. rewrite Hf. simpl. auto.
  - intros p d H. apply (proj1 (idle_advice_in_final _ _ _)) in H.
    rewrite Hf in H. simpl in H.
    exact (idle_advice_not_other p d _ (Hrest _ H) eq_refl).
Qed.

End WarehouseScope.

(** C8.  In the warehouse scope, with a fetched summary whose first row
    holds the idle percentage and the auto-suspend setting as numbers: the
    list the engine returns contains the idle/auto-suspend advisory, which
    names the selected warehouse, exactly when the idle percentage exceeds
    20 and the auto-suspend setting exceeds 300 seconds.  So 35 percent with
    600 seconds gives the advisory, and 5 percent gives none. *)
Theorem idle_suspend_rule_fires_exactly
    (float_repr : Q -> string)
    (execute_query : string -> params -> result DataFrame)
    (start_date end_date : date) (selected_warehouse : string)
    (summary : DataFrame) (i a : pynum) (size minutes : pyval)
    (prev : date * date) (page : list ui_event) (recs : list string) :
  truthy (Some selected_warehouse) = true ->
  calculate_prev_period_dates start_date end_date = Ok prev ->
  (forall p, execute_query "WAREHOUSE_SUMMARY_METRICS" p = Ok summary) ->
  df_empty summary = false ->
  cell0 summary "IDLE_PERCENTAGE" = Ok (PNum i) ->
  cell0 summary "AUTO_SUSPEND" = Ok (PNum a) ->
  cell0 summary "SIZE" = Ok size ->
  cell0 summary "ACTIVE_MINUTES" = Ok minutes ->
  generate_finops_recommendations float_repr execute_query start_date
    end_date None (Some selected_warehouse) = (page, Ok recs) ->
  ((exists pct duration,
      In (idle_suspend_advice selected_warehouse pct duration) recs)
   <-> num_gtb i (PInt 20) = true /\ num_gtb a (PInt 300) = true)
  /\ (i = PInt 35 -> a = PInt 600 ->
      In (idle_suspend_advice selected_warehouse "35.0%" "10m 0.0s") recs)
  /\ (i = PInt 5 ->
      forall pct duration,
        ~ In (idle_suspend_advice selected_warehouse pct duration) recs)
  /\ (forall pct duration,
        exists before after,
          idle_suspend_advice selected_warehouse pct duration
          = before ++ selected_warehouse ++ after).
Proof.
  intros Hw Hp Hq He Hi Ha Hs Hm Hgen.
  destruct (warehouse_scope_advice float_repr execute_query start_date
              end_date selected_warehouse summary i a size minutes prev
              Hw Hp Hq He Hi Ha Hs Hm page recs Hgen)
    as (pct & duration & Hyes & Hno).
  split; [| split; [| split]].
  - split.
    + intros (p & d & Hin).
      destruct (fires i a) eqn:F.
      * apply andb_true_iff in F. exact F.
      * exfalso. exact (Hno eq_refl p d Hin).
    + intros [H1 H2]. exists pct, duration.
      apply Hyes. unfold fires. rewrite H1, H2. reflexivity.
  - intros -> ->. destruct (Hyes eq_refl) as (Hpct & Hdur & Hin).
    vm_compute in Hpct, Hdur.
    injection Hpct as <-. injection Hdur as <-. exact Hin.
  - intros ->. exact (Hno eq_refl).
  - intros p d. eexists. eexists. reflexivity.
Qed.

(** C8 for the warehouse WH1 at 35 percent idle with a 600 second
    auto-suspend, over January 2024. *)
Lemma idle_suspend_rule_fires_exactly_witness :
  In (idle_suspend_advice "WH1" "35.0%" "10m 0.0s")
    [idle_suspend_advice "WH1" "35.0%" "10m 0.0s"].
Proof.
  exact (proj1 (proj2
    (idle_suspend_rule_fires_exactly no_float_repr
       (fetch_warehouse (summary_frame 35 600)) (ymd 2024 1 1) (ymd 2024 1 31)
       "WH1" (summary_frame 35 600) (PInt 35) (PInt 600) (PStr "X-SMALL")
       (PNum (PInt 900)) (ymd 2023 12 1, ymd 2023 12 31) []
       [idle_suspend_advice "WH1" "35.0%" "10m 0.0s"]
       eq_refl eq_refl (fun _ => eq_refl) eq_refl eq_refl eq_refl eq_refl
       eq_refl eq_refl)) eq_refl eq_refl).
Defined.

(** C9.  Whenever the rule battery runs to its end, the engine returns a
    list that is never empty: the single sentinel text when the battery
    appended nothing, and the appended advisories, in order, otherwise. *)
Theorem no_recommendation_sentinel
    (float_repr : Q -> string)
    (execute_query : string -> params -> result DataFrame)
    (start_date end_date : date)
    (selected_user selected_warehouse : option string) (u : unit) :
  let battery :=
    rule_battery float_repr execute_query start_date end_date selected_user
      selected_warehouse in
  snd battery = Ok u ->
  exists recs,
    generate_finops_recommendations float_repr execute_query start_date
      end_date selected_user selected_warehouse
    = (shown (fst battery), Ok recs)
    /\ recs <> []
    /\ (appended (fst battery) = [] -> recs = [NO_RECOMMENDATIONS])
    /\ (appended (fst battery) <> [] -> recs = appended (fst battery)).
Proof.
  intros battery Hb. unfold generate_finops_recommendations. fold battery.
  destruct battery as [log r]. simpl in Hb. subst r. simpl.
  exists (final_recommendations (appended log)).
  split; [reflexivity |].
  destruct (appended log) as [| x l]; simpl;
    repeat split; try discriminate; try reflexivity.
  intro H. exfalso. exact (H eq_refl).
Qed.

(** C9 when every query fails: no rule appends, the sentinel is returned. *)
Lemma no_recommendation_sentinel_witness :
  exists recs,
    generate_finops_recommendations no_float_repr fetch_fail (ymd 2024 1 1)
      (ymd 2024 1 31) None None
    = ([display_warning_box (WarehouseDataFailed DataFetchError);
        display_warning_box (TotalCostDataFailed DataFetchError)], Ok recs)
    /\ recs <> []
    /\ (@nil string = [] -> recs = [NO_RECOMMENDATIONS])
    /\ (@nil string <> [] -> recs = []).
Proof.
  exact (no_recommendation_sentinel no_float_repr fetch_fail (ymd 2024 1 1)
           (ymd 2024 1 31) None None tt eq_refl).
Defined.

(** * Further properties of the code *)

(** ** utils/helpers.py *)

Lemma upper_ascii_idempotent (c : ascii) :
  upper_ascii (upper_ascii c) = upper_ascii c.
Proof.
  destruct c as [[] [] [] [] [] [] [] []]; reflexivity.
Qed.

Lemma upper_idempotent (s : string) : upper (upper s) = upper s.
Proof.
  induction s as [| c s IH]; simpl; [reflexivity |].
  rewrite upper_ascii_idempotent, IH. reflexivity.
Qed.

(** X1.  [format_bytes] ignores the case of its unit: any spelling of a
    unit gives the result of its upper-case spelling, text and error
    alike. *)
Theorem format_bytes_unit_case (bytes_value : pyval) (unit : string)
    (decimal_places : nat) :
  format_bytes bytes_value (upper unit) decimal_places
  = format_bytes bytes_value unit decimal_places.
Proof.
  unfold format_bytes. rewrite upper_idempotent. reflexivity.
Qed.

Lemma duration_units (s : Z) :
  0 <= s ->
  s / 60 / 60 = s / 3600 /\ s / 60 / 60 / 24 = s / 86400
  /\ (s / 60 / 60) mod 24 = (s / 3600) mod 24.
Proof.
  intro H.
  assert (A : s / 60 / 60 = s / 3600)
    by (rewrite Z.div_div by lia; reflexivity).
  assert (B : s / 3600 / 24 = s / 86400)
    by (rewrite Z.div_div by lia; reflexivity).
  rewrite A, B. auto.
Qed.

(** X2.  A duration of a whole number of seconds, zero or more, is
    printed as its days, hours, minutes and seconds, starting at the
    highest unit that is not zero; a negative duration is printed as plain
    seconds, whatever its size. *)
Theorem format_duration_units (seconds : Z) (decimal_places : nat) :
  (0 <= seconds ->
   format_duration_seconds (PNum (PInt seconds)) decimal_places
   = Ok (duration_text (seconds / 86400) ((seconds / 3600) mod 24)
           ((seconds / 60) mod 60) (seconds mod 60) decimal_places))
  /\ (seconds < 0 ->
      format_duration_seconds (PNum (PInt seconds)) decimal_places
      = Ok (fmt_seconds seconds decimal_places ++ "s")).
Proof.
  split; intro H; unfold format_duration_seconds;
    cbn [is_none_or_nan math_isnan is_nan bind int_round].
  - destruct (duration_units seconds H) as (A & B & C).
    unfold duration_text.
    destruct (seconds <? 60) eqn:S60.
    + apply Z.ltb_lt in S60.
      rewrite (Z.div_small seconds 86400), (Z.div_small seconds 3600),
        (Z.div_small seconds 60), (Z.mod_small seconds 60) by lia.
      reflexivity.
    + apply Z.ltb_ge in S60. cbv zeta.
      assert (M : 0 < seconds / 60) by (apply Z.div_str_pos; lia).
      destruct (seconds / 60 <? 60) eqn:M60.
      * apply Z.ltb_lt in M60.
        assert (H0 : seconds / 3600 = 0)
          by (rewrite <- A; apply Z.div_small; lia).
        assert (D0 : seconds / 86400 = 0)
          by (rewrite <- B, A, H0; reflexivity).
        rewrite D0, H0, (Z.mod_small (seconds / 60) 60) by lia.
        cbn [Z.ltb Z.compare Z.modulo Z.div_eucl].
        replace (0 <? seconds / 60) with true
          by (symmetry; apply Z.ltb_lt; exact M).
        reflexivity.
      * apply Z.ltb_ge in M60.
        assert (Hh : 0 < seconds / 60 / 60) by (apply Z.div_str_pos; lia).
        destruct (seconds / 60 / 60 <? 24) eqn:H24.
        -- apply Z.ltb_lt in H24.
           assert (D0 : seconds / 86400 = 0)
             by (rewrite <- B; apply Z.div_small; lia).
           rewrite D0, <- A, (Z.mod_small (seconds / 60 / 60) 24) by lia.
           cbn [Z.ltb Z.compare].
           replace (0 <? seconds / 60 / 60) with true
             by (symmetry; apply Z.ltb_lt; exact Hh).
           reflexivity.
        -- apply Z.ltb_ge in H24.
           assert (Dd : 0 < seconds / 60 / 60 / 24)
             by (apply Z.div_str_pos; lia).
           rewrite <- B, <- C.
           replace (0 <? seconds / 60 / 60 / 24) with true
             by (symmetry; apply Z.ltb_lt; exact Dd).
           reflexivity.
  - replace (seconds <? 60) with true by (symmetry; apply Z.ltb_lt; lia).
    reflexivity.
Qed.

(** X2 at one day, one hour, one minute and one second, and at minus one
    hour. *)
Lemma format_duration_units_witness :
  format_duration_seconds (PNum (PInt 90061)) 1
  = Ok (duration_text (90061 / 86400) ((90061 / 3600) mod 24)
          ((90061 / 60) mod 60) (90061 mod 60) 1)
  /\ format_duration_seconds (PNum (PInt (-3600))) 1
     = Ok (fmt_seconds (-3600) 1 ++ "s").
Proof.
  split.
  - apply (proj1 (format_duration_units 90061 1)). lia.
  - apply (proj2 (format_duration_units (-3600) 1)). lia.
Defined.

(*@@X3@@*)

(** ** ui/metric_card.py *)

Lemma string_app_assoc (a b c : string) : (a ++ b) ++ c = a ++ b ++ c.
Proof.
  induction a as [| x a IH]; simpl; [| rewrite IH]; reflexivity.
Qed.

Lemma last_segment_after_point (a b cur : string) :
  last_segment (a ++ String "." b) cur = last_segment b "".
Proof.
  revert cur. induction a as [| x a IH]; intro cur; simpl.
  - reflexivity.
  - destruct (Ascii.eqb x "."); apply IH.
Qed.

Lemma last_segment_no_point (s cur : string) :
  no_point s = true -> last_segment s cur = cur ++ s.
Proof.
  revert cur. induction s as [| x s IH]; intros cur H; simpl in *.
  - induction cur as [| y cur IHc]; simpl; [| rewrite <- IHc]; reflexivity.
  - apply andb_true_iff in H. destruct H as [Hx Hs].
    apply negb_true_iff in Hx. rewrite Hx, (IH _ Hs).
    apply string_app_assoc.
Qed.

Lemma no_point_app (a b : string) :
  no_point a = true -> no_point b = true -> no_point (a ++ b) = true.
Proof.
  intros Ha Hb. induction a as [| x a IH]; simpl in *; [exact Hb |].
  apply andb_true_iff in Ha. destruct Ha as [Hx Ha].
  rewrite Hx, (IH Ha). reflexivity.
Qed.

Lemma formatter_on_number (formatter : helper) (n : pynum)
    (decimal_places : option nat) :
  has_decimal_places formatter = true ->
  exists text, call_formatter formatter (PNum n) decimal_places = Ok text.
Proof.
  destruct formatter; try discriminate; intros _; cbn [call_formatter].
  - unfold format_currency. cbn [is_none_or_nan math_isnan bind].
    destruct (is_nan n); eexists; reflexivity.
  - unfold format_percentage. cbn [is_none_or_nan math_isnan bind].
    destruct (is_nan n); eexists; reflexivity.
  - unfold format_bytes. cbn [is_none_or_nan math_isnan bind].
    destruct (is_nan n); eexists; reflexivity.
  - destruct (is_nan n) eqn:N.
    + unfold format_duration_seconds. cbn [is_none_or_nan math_isnan bind].
      rewrite N. eexists. reflexivity.
    + apply format_duration_returns. exact N.
Qed.

(** X4.  The precision a helper formatter receives: for a template whose
    precision is a single digit and whose suffix holds no point, the text
    after the template's last point starts with that digit, so a numeric
    value is formatted by the helper with exactly the template's number of
    decimal places. *)
Theorem template_precision_reaches_formatter (prefix suffix : string)
    (fs : format_spec) (formatter : helper) (n : pynum) :
  (fs_prec fs < 10)%nat -> no_point suffix = true ->
  has_decimal_places formatter = true ->
  parse_decimal_places (tmpl prefix fs suffix) = Ok (fs_prec fs)
  /\ apply_formatter formatter (PNum n) (tmpl prefix fs suffix)
     = call_formatter formatter (PNum n) (Some (fs_prec fs)).
Proof.
  intros Hp Hs Hf.
  assert (P : parse_decimal_places (tmpl prefix fs suffix)
              = Ok (fs_prec fs)).
  { unfold parse_decimal_places, template_string, spec_string, tmpl.
    cbn [t_prefix t_spec t_suffix].
    set (flags := (if fs_plus fs then "+" else "")
                  ++ (if fs_comma fs then "," else "")).
    set (tail := nat_to_string (fs_prec fs)
                 ++ match fs_type fs with Fixed => "f" | Percent => "%" end).
    assert (E : prefix ++ "{:"
                ++ ((if fs_plus fs then "+" else "")
                    ++ (if fs_comma fs then "," else "") ++ "." ++ tail)
                ++ "}" ++ suffix
                = (prefix ++ "{:" ++ flags)
                  ++ String "." (tail ++ "}" ++ suffix)).
    { subst flags. destruct (fs_plus fs), (fs_comma fs);
        repeat rewrite string_app_assoc; reflexivity. }
    subst tail. rewrite E, last_segment_after_point.
    rewrite last_segment_no_point.
    - destruct fs as [plus comma prec type]. cbn [fs_prec fs_type] in *.
      do 10 (destruct prec as [| prec]; [reflexivity |]). lia.
    - destruct fs as [plus comma prec type]. cbn [fs_prec fs_type] in *.
      apply no_point_app;
        [| destruct type; simpl; exact Hs].
      do 10 (destruct prec as [| prec]; [destruct type; reflexivity |]).
      lia. }
  split; [exact P |].
  unfold apply_formatter. cbn [is_number]. rewrite Hf, P. cbn [andb bind].
  destruct (formatter_on_number formatter n (Some (fs_prec fs)) Hf)
    as [text ->].
  reflexivity.
Qed.

(** X4 for the byte formatter under the configured template of "Total
    Data Scanned". *)
Lemma template_precision_reaches_formatter_witness :
  parse_decimal_places (tmpl "" (spec_f true 2) " GB") = Ok 2%nat
  /\ apply_formatter h_format_bytes (PNum (PInt 1073741824))
       (tmpl "" (spec_f true 2) " GB")
     = call_formatter h_format_bytes (PNum (PInt 1073741824)) (Some 2%nat).
Proof.
  apply (template_precision_reaches_formatter "" " GB" (spec_f true 2)
           h_format_bytes (PInt 1073741824)); [simpl; lia | |]; reflexivity.
Defined.

Lemma delta_display_shape (label : string) (value delta : pyval)
    (format_delta : template) (theme_config : option theme) :
  (exists shown,
     delta_display label value delta format_delta theme_config
     = ([], Ok shown))
  \/ (exists e,
        delta_display label value delta format_delta theme_config
        = ([st_warning (DeltaFailed label e)], Ok (None, None))).
Proof.
  unfold delta_display.
  destruct delta as [| p | s]; [left; eexists; reflexivity | |].
  - destruct (calculate_delta_percentage value (PNum p)) as [[d |] | e];
      cbn; eauto.
  - destruct (calculate_delta_percentage value (PStr s)) as [[d |] | e];
      cbn; eauto.
Qed.

(** X5.  A card whose formatter exists in [helpers] is always drawn:
    whatever the value and the baseline, no exception leaves the card, at
    most two warnings precede the metric, and a formatter that raised is
    replaced by the raw text of the value (["N/A"] for [None]). *)
Theorem known_formatter_card_is_drawn
    (float_repr : Q -> string) (label name : string) (value delta : pyval)
    (format_value format_delta : template) (help_text : option string)
    (theme_config : option theme) (formatter : helper) :
  helpers_function name = Some formatter ->
  exists warnings display_value shown,
    render_metric_card float_repr label value delta format_value
      format_delta (Some name) help_text theme_config
    = ((warnings
        ++ [st_metric label display_value (fst shown) (snd shown) help_text])
       %list, Ok tt)
    /\ (List.length warnings <= 2)%nat
    /\ Forall (fun e => exists m, e = st_warning m) warnings
    /\ (forall text,
          apply_formatter formatter value format_value = Ok text ->
          display_value = text)
    /\ (forall e,
          apply_formatter formatter value format_value = Raise e ->
          display_value = match value with
                          | PNone => "N/A"
                          | _ => py_str float_repr value
                          end).
Proof.
  intro Hh.
  assert (Ht : truthy (Some name) = true)
    by (destruct name; [discriminate Hh | reflexivity]).
  unfold render_metric_card, value_display. rewrite Ht.
  cbn [or_default]. rewrite Hh.
  destruct (delta_display_shape label value delta format_delta theme_config)
    as [[shown D] | [e' D]];
    destruct (apply_formatter formatter value format_value) as [text | e];
    rewrite D; cbn.
  - exists [], text, shown. repeat split; auto; try discriminate.
    intros t [= <-]. reflexivity.
  - exists [st_warning (FormatterFailed name value e)],
      (match value with PNone => "N/A" | _ => py_str float_repr value end),
      shown.
    repeat split; auto; try discriminate.
    constructor; [eexists; reflexivity | constructor].
  - exists [st_warning (DeltaFailed label e')], text, (None, None).
    repeat split; auto; try discriminate.
    + constructor; [eexists; reflexivity | constructor].
    + intros t [= <-]. reflexivity.
  - exists [st_warning (FormatterFailed name value e);
            st_warning (DeltaFailed label e')],
      (match value with PNone => "N/A" | _ => py_str float_repr value end),
      (None, None).
    repeat split; auto; try discriminate.
    repeat (constructor; [eexists; reflexivity |]). constructor.
Qed.

(** X5 for a text value under the byte formatter, with a baseline. *)
Lemma known_formatter_card_is_drawn_witness :
  exists warnings display_value shown,
    render_metric_card no_float_repr "Total Data Scanned" (PStr "n/a")
      (PNum (PInt 3)) default_format_value default_format_delta
      (Some "format_bytes") None (Some APP_THEME)
    = ((warnings
        ++ [st_metric "Total Data Scanned" display_value (fst shown)
              (snd shown) None])%list, Ok tt)
    /\ (List.length warnings <= 2)%nat
    /\ Forall (fun e => exists m, e = st_warning m) warnings
    /\ (forall text,
          apply_formatter h_format_bytes (PStr "n/a") default_format_value
          = Ok text -> display_value = text)
    /\ (forall e,
          apply_formatter h_format_bytes (PStr "n/a") default_format_value
          = Raise e -> display_value = "n/a").
Proof.
  exact (known_formatter_card_is_drawn no_float_repr "Total Data Scanned"
           "format_bytes" (PStr "n/a") (PNum (PInt 3)) default_format_value
           default_format_delta None (Some APP_THEME) h_format_bytes eq_refl).
Defined.

(** ** modules/dashboard_sections.py *)

Lemma value_display_warns (float_repr : Q -> string) (value : pyval)
    (format_value : template) (formatter_func : option string) :
  forallb is_st_warning
    (fst (value_display float_repr value format_value formatter_func)) = true.
Proof.
  unfold value_display.
  destruct (truthy formatter_func); [| reflexivity].
  destruct (helpers_function (or_default "" formatter_func)) as [h |].
  - destruct (apply_formatter h value format_value); reflexivity.
  - destruct (default_display format_value value); reflexivity.
Qed.

Lemma render_metric_card_shape (float_repr : Q -> string) (label : string)
    (value delta : pyval) (format_value format_delta : template)
    (formatter_func help_text : option string) (theme_config : option theme) :
  exists warnings,
    forallb is_st_warning warnings = true
    /\ ((exists display_value shown,
           render_metric_card float_repr label value delta format_value
             format_delta formatter_func help_text theme_config
           = ((warnings
               ++ [st_metric label display_value (fst shown) (snd shown)
                     help_text])%list, Ok tt))
        \/ (exists e,
              render_metric_card float_repr label value delta format_value
                format_delta formatter_func help_text theme_config
              = (warnings, Raise e))).
Proof.
  unfold render_metric_card.
  pose proof (value_display_warns float_repr value format_value
                formatter_func) as W.
  destruct (value_display float_repr value format_value formatter_func)
    as [ev [display_value | e]]; cbn [fst] in W.
  - destruct (delta_display_shape label value delta format_delta theme_config)
      as [[shown D] | [e D]]; rewrite D; cbn.
    + exists ev. split; [exact W |]. left. exists display_value, shown.
      reflexivity.
    + exists (ev ++ [st_warning (DeltaFailed label e)])%list.
      split; [rewrite forallb_app, W; reflexivity |].
      left. exists display_value, (None, None).
      rewrite <- app_assoc. reflexivity.
  - exists ev. split; [exact W |]. right. exists e. reflexivity.
Qed.

Lemma display_metric_shape (float_repr : Q -> string)
    (execute_query : string -> params -> result DataFrame)
    (section_key : string) (start_date end_date prev_start prev_end : date)
    (selected_entity : option string) (config : metric_config) :
  exists warnings final,
    display_metric float_repr execute_query section_key start_date end_date
      prev_start prev_end selected_entity config
    = ((warnings ++ [final])%list, Ok tt)
    /\ forallb is_st_warning warnings = true
    /\ is_card_or_error final = true.
Proof.
  unfold display_metric.
  match goal with |- context [if ?b then _ else _] => destruct b end.
  { exists [], (display_error_box
                 (IncompleteConfig
                    (or_default "Unknown Metric" (cfg_label config)))).
    repeat split. }
  cbv zeta.
  destruct (execute_query _ _) as [data | e].
  2:{ destruct e; eexists [], _; cbn; repeat split. }
  rewrite w_bind_lift_ok.
  destruct (resolve_metric _ _ _ _ data) as [values | e].
  2:{ destruct e; eexists [], _; cbn; repeat split. }
  rewrite w_bind_lift_ok.
  destruct (render_metric_card_shape float_repr
              (or_default "Unknown Metric" (cfg_label config))
              (fst values) (snd values)
              (or_default default_format_value (cfg_format_value config))
              (or_default default_format_delta (cfg_format_delta config))
              (cfg_formatter_func config) (cfg_help_text config)
              (Some APP_THEME))
    as (warnings & W & [(v & shown & ->) | (e & ->)]).
  - eexists warnings, _. cbn. repeat split. exact W.
  - destruct e; eexists warnings, _; cbn; repeat split; exact W.
Qed.

(** X6.  Whatever its configuration and whatever the fetcher does, one
    metric of a section ends in exactly one metric card or one error box,
    preceded by warnings only, and never raises: a failure in one metric
    cannot reach the next. *)
Theorem metric_ends_in_card_or_error_box (float_repr : Q -> string)
    (execute_query : string -> params -> result DataFrame)
    (section_key : string) (start_date end_date prev_start prev_end : date)
    (selected_entity : option string) (config : metric_config) :
  exists warnings final,
    display_metric float_repr execute_query section_key start_date end_date
      prev_start prev_end selected_entity config
    = ((warnings ++ [final])%list, Ok tt)
    /\ forallb is_st_warning warnings = true
    /\ is_card_or_error final = true.
Proof.
  apply display_metric_shape.
Qed.

Lemma for_each_flat_map {E A : Type} (l : list A)
    (body : A -> writer E unit) :
  (forall x, snd (body x) = Ok tt) ->
  for_each l body = (flat_map (fun x => fst (body x)) l, Ok tt).
Proof.
  intro H. induction l as [| x rest IH]; [reflexivity |].
  cbn [for_each flat_map]. rewrite IH. specialize (H x).
  destruct (body x) as [ev [[] | e]]; [reflexivity | discriminate].
Qed.

Lemma cards_or_errors_counted (float_repr : Q -> string)
    (execute_query : string -> params -> result DataFrame)
    (section_key : string) (start_date end_date prev_start prev_end : date)
    (selected_entity : option string) (configs : list metric_config) :
  List.length
    (filter is_card_or_error
       (flat_map
          (fun config =>
             fst (display_metric float_repr execute_query section_key
                    start_date end_date prev_start prev_end selected_entity
                    config)) configs))
  = List.length configs.
Proof.
  induction configs as [| config rest IH]; [reflexivity |].
  cbn [flat_map]. rewrite filter_app, length_app, IH.
  destruct (display_metric_shape float_repr execute_query section_key
              start_date end_date prev_start prev_end selected_entity config)
    as (warnings & final & -> & W & F).
  cbn [fst]. rewrite filter_app, length_app. cbn [filter]. rewrite F.
  assert (N : filter is_card_or_error warnings = []).
  { clear - W. induction warnings as [| e l IHl]; [reflexivity |].
    cbn in W. apply andb_true_iff in W. destruct W as [We Wl].
    destruct e; try discriminate. cbn. exact (IHl Wl). }
  rewrite N. reflexivity.
Qed.

(** X7.  A metric section whose previous period exists shows its header,
    then what each configured metric shows, in the order of the
    configuration, and returns normally: one card or error box per
    configured metric, and a single warning for a section key without
    configuration.  When the previous period cannot be computed, a
    configured section raises right after its header. *)
Theorem metric_section_composition (float_repr : Q -> string)
    (execute_query : string -> params -> result DataFrame)
    (section_title section_key : string) (start_date end_date : date)
    (selected_entity : option string) :
  (forall prev,
     calculate_prev_period_dates start_date end_date = Ok prev ->
     exists events,
       display_metric_section float_repr execute_query section_title
         section_key start_date end_date selected_entity
       = (display_section_header section_title :: events, Ok tt)
       /\ (METRIC_CARD_CONFIGS section_key = [] ->
           events = [display_warning_box (NoMetricConfigs section_key)])
       /\ (METRIC_CARD_CONFIGS section_key <> [] ->
           events
           = flat_map
               (fun config =>
                  fst (display_metric float_repr execute_query section_key
                         start_date end_date (fst prev) (snd prev)
                         selected_entity config))
               (METRIC_CARD_CONFIGS section_key))
       /\ List.length (filter is_card_or_error events)
          = List.length (METRIC_CARD_CONFIGS section_key))
  /\ (forall e,
        calculate_prev_period_dates start_date end_date = Raise e ->
        METRIC_CARD_CONFIGS section_key <> [] ->
        display_metric_section float_repr execute_query section_title
          section_key start_date end_date selected_entity
        = ([display_section_header section_title], Raise e)).
Proof.
  split.
  - intros prev Hp. unfold display_metric_section. rewrite Hp.
    destruct (METRIC_CARD_CONFIGS section_key) as [| c l] eqn:C.
    + eexists. split; [reflexivity |].
      split; [reflexivity |]. split; [| reflexivity].
      intro H. exfalso. exact (H eq_refl).
    + rewrite w_bind_lift_ok, for_each_flat_map
        by (intro; apply display_metric_returns).
      eexists. split; [reflexivity |].
      split; [discriminate |]. split; [reflexivity |].
      apply cards_or_errors_counted.
  - intros e He Hc. unfold display_metric_section. rewrite He.
    destruct (METRIC_CARD_CONFIGS section_key) as [| c l];
      [exfalso; exact (Hc eq_refl) | reflexivity].
Qed.

(** X7 for the overview section over January 2024 during an outage, and
    for the same section with a period that starts on the first date. *)
Lemma metric_section_composition_witness :
  (exists events,
     display_metric_section no_float_repr fetch_fail "Overview"
       "OVERVIEW_METRICS" (ymd 2024 1 1) (ymd 2024 1 31) None
     = (display_section_header "Overview" :: events, Ok tt)
     /\ List.length (filter is_card_or_error events) = 2%nat)
  /\ display_metric_section no_float_repr fetch_fail "Overview"
       "OVERVIEW_METRICS" date_min (ymd 2024 1 31) None
     = ([display_section_header "Overview"], Raise OverflowError).
Proof.
  pose proof (metric_section_composition no_float_repr fetch_fail "Overview"
                "OVERVIEW_METRICS") as H.
  split.
  - destruct (proj1 (H (ymd 2024 1 1) (ymd 2024 1 31) None) _ eq_refl)
      as (events & E & _ & _ & N).
    exists events. split; [exact E | exact N].
  - apply (proj2 (H date_min (ymd 2024 1 31) None) OverflowError eq_refl).
    discriminate.
Defined.

Lemma formatter_on_none (formatter : helper) :
  has_decimal_places formatter = true ->
  call_formatter formatter PNone None = Ok "N/A".
Proof.
  destruct formatter; try discriminate; reflexivity.
Qed.

(** X8.  A metric whose query returns no row, or a frame without the
    metric's value column, is shown as ["N/A"] with no delta and no error
    box -- the "Failed Query Rate" of the user section apart, which is
    computed from other columns.  Nothing precedes the card when the
    metric has no formatter or one of the formatting helpers. *)
Theorem missing_data_shows_na (float_repr : Q -> string)
    (execute_query : string -> params -> result DataFrame)
    (section_key : string) (start_date end_date prev_start prev_end : date)
    (selected_entity : option string) (config : metric_config)
    (query_id value_col : string) (data : DataFrame) :
  let label := or_default "Unknown Metric" (cfg_label config) in
  cfg_query_id config = Some query_id -> query_id <> "" ->
  cfg_value_col config = Some value_col -> value_col <> "" ->
  execute_query query_id
    (metric_params section_key start_date end_date prev_start prev_end
       selected_entity) = Ok data ->
  df_empty data = true \/ has_column value_col data = false ->
  String.eqb label "Failed Query Rate"
  && String.eqb section_key "USER_360_METRICS" = false ->
  exists warnings,
    display_metric float_repr execute_query section_key start_date end_date
      prev_start prev_end selected_entity config
    = ((warnings
        ++ [st_metric label "N/A" None None (cfg_help_text config)])%list,
       Ok tt)
    /\ forallb is_st_warning warnings = true
    /\ ((forall name,
           cfg_formatter_func config = Some name ->
           exists formatter,
             helpers_function name = Some formatter
             /\ has_decimal_places formatter = true) ->
        warnings = []).
Proof.
  intros label Hq Hq' Hv Hv' Hdata Hmiss Hspecial.
  assert (Tq : truthy (Some query_id) = true)
    by (destruct query_id; [exfalso; exact (Hq' eq_refl) | reflexivity]).
  assert (Tv : truthy (Some value_col) = true)
    by (destruct value_col; [exfalso; exact (Hv' eq_refl) | reflexivity]).
  assert (M : negb (df_empty data) && has_column value_col data = false)
    by (destruct Hmiss as [-> | ->];
        [reflexivity | apply andb_false_r]).
  unfold display_metric. fold label. rewrite Hq, Hv, Tq, Tv.
  cbn [negb orb or_default]. cbv zeta. rewrite Hdata, w_bind_lift_ok.
  unfold resolve_metric. rewrite M, Hspecial. cbn [bind].
  rewrite w_bind_lift_ok. cbn [fst snd].
  unfold render_metric_card, value_display, delta_display.
  destruct (cfg_formatter_func config) as [name |] eqn:F.
  - destruct (truthy (Some name)) eqn:T.
    + cbn [or_default].
      destruct (helpers_function name) as [formatter |] eqn:Hh.
      * unfold apply_formatter. cbn [is_number andb].
        destruct (has_decimal_places formatter) eqn:D.
        -- rewrite (formatter_on_none formatter D). cbn.
           exists []. repeat split.
        -- destruct formatter; try discriminate. cbn.
           eexists [_]. repeat split.
           intro H. destruct (H name eq_refl) as (f & Hf & Df).
           rewrite Hh in Hf. injection Hf as <-. discriminate.
      * cbn. eexists [_]. repeat split.
        intro H. destruct (H name eq_refl) as (f & Hf & _).
        rewrite Hh in Hf. discriminate.
    + cbn. exists []. repeat split.
  - cbn. exists []. repeat split.
Qed.

(** X8 for the first overview card when the query returns no row. *)
Lemma missing_data_shows_na_witness :
  exists warnings,
    display_metric no_float_repr (fetch_const []) "OVERVIEW_METRICS"
      (ymd 2024 1 1) (ymd 2024 1 31) (ymd 2023 12 1) (ymd 2023 12 31) None
      (card "Total Credits Used" "TOTAL_COST_AND_CREDITS_OVERVIEW"
         "TOTAL_CREDITS" (Some "PREV_TOTAL_CREDITS")
         (tmpl "" (spec_f true 0) "") (Some (tmpl "" (spec_pct true 2) ""))
         None "Total Snowflake credits consumed in the selected period.")
    = ((warnings
        ++ [st_metric "Total Credits Used" "N/A" None None
              (Some "Total Snowflake credits consumed in the selected period.")])
       %list, Ok tt)
    /\ forallb is_st_warning warnings = true
    /\ ((forall name,
           @None string = Some name ->
           exists formatter,
             helpers_function name = Some formatter
             /\ has_decimal_places formatter = true) ->
        warnings = []).
Proof.
  refine (missing_data_shows_na no_float_repr (fetch_const [])
            "OVERVIEW_METRICS" (ymd 2024 1 1) (ymd 2024 1 31) (ymd 2023 12 1)
            (ymd 2023 12 31) None
            (card "Total Credits Used" "TOTAL_COST_AND_CREDITS_OVERVIEW"
               "TOTAL_CREDITS" (Some "PREV_TOTAL_CREDITS")
               (tmpl "" (spec_f true 0) "")
               (Some (tmpl "" (spec_pct true 2) "")) None
               "Total Snowflake credits consumed in the selected period.")
            "TOTAL_COST_AND_CREDITS_OVERVIEW" "TOTAL_CREDITS" [] eq_refl _
            eq_refl _ eq_refl (or_introl eq_refl) eq_refl); discriminate.
Defined.

Lemma for_each_map {E A : Type} (l : list A) (body : A -> writer E unit)
    (f : A -> E) :
  Forall (fun x => body x = ([f x], Ok tt)) l ->
  for_each l body = (map f l, Ok tt).
Proof.
  induction 1 as [| x rest Hx _ IH]; [reflexivity |].
  cbn [for_each map]. rewrite Hx, IH. reflexivity.
Qed.

Lemma configured_metrics_complete (section_key : string) :
  forallb complete (METRIC_CARD_CONFIGS section_key) = true.
Proof.
  unfold METRIC_CARD_CONFIGS.
  repeat match goal with
         | |- context [if ?b then _ else _] => destruct b
         end; reflexivity.
Qed.

(** X9.  An outage is reported metric by metric.  When every query fails
    with [DataFetchError], a metric section shows, after its header, one
    "failed to load" error box per configured metric, under the metric's
    label and in the order of the configuration, shows no card, and
    returns normally. *)
Theorem outage_one_error_box_per_metric (float_repr : Q -> string)
    (execute_query : string -> params -> result DataFrame)
    (section_title section_key : string) (start_date end_date : date)
    (selected_entity : option string) (prev : date * date) :
  (forall query_id p, execute_query query_id p = Raise DataFetchError) ->
  calculate_prev_period_dates start_date end_date = Ok prev ->
  METRIC_CARD_CONFIGS section_key <> [] ->
  display_metric_section float_repr execute_query section_title section_key
    start_date end_date selected_entity
  = (display_section_header section_title
     :: map (fun config =>
               display_error_box
                 (MetricLoadFailed
                    (or_default "Unknown Metric" (cfg_label config))
                    DataFetchError))
          (METRIC_CARD_CONFIGS section_key), Ok tt).
Proof.
  intros Hout Hp Hc. unfold display_metric_section. rewrite Hp.
  pose proof (configured_metrics_complete section_key) as C.
  destruct (METRIC_CARD_CONFIGS section_key) as [| c l];
    [exfalso; exact (Hc eq_refl) |].
  rewrite w_bind_lift_ok.
  rewrite (for_each_map (c :: l) _
             (fun config =>
                display_error_box
                  (MetricLoadFailed
                     (or_default "Unknown Metric" (cfg_label config))
                     DataFetchError))); [reflexivity |].
  apply Forall_forall. intros config Hin.
  assert (Cc : complete config = true)
    by (exact (proj1 (forallb_forall _ _) C config Hin)).
  unfold complete in Cc. apply andb_true_iff in Cc. destruct Cc as [Cq Cv].
  unfold display_metric. rewrite Cq, Cv. cbn [negb orb]. cbv zeta.
  rewrite Hout. reflexivity.
Qed.

(** X9 for the warehouse section over January 2024. *)
Lemma outage_one_error_box_per_metric_witness :
  display_metric_section no_float_repr fetch_fail "Warehouse"
    "WAREHOUSE_METRICS" (ymd 2024 1 1) (ymd 2024 1 31) (Some "WH1")
  = (display_section_header "Warehouse"
     :: map (fun config =>
               display_error_box
                 (MetricLoadFailed
                    (or_default "Unknown Metric" (cfg_label config))
                    DataFetchError))
          (METRIC_CARD_CONFIGS "WAREHOUSE_METRICS"), Ok tt).
Proof.
  apply (outage_one_error_box_per_metric no_float_repr fetch_fail "Warehouse"
           "WAREHOUSE_METRICS" (ymd 2024 1 1) (ymd 2024 1 31) (Some "WH1")
           (ymd 2023 12 1, ymd 2023 12 31)).
  - reflexivity.
  - reflexivity.
  - discriminate.
Defined.

(** ** insights/recommendations.py *)

Lemma try_except_fetch_error {A : Type} (m : writer rec_effect A)
    (handler : exn -> writer rec_effect A) :
  (forall e, snd (handler e) <> Raise DataFetchError) ->
  snd (try_except m is_DataFetchError handler) <> Raise DataFetchError.
Proof.
  intro H. destruct m as [ev [a | e]]; cbn; [discriminate |].
  specialize (H e).
  destruct e; cbn; try discriminate.
  destruct (handler DataFetchError) as [ev' r]. exact H.
Qed.

Lemma w_bind_not_raised {E A B : Type} (m : writer E A)
    (k : A -> writer E B) (e : exn) :
  snd m <> Raise e -> (forall a, snd (k a) <> Raise e) ->
  snd (w_bind m k) <> Raise e.
Proof.
  intros Hm Hk. rewrite w_bind_snd.
  destruct (snd m) as [a | e']; [apply Hk |].
  intros [= ->]. exact (Hm eq_refl).
Qed.

Lemma when_not_raised {E : Type} (b : bool) (m : writer E unit) (e : exn) :
  snd m <> Raise e -> snd (when b m) <> Raise e.
Proof.
  intro H. destruct b; [exact H | discriminate].
Qed.

(** X10.  No [DataFetchError] leaves the recommendation engine: whatever
    the scope, the period and the fetcher, a failed query ends in a warning
    on the page, never in that exception for the caller. *)
Theorem fetch_error_never_leaves_engine (float_repr : Q -> string)
    (execute_query : string -> params -> result DataFrame)
    (start_date end_date : date)
    (selected_user selected_warehouse : option string) :
  snd (generate_finops_recommendations float_repr execute_query start_date
         end_date selected_user selected_warehouse)
  <> Raise DataFetchError.
Proof.
  assert (B : snd (rule_battery float_repr execute_query start_date end_date
                     selected_user selected_warehouse)
              <> Raise DataFetchError).
  { unfold rule_battery.
    repeat (apply w_bind_not_raised; [| intros _]);
      apply when_not_raised.
    - unfold overview_recommendations.
      apply w_bind_not_raised; [| intros _];
        apply try_except_fetch_error; discriminate.
    - unfold user_recommendations.
      apply try_except_fetch_error; discriminate.
    - unfold warehouse_recommendations.
      apply try_except_fetch_error; discriminate. }
  unfold generate_finops_recommendations.
  destruct (rule_battery _ _ _ _ _ _) as [log [u | e]]; cbn in *;
    [discriminate |].
  intros [= ->]. exact (B eq_refl).
Qed.

Lemma cell0_missing (data : DataFrame) (col : string) :
  has_column col data = false -> cell0 data col = Raise KeyError.
Proof.
  unfold cell0, has_column, df_columns.
  induction data as [| [c vs] rest IH]; cbn; [reflexivity |].
  destruct (String.eqb col c); [discriminate |]. exact IH.
Qed.

Lemma cell0_present (data : DataFrame) (col : string) :
  df_rectangular data = true -> df_empty data = false ->
  has_column col data = true -> exists v, cell0 data col = Ok v.
Proof.
  unfold df_rectangular, cell0, has_column, df_columns.
  intros R E.
  assert (L : df_len data <> O).
  { destruct data as [| cv rest]; [discriminate |].
    cbn [df_empty] in E. apply Nat.eqb_neq in E. exact E. }
  clear E. revert R L. generalize (df_len data) as n. intros n R L.
  induction data as [| [c vs] rest IH]; cbn in *; [discriminate |].
  apply andb_true_iff in R. destruct R as [Rc Rrest].
  destruct (String.eqb col c).
  - intros _. apply Nat.eqb_eq in Rc.
    destruct vs as [| v vs]; [exfalso; exact (L (eq_sym Rc)) |].
    exists v. reflexivity.
  - exact (IH Rrest).
Qed.

Lemma warehouse_scope_battery (float_repr : Q -> string)
    (execute_query : string -> params -> result DataFrame)
    (start_date end_date : date) (selected_warehouse : string) :
  selected_warehouse <> "" ->
  rule_battery float_repr execute_query start_date end_date None
    (Some selected_warehouse)
  = warehouse_recommendations float_repr execute_query start_date end_date
      selected_warehouse.
Proof.
  intro Hw. unfold rule_battery.
  assert (T : truthy (Some selected_warehouse) = true)
    by (destruct selected_warehouse;
        [exfalso; exact (Hw eq_refl) | reflexivity]).
  rewrite T. cbn [truthy negb andb when or_default].
  destruct (warehouse_recommendations _ _ _ _ _) as [ev r]. reflexivity.
Qed.

(** X11.  A warehouse summary that lacks one of the columns the rules
    read -- the idle percentage, the auto-suspend setting, the size or the
    active minutes -- makes the engine raise [KeyError]: nothing is shown,
    and no list, not even the sentinel, is returned. *)
Theorem missing_summary_column_raises (float_repr : Q -> string)
    (execute_query : string -> params -> result DataFrame)
    (start_date end_date : date) (selected_warehouse : string)
    (summary : DataFrame) (prev : date * date) (col : string) :
  selected_warehouse <> "" ->
  calculate_prev_period_dates start_date end_date = Ok prev ->
  (forall p, execute_query "WAREHOUSE_SUMMARY_METRICS" p = Ok summary) ->
  df_rectangular summary = true -> df_empty summary = false ->
  In col WAREHOUSE_RULE_COLUMNS -> has_column col summary = false ->
  generate_finops_recommendations float_repr execute_query start_date
    end_date None (Some selected_warehouse)
  = ([], Raise KeyError).
Proof.
  intros Hw Hp Hq R E Hin Hmiss.
  unfold generate_finops_recommendations.
  rewrite (warehouse_scope_battery _ _ _ _ _ Hw).
  unfold warehouse_recommendations.
  rewrite Hp, w_bind_lift_ok, Hq, w_bind_lift_ok, E. cbn [negb when].
  destruct (has_column "IDLE_PERCENTAGE" summary) eqn:C1;
    [| rewrite (cell0_missing _ _ C1); reflexivity].
  destruct (cell0_present _ _ R E C1) as [v1 ->]. rewrite w_bind_lift_ok.
  destruct (has_column "AUTO_SUSPEND" summary) eqn:C2;
    [| rewrite (cell0_missing _ _ C2); reflexivity].
  destruct (cell0_present _ _ R E C2) as [v2 ->]. rewrite w_bind_lift_ok.
  destruct (has_column "SIZE" summary) eqn:C3;
    [| rewrite (cell0_missing _ _ C3); reflexivity].
  destruct (cell0_present _ _ R E C3) as [v3 ->]. rewrite w_bind_lift_ok.
  destruct (has_column "ACTIVE_MINUTES" summary) eqn:C4;
    [| rewrite (cell0_missing _ _ C4); reflexivity].
  exfalso. destruct Hin as [<- | [<- | [<- | [<- | []]]]]; congruence.
Qed.

(** X11 for a summary without the size of the warehouse. *)
Lemma missing_summary_column_raises_witness :
  generate_finops_recommendations no_float_repr
    (fetch_warehouse summary_without_size)
    (ymd 2024 1 1) (ymd 2024 1 31) None (Some "WH1")
  = ([], Raise KeyError).
Proof.
  apply (missing_summary_column_raises no_float_repr
           (fetch_warehouse summary_without_size) (ymd 2024 1 1)
           (ymd 2024 1 31) "WH1" summary_without_size
           (ymd 2023 12 1, ymd 2023 12 31) "SIZE").
  - discriminate.
  - reflexivity.
  - intro p. reflexivity.
  - reflexivity.
  - reflexivity.
  - simpl. auto.
  - reflexivity.
Defined.

(** X12.  When the summary of the selected warehouse is fetched but the
    query of the queued overload time fails, the engine shows one warning
    and returns: the idle/auto-suspend advisory is kept if its rule fired,
    and the low-usage rule, which comes after the failed query, is never
    evaluated -- without the first advisory the sentinel is returned,
    whatever the active minutes and the size. *)
Theorem queued_fetch_failure_skips_low_usage (float_repr : Q -> string)
    (execute_query : string -> params -> result DataFrame)
    (start_date end_date : date) (selected_warehouse : string)
    (summary : DataFrame) (i a : pynum) (size minutes : pyval)
    (prev : date * date) :
  selected_warehouse <> "" ->
  calculate_prev_period_dates start_date end_date = Ok prev ->
  (forall p, execute_query "WAREHOUSE_SUMMARY_METRICS" p = Ok summary) ->
  (forall p, execute_query "WAREHOUSE_QUEUED_OVERLOAD_TIME_TREND" p
             = Raise DataFetchError) ->
  df_empty summary = false ->
  cell0 summary "IDLE_PERCENTAGE" = Ok (PNum i) ->
  cell0 summary "AUTO_SUSPEND" = Ok (PNum a) ->
  cell0 summary "SIZE" = Ok size ->
  cell0 summary "ACTIVE_MINUTES" = Ok minutes ->
  exists pct duration,
    generate_finops_recommendations float_repr execute_query start_date
      end_date None (Some selected_warehouse)
    = ([display_warning_box (WarehouseDataFailed DataFetchError)],
       Ok (if fires i a
           then [idle_suspend_advice selected_warehouse pct duration]
           else [NO_RECOMMENDATIONS]))
    /\ (fires i a = true ->
        format_percentage (PNum (num_div i (PInt 100))) 1 = Ok pct
        /\ format_duration_seconds (PNum a) 1 = Ok duration).
Proof.
  intros Hw Hp Hq Hfail E Hi Ha Hs Hm.
  destruct (idle_suspend_rule_trace selected_warehouse i a)
    as (pct & duration & Hrule & Htext).
  exists pct, duration. split; [| exact Htext].
  unfold generate_finops_recommendations.
  rewrite (warehouse_scope_battery _ _ _ _ _ Hw).
  unfold warehouse_recommendations.
  rewrite Hp, w_bind_lift_ok, Hq, w_bind_lift_ok, E. cbn [negb when].
  rewrite Hi, w_bind_lift_ok, Ha, w_bind_lift_ok, Hs, w_bind_lift_ok, Hm,
    w_bind_lift_ok, Hrule.
  unfold queued_overload_rule. rewrite Hfail. fold (fires i a).
  destruct (fires i a); reflexivity.
Qed.

(** X12 for WH1, 35 percent idle with a 600 second auto-suspend, 10 active
    minutes and size LARGE. *)
Lemma queued_fetch_failure_skips_low_usage_witness :
  exists pct duration,
    generate_finops_recommendations no_float_repr
      (fetch_summary_only large_idle_summary) (ymd 2024 1 1) (ymd 2024 1 31) None (Some "WH1")
    = ([display_warning_box (WarehouseDataFailed DataFetchError)],
       Ok (if fires (PInt 35) (PInt 600)
           then [idle_suspend_advice "WH1" pct duration]
           else [NO_RECOMMENDATIONS]))
    /\ (fires (PInt 35) (PInt 600) = true ->
        format_percentage (PNum (num_div (PInt 35) (PInt 100))) 1 = Ok pct
        /\ format_duration_seconds (PNum (PInt 600)) 1 = Ok duration).
Proof.
  apply (queued_fetch_failure_skips_low_usage no_float_repr
           (fetch_summary_only large_idle_summary) (ymd 2024 1 1)
           (ymd 2024 1 31) "WH1" large_idle_summary (PInt 35) (PInt 600)
           (PStr "LARGE") (PNum (PInt 10)) (ymd 2023 12 1, ymd 2023 12 31)).
  - discriminate.
  - reflexivity.
  - intro p. reflexivity.
  - intro p. reflexivity.
  - reflexivity.
  - reflexivity.
  - reflexivity.
  - reflexivity.
  - reflexivity.
Defined.

(*@@X13@@*)

(*@@X14@@*)

(** ** ui/base_components.py *)

Lemma date_sub_days_ok (d : date) (days : Z) :
  MINORDINAL <= toordinal d - days <= MAXORDINAL ->
  date_sub_days d days = Ok {| toordinal := toordinal d - days |}.
Proof.
  intro H. unfold date_sub_days. cbv zeta.
  destruct (MINORDINAL <=? toordinal d - days) eqn:A;
    [| apply Z.leb_gt in A; lia].
  destruct (toordinal d - days <=? MAXORDINAL) eqn:B;
    [reflexivity | apply Z.leb_gt in B; lia].
Qed.

Lemma preset_days (selected_option : string) (days : Z) :
  dict_getitem DATE_RANGE_OPTIONS selected_option = Ok (Some days) ->
  7 <= days <= 365.
Proof.
  unfold DATE_RANGE_OPTIONS. cbn [dict_getitem].
  repeat match goal with
         | |- context [if ?b then _ else _] => destruct b
         end; intros [= <-] || discriminate; lia.
Qed.

(** X15.  A preset of the date range selector, on a day late enough for
    it: the range ends today and holds exactly the preset's number of
    days, whatever the custom dates; and the previous period that a metric
    section compares it with is the same number of days, ending the day
    before the range starts.  On a day earlier than the preset is long the
    selector raises [OverflowError]. *)
Theorem preset_range (today : date) (default_days : Z)
    (selected_option : string) (custom_start custom_end : date) (days : Z) :
  valid_date today ->
  1 <= default_days <= toordinal today ->
  dict_getitem DATE_RANGE_OPTIONS selected_option = Ok (Some days) ->
  (days <= toordinal today ->
   exists events start_date,
     date_range_selector today default_days selected_option custom_start
       custom_end = (events, Ok (start_date, today))
     /\ valid_date start_date
     /\ date_diff today start_date = days - 1
     /\ (2 * days <= toordinal today ->
         exists prev_start prev_end,
           calculate_prev_period_dates start_date today
           = Ok (prev_start, prev_end)
           /\ toordinal prev_end = toordinal start_date - 1
           /\ toordinal prev_start = toordinal start_date - days))
  /\ (toordinal today < days ->
      exists events,
        date_range_selector today default_days selected_option custom_start
          custom_end = (events, Raise OverflowError)).
Proof.
  intros Vt Hd Hopt. pose proof (preset_days _ _ Hopt) as Hdays.
  unfold valid_date, MINORDINAL, MAXORDINAL in *.
  unfold date_range_selector. cbv zeta.
  rewrite (date_sub_days_ok today (default_days - 1))
    by (unfold MINORDINAL, MAXORDINAL; lia).
  unfold emit. cbn [w_bind]. rewrite w_bind_lift_ok. cbn [w_bind].
  rewrite Hopt, w_bind_lift_ok.
  split; intro Ht.
  - rewrite (date_sub_days_ok today (days - 1))
      by (unfold MINORDINAL, MAXORDINAL; lia).
    rewrite w_bind_lift_ok. cbn [w_bind app w_ret].
    eexists _, _. split; [reflexivity |].
    cbn [toordinal]. unfold date_diff. cbn [toordinal].
    split; [unfold MINORDINAL, MAXORDINAL; lia |]. split; [lia |].
    intro H2. unfold calculate_prev_period_dates, date_diff. cbv zeta.
    rewrite date_sub_days_ok
      by (cbn [toordinal]; unfold MINORDINAL, MAXORDINAL; lia).
    cbn [bind toordinal].
    rewrite date_sub_days_ok
      by (cbn [toordinal]; unfold MINORDINAL, MAXORDINAL; lia).
    cbn [bind toordinal]. eexists _, _. split; [reflexivity |].
    cbn [toordinal]. lia.
  - assert (O : date_sub_days today (days - 1) = Raise OverflowError).
    { unfold date_sub_days. cbv zeta.
      destruct (MINORDINAL <=? toordinal today - (days - 1)) eqn:A;
        [apply Z.leb_le in A; unfold MINORDINAL in A; lia | reflexivity]. }
    rewrite O. eexists. reflexivity.
Qed.

(** X15 for "Last 30 Days" on 2024-01-31: the range is January 2024 less
    its first day. *)
Lemma preset_range_witness :
  exists events start_date,
    date_range_selector (ymd 2024 1 31) 30 "Last 30 Days" date_min date_min
    = (events, Ok (start_date, ymd 2024 1 31))
    /\ valid_date start_date
    /\ date_diff (ymd 2024 1 31) start_date = 30 - 1
    /\ (2 * 30 <= toordinal (ymd 2024 1 31) ->
        exists prev_start prev_end,
          calculate_prev_period_dates start_date (ymd 2024 1 31)
          = Ok (prev_start, prev_end)
          /\ toordinal prev_end = toordinal start_date - 1
          /\ toordinal prev_start = toordinal start_date - 30).
Proof.
  refine (proj1 (preset_range (ymd 2024 1 31) 30 "Last 30 Days" date_min
                   date_min 30 _ _ eq_refl) _);
    unfold valid_date, MINORDINAL, MAXORDINAL; simpl; lia.
Defined.

(** X16.  The custom range of the date range selector, for a default
    of at least one day: the range returned is never reversed.  Dates in
    order are returned as chosen, without an error; an end date before the
    start date is answered with an error on the page and replaced by the
    default range, the default number of days ending today. *)
Theorem custom_range (today : date) (default_days : Z)
    (selected_option : string) (custom_start custom_end : date) :
  valid_date today ->
  1 <= default_days <= toordinal today ->
  dict_getitem DATE_RANGE_OPTIONS selected_option = Ok None ->
  exists events start_date end_date,
    date_range_selector today default_days selected_option custom_start
      custom_end = (events, Ok (start_date, end_date))
    /\ toordinal start_date <= toordinal end_date
    /\ (toordinal custom_start <= toordinal custom_end ->
        start_date = custom_start /\ end_date = custom_end
        /\ ~ In st_error_end_before_start events)
    /\ (toordinal custom_end < toordinal custom_start ->
        end_date = today
        /\ date_diff today start_date = default_days - 1
        /\ In st_error_end_before_start events).
Proof.
  intros Vt Hd Hopt.
  unfold valid_date, MINORDINAL, MAXORDINAL in *.
  unfold date_range_selector. cbv zeta.
  rewrite (date_sub_days_ok today (default_days - 1))
    by (unfold MINORDINAL, MAXORDINAL; lia).
  unfold emit. cbn [w_bind]. rewrite w_bind_lift_ok. cbn [w_bind].
  rewrite Hopt, w_bind_lift_ok.
  destruct (toordinal custom_end <? toordinal custom_start) eqn:C;
    cbn [w_bind w_ret app fst snd]; eexists _, _, _;
    (split; [reflexivity |]).
  - apply Z.ltb_lt in C. cbn [toordinal]. unfold date_diff. cbn [toordinal].
    split; [lia |]. split; [lia |]. intros _.
    split; [reflexivity |]. split; [lia |]. cbn. tauto.
  - apply Z.ltb_ge in C. split; [exact C |]. split; [| lia].
    intros _. split; [reflexivity |]. split; [reflexivity |].
    cbn. intros [H | [H | [H | [H | [H | []]]]]]; discriminate.
Qed.

(** X16 for a custom selection that ends before it starts. *)
Lemma custom_range_witness :
  exists events start_date end_date,
    date_range_selector (ymd 2024 1 31) 30 "Custom Range" (ymd 2024 1 20)
      (ymd 2024 1 10) = (events, Ok (start_date, end_date))
    /\ toordinal start_date <= toordinal end_date
    /\ (toordinal (ymd 2024 1 20) <= toordinal (ymd 2024 1 10) ->
        start_date = ymd 2024 1 20 /\ end_date = ymd 2024 1 10
        /\ ~ In st_error_end_before_start events)
    /\ (toordinal (ymd 2024 1 10) < toordinal (ymd 2024 1 20) ->
        end_date = ymd 2024 1 31
        /\ date_diff (ymd 2024 1 31) start_date = 30 - 1
        /\ In st_error_end_before_start events).
Proof.
  refine (custom_range (ymd 2024 1 31) 30 "Custom Range" (ymd 2024 1 20)
            (ymd 2024 1 10) _ _ eq_refl);
    unfold valid_date, MINORDINAL, MAXORDINAL; simpl; lia.
Defined.

(** ** ui/chart_renderer.py and the chart sections *)

Lemma pie_chart_no_error_box (draw_pie : pie_chart -> result unit)
    (data : DataFrame) (config : chart_config) (theme_config : theme) :
  filter is_error_box
    (map Ui (fst (_render_pie_chart draw_pie data config theme_config))) = [].
Proof.
  unfold _render_pie_chart. cbv zeta.
  match goal with |- context [if ?b then _ else _] => destruct b end;
    [reflexivity |].
  destruct (pie_percentages data (or_default "" (ch_value_col config)));
    [| reflexivity].
  cbn [lift w_bind fst snd].
  match goal with
  | |- context [draw_pie ?c] => destruct (draw_pie c) as [[] | e]
  end; reflexivity.
Qed.

Lemma render_chart_no_error_box (draw : xy_chart -> result unit)
    (draw_pie : pie_chart -> result unit)
    (data : DataFrame) (config : chart_entry) (theme_config : theme) :
  filter is_error_box
    (fst (render_chart draw draw_pie data config theme_config)) = [].
Proof.
  unfold render_chart, _render_line_chart, _render_bar_chart, _render_table,
    st_altair_chart_xy.
  cbv zeta.
  repeat match goal with
         | |- context [if ?b then _ else _] => destruct b
         end;
    try reflexivity;
    try apply pie_chart_no_error_box;
    try (match goal with
         | |- context [draw ?c] => destruct (draw c) as [[] | e]
         end; reflexivity).
  destruct (truthy (Some (or_default "" (ce_description config))));
    reflexivity.
Qed.

Lemma display_chart_shape (draw : xy_chart -> result unit)
    (draw_pie : pie_chart -> result unit)
    (execute_query : string -> params -> result DataFrame)
    (section_key : string) (start_date end_date : date)
    (selected_entity : option string) (config : chart_entry) :
  exists events,
    display_chart draw draw_pie execute_query section_key start_date end_date
      selected_entity config = (events, Ok tt)
    /\ (List.length (filter is_error_box events) <= 1)%nat.
Proof.
  unfold display_chart. cbv zeta.
  destruct (negb (truthy (ce_query_id config))).
  { eexists. split; [reflexivity |]. cbn. lia. }
  destruct (execute_query _ _) as [data | e].
  2:{ destruct e; eexists; (split; [reflexivity |]); cbn; lia. }
  rewrite w_bind_lift_ok.
  pose proof (render_chart_no_error_box draw draw_pie data config APP_THEME)
    as N.
  destruct (render_chart draw draw_pie data config APP_THEME)
    as [ev [[] | e]];
    cbn [fst] in N.
  - exists ev. split; [reflexivity |]. rewrite N. cbn. lia.
  - destruct e; eexists; (split; [reflexivity |]);
      rewrite filter_app, N; cbn; lia.
Qed.

Lemma chart_error_boxes_counted (draw : xy_chart -> result unit)
    (draw_pie : pie_chart -> result unit)
    (execute_query : string -> params -> result DataFrame)
    (section_key : string) (start_date end_date : date)
    (selected_entity : option string) (configs : list chart_entry) :
  (List.length
     (filter is_error_box
        (flat_map
           (fun config =>
              fst (display_chart draw draw_pie execute_query section_key
                     start_date end_date selected_entity config)) configs))
   <= List.length configs)%nat.
Proof.
  induction configs as [| config rest IH]; [reflexivity |].
  cbn [flat_map]. rewrite filter_app, length_app.
  destruct (display_chart_shape draw draw_pie execute_query section_key
              start_date end_date selected_entity config)
    as (events & -> & L).
  cbn [fst List.length]. lia.
Qed.

(** X17.  A chart section never raises, whatever its key, its dates, the
    fetcher and Altair do -- on the line and bar charts ([draw]) and on the
    pie charts ([draw_pie]) alike: it shows its header, then what each
    configured chart shows, in the order of the configuration -- or a
    single warning for a key without configuration -- with at most one
    error box per chart.  No previous period is computed, so a chart
    section also returns for the periods on which a metric section
    raises.  In the overview section, whose last two charts are pies, an
    Altair that rejects every chart leaves four error boxes. *)
Theorem chart_section_never_raises (draw : xy_chart -> result unit)
    (draw_pie : pie_chart -> result unit)
    (execute_query : string -> params -> result DataFrame)
    (section_title section_key : string) (start_date end_date : date)
    (selected_entity : option string) :
  exists events,
    display_chart_section draw draw_pie execute_query section_title
      section_key start_date end_date selected_entity
    = (Ui (display_section_header section_title) :: events, Ok tt)
    /\ (CHART_CONFIGS section_key = [] ->
        events = [chart_warning_box (NoChartConfigs section_key)])
    /\ (CHART_CONFIGS section_key <> [] ->
        events
        = flat_map
            (fun config =>
               fst (display_chart draw draw_pie execute_query section_key
                      start_date end_date selected_entity config))
            (CHART_CONFIGS section_key))
    /\ (List.length (filter is_error_box events)
        <= List.length (CHART_CONFIGS section_key))%nat.
Proof.
  unfold display_chart_section.
  destruct (CHART_CONFIGS section_key) as [| c l] eqn:C.
  - eexists. split; [reflexivity |]. split; [reflexivity |].
    split; [| cbn; lia]. intro H. exfalso. exact (H eq_refl).
  - rewrite for_each_flat_map.
    + eexists. split; [reflexivity |]. split; [discriminate |].
      split; [reflexivity |]. apply chart_error_boxes_counted.
    + intro config.
      destruct (display_chart_shape draw draw_pie execute_query section_key
                  start_date end_date selected_entity config)
        as (events & -> & _).
      reflexivity.
Qed.

(** X18.  What [render_chart] shows without drawing.  For an empty frame:
    one "no data" note and nothing else, for every chart type, tables
    included.  For a line or bar chart one of whose two columns is not in
    the frame, or not configured: a warning and the raw frame.  For a chart
    type that is none of line, bar, pie and table, or for none at all: a
    warning and the raw frame.  In each case it returns normally. *)
Theorem render_chart_without_drawing (draw : xy_chart -> result unit)
    (draw_pie : pie_chart -> result unit) (data : DataFrame) (config : chart_entry) (theme_config : theme) :
  let chart_type := or_default "" (ce_chart_type config) in
  (df_empty data = true ->
   render_chart draw draw_pie data config theme_config
   = ([st_info (NoDataAvailable (or_default "this chart" (ce_title config)))],
      Ok tt))
  /\ (df_empty data = false ->
      chart_type = "line" \/ chart_type = "bar" ->
      has_opt_column (ce_x_col config) data = false
      \/ has_opt_column (ce_y_col config) data = false ->
      exists m,
        render_chart draw draw_pie data config theme_config
        = ([chart_st_warning m; Ui (st_dataframe data)], Ok tt))
  /\ (df_empty data = false ->
      ~ In chart_type ["line"; "bar"; "pie"; "table"] ->
      render_chart draw draw_pie data config theme_config
      = ([chart_st_warning (UnsupportedChartType (ce_chart_type config));
          st_dataframe_wide data], Ok tt)).
Proof.
  intro chart_type. unfold render_chart. cbv zeta. fold chart_type.
  split; [| split].
  - intros ->. reflexivity.
  - intros -> Ht Hc.
    assert (M : has_opt_column (ce_x_col config) data
                && has_opt_column (ce_y_col config) data = false)
      by (destruct Hc as [-> | ->];
          [reflexivity | apply andb_false_r]).
    destruct Ht as [-> | ->]; cbn [String.eqb Ascii.eqb Bool.eqb andb];
      [unfold _render_line_chart | unfold _render_bar_chart];
      cbv zeta; rewrite M; eexists; reflexivity.
  - intros -> Hn.
    destruct (String.eqb chart_type "line") eqn:E1;
      [apply String.eqb_eq in E1; exfalso; apply Hn; rewrite E1; cbn; auto |].
    destruct (String.eqb chart_type "bar") eqn:E2;
      [apply String.eqb_eq in E2; exfalso; apply Hn; rewrite E2; cbn; auto |].
    destruct (String.eqb chart_type "pie") eqn:E3;
      [apply String.eqb_eq in E3; exfalso; apply Hn; rewrite E3; cbn; auto |].
    destruct (String.eqb chart_type "table") eqn:E4;
      [apply String.eqb_eq in E4; exfalso; apply Hn; rewrite E4; cbn; auto |].
    reflexivity.
Qed.

(** X18 for an overview chart: no row, a frame without the chart's
    columns, and a chart of an unknown type. *)
Lemma render_chart_without_drawing_witness :
  render_chart draw_ok draw_pie_ok [] credit_trend_chart APP_THEME
  = ([st_info (NoDataAvailable "Daily Credit Consumption Trend")], Ok tt)
  /\ (exists m,
        render_chart draw_ok draw_pie_ok (pie_frame [1; 3]) credit_trend_chart APP_THEME
        = ([chart_st_warning m; Ui (st_dataframe (pie_frame [1; 3]))], Ok tt))
  /\ render_chart draw_ok draw_pie_ok (pie_frame [1; 3]) scatter_chart APP_THEME
     = ([chart_st_warning (UnsupportedChartType (Some "scatter"));
         st_dataframe_wide (pie_frame [1; 3])], Ok tt).
Proof.
  split; [| split].
  - exact (proj1 (render_chart_without_drawing draw_ok draw_pie_ok [] credit_trend_chart
                    APP_THEME) eq_refl).
  - exact (proj1 (proj2 (render_chart_without_drawing draw_ok draw_pie_ok
                           (pie_frame [1; 3]) credit_trend_chart APP_THEME))
             eq_refl (or_introl eq_refl) (or_introl eq_refl)).
  - apply (proj2 (proj2 (render_chart_without_drawing draw_ok draw_pie_ok
                           (pie_frame [1; 3]) scatter_chart APP_THEME)));
      [reflexivity |].
    cbn. intros [H | [H | [H | [H | []]]]]; discriminate.
Defined.

(** ** core/data_fetcher.py *)

Lemma known_query_passes
    (session : string -> params -> result DataFrame) (query_id : string)
    (p : params) :
  existsb (String.eqb query_id) SQL_QUERY_IDS = true ->
  fetch session query_id p
  = match session query_id p with
    | Ok result_df => Ok result_df
    | Raise _ => Raise DataFetchError
    end.
Proof.
  intros K. unfold fetch, DataFetcher.execute_query.
  rewrite K. reflexivity.
Qed.

(** X19.  Only [DataFetchError] leaves the fetcher, whatever the session
    raises.  So a metric whose query is not in the store, or whose query
    the session fails on, shows exactly one "failed to load" error box:
    the boxes for missing columns and for unexpected errors never report a
    failed fetch. *)
Theorem fetch_failure_is_load_failure (float_repr : Q -> string)
    (session : string -> params -> result DataFrame)
    (section_key : string) (start_date end_date prev_start prev_end : date)
    (selected_entity : option string) (config : metric_config)
    (query_id : string) :
  let label := or_default "Unknown Metric" (cfg_label config) in
  let p := metric_params section_key start_date end_date prev_start prev_end
             selected_entity in
  (forall q ps e,
     DataFetcher.execute_query session q ps = Raise e -> e = DataFetchError)
  /\ (cfg_query_id config = Some query_id -> query_id <> "" ->
      truthy (cfg_value_col config) = true ->
      ~ In query_id SQL_QUERY_IDS \/ (exists e, session query_id p = Raise e) ->
      display_metric float_repr (fetch session) section_key start_date
        end_date prev_start prev_end selected_entity config
      = ([display_error_box (MetricLoadFailed label DataFetchError)], Ok tt)).
Proof.
  intros label p. split.
  - intros q ps e. unfold DataFetcher.execute_query.
    destruct (negb (existsb (String.eqb q) SQL_QUERY_IDS));
      [intros [= <-]; reflexivity |].
    cbv zeta. destruct (session q (or_default [] ps)); [discriminate |].
    intros [= <-]. reflexivity.
  - intros Hq Hq' Hv Hfail.
    assert (Tq : truthy (Some query_id) = true)
      by (destruct query_id; [exfalso; exact (Hq' eq_refl) | reflexivity]).
    assert (F : fetch session query_id p = Raise DataFetchError).
    { unfold fetch, DataFetcher.execute_query.
      destruct (existsb (String.eqb query_id) SQL_QUERY_IDS) eqn:K;
        [| reflexivity].
      cbn [negb or_default]. destruct Hfail as [N | [e ->]]; [| reflexivity].
      exfalso. apply N. apply existsb_exists in K.
      destruct K as (x & Hin & Hx). apply String.eqb_eq in Hx. subst x.
      exact Hin. }
    unfold display_metric. fold label. rewrite Hq, Hv, Tq.
    cbn [negb orb or_default]. cbv zeta. fold p. rewrite F. reflexivity.
Qed.

(** X19 for the first overview card during an outage. *)
Lemma fetch_failure_is_load_failure_witness :
  display_metric no_float_repr (fetch fetch_fail) "OVERVIEW_METRICS"
    (ymd 2024 1 1) (ymd 2024 1 31) (ymd 2023 12 1) (ymd 2023 12 31) None
    total_credits_card
  = ([display_error_box (MetricLoadFailed "Total Credits Used" DataFetchError)],
     Ok tt).
Proof.
  apply (proj2 (fetch_failure_is_load_failure no_float_repr fetch_fail
                  "OVERVIEW_METRICS" (ymd 2024 1 1) (ymd 2024 1 31)
                  (ymd 2023 12 1) (ymd 2023 12 31) None total_credits_card
                  "TOTAL_COST_AND_CREDITS_OVERVIEW")).
  - reflexivity.
  - discriminate.
  - reflexivity.
  - right. exists DataFetchError. reflexivity.
Defined.

Lemma configured_metric_queries_known (section_key : string) :
  forallb metric_query_known (METRIC_CARD_CONFIGS section_key) = true.
Proof.
  unfold METRIC_CARD_CONFIGS.
  repeat match goal with
         | |- context [if ?b then _ else _] => destruct b
         end; reflexivity.
Qed.

Lemma configured_chart_queries_known (section_key : string) :
  forallb chart_query_known (CHART_CONFIGS section_key) = true.
Proof.
  unfold CHART_CONFIGS.
  repeat match goal with
         | |- context [if ?b then _ else _] => destruct b
         end; reflexivity.
Qed.

(** X20.  Every metric card and every chart of the configuration names
    a query of the store: its fetch is what the session answers, with the
    session's exceptions turned into [DataFetchError], and never the
    "query not found" failure. *)
Theorem configured_queries_reach_session
    (session : string -> params -> result DataFrame) (section_key : string) :
  (forall config,
     In config (METRIC_CARD_CONFIGS section_key) ->
     exists query_id,
       cfg_query_id config = Some query_id
       /\ forall p,
            fetch session query_id p
            = match session query_id p with
              | Ok result_df => Ok result_df
              | Raise _ => Raise DataFetchError
              end)
  /\ (forall config,
        In config (CHART_CONFIGS section_key) ->
        exists query_id,
          ce_query_id config = Some query_id
          /\ forall p,
               fetch session query_id p
               = match session query_id p with
                 | Ok result_df => Ok result_df
                 | Raise _ => Raise DataFetchError
                 end).
Proof.
  split; intros config Hin.
  - pose proof (proj1 (forallb_forall _ _)
                  (configured_metric_queries_known section_key) config Hin)
      as K.
    unfold metric_query_known in K.
    destruct (cfg_query_id config) as [q |]; [| discriminate].
    exists q. split; [reflexivity |]. intro p.
    apply known_query_passes. exact K.
  - pose proof (proj1 (forallb_forall _ _)
                  (configured_chart_queries_known section_key) config Hin)
      as K.
    unfold chart_query_known in K.
    destruct (ce_query_id config) as [q |]; [| discriminate].
    exists q. split; [reflexivity |]. intro p.
    apply known_query_passes. exact K.
Qed.

(** X20 for the first overview card. *)
Lemma configured_queries_reach_session_witness :
  exists query_id,
    cfg_query_id total_credits_card = Some query_id
    /\ forall p,
         fetch (fetch_const overview_frame) query_id p
         = match fetch_const overview_frame query_id p with
           | Ok result_df => Ok result_df
           | Raise _ => Raise DataFetchError
           end.
Proof.
  apply (proj1 (configured_queries_reach_session (fetch_const overview_frame)
                  "OVERVIEW_METRICS") total_credits_card).
  left. reflexivity.
Defined.

(** ** ui/base_components.py: the entity selector *)

Lemma string_length_app (a b : string) :
  String.length (a ++ b) = (String.length a + String.length b)%nat.
Proof.
  induction a as [| c a IH]; simpl; [| rewrite IH]; reflexivity.
Qed.

Lemma append_cancel_r (a b s : string) : a ++ s = b ++ s -> a = b.
Proof.
  revert b. induction a as [| c a IH]; intros [| d b] H; simpl in H.
  - reflexivity.
  - exfalso. apply (f_equal String.length) in H. simpl in H.
    rewrite string_length_app in H. lia.
  - exfalso. apply (f_equal String.length) in H. simpl in H.
    rewrite string_length_app in H. lia.
  - injection H as -> H. rewrite (IH b H). reflexivity.
Qed.

Lemma eqb_app_r (a b s : string) :
  String.eqb (a ++ s) (b ++ s) = String.eqb a b.
Proof.
  destruct (String.eqb_spec a b) as [-> | N].
  - apply String.eqb_refl.
  - apply String.eqb_neq. intro H. exact (N (append_cancel_r _ _ _ H)).
Qed.

Lemma list_active_query_known (u : string) :
  existsb (String.eqb ("LIST_ACTIVE_" ++ u ++ "S_BY_COST")) SQL_QUERY_IDS
  = String.eqb u "USER" || String.eqb u "WAREHOUSE".
Proof.
  unfold SQL_QUERY_IDS. cbn [existsb].
  change "LIST_ACTIVE_USERS_BY_COST"
    with ("LIST_ACTIVE_" ++ "USER" ++ "S_BY_COST").
  change "LIST_ACTIVE_WAREHOUSES_BY_COST"
    with ("LIST_ACTIVE_" ++ "WAREHOUSE" ++ "S_BY_COST").
  assert (P : forall x y, String.eqb ("LIST_ACTIVE_" ++ x) ("LIST_ACTIVE_" ++ y)
                          = String.eqb x y).
  { intros x y. destruct (String.eqb_spec x y) as [-> | N].
    - apply String.eqb_refl.
    - apply String.eqb_neq. intro H. exact (N (append_cancel_l _ _ _ H)). }
  rewrite !P, !eqb_app_r.
  cbn. rewrite !orb_false_r. reflexivity.
Qed.

Lemma list_active_query_run
    (session : string -> params -> result DataFrame) (entity_type : string) :
  upper entity_type = "USER" \/ upper entity_type = "WAREHOUSE" ->
  DataFetcher.execute_query session
    ("LIST_ACTIVE_" ++ upper entity_type ++ "S_BY_COST") None
  = match session ("LIST_ACTIVE_" ++ upper entity_type ++ "S_BY_COST") [] with
    | Ok result_df => Ok result_df
    | Raise _ => Raise DataFetchError
    end.
Proof.
  intro H. unfold DataFetcher.execute_query.
  rewrite list_active_query_known.
  destruct H as [-> | ->]; reflexivity.
Qed.

(** X21.  The entity selector on the fetcher.  An entity type other than
    "user" and "warehouse", in any letter case, names a query the store
    does not have: the selector shows a load error and returns [None]
    without asking the session.  For the two known types it returns [None]
    with exactly one message in each failure: a load error when the session
    raises, whatever the exception; a warning when no row comes back; a
    "missing columns" error when the frame has no name column. *)
Theorem entity_selector_failures
    (session : string -> params -> result DataFrame)
    (sorted_unique : list pyval -> result (list pyval))
    (selectbox : list pyval -> option string) (entity_type : string) :
  let query_id := "LIST_ACTIVE_" ++ upper entity_type ++ "S_BY_COST" in
  let selected :=
    entity_selector (DataFetcher.execute_query session) sorted_unique
      selectbox entity_type in
  (upper entity_type <> "USER" -> upper entity_type <> "WAREHOUSE" ->
   selected
   = ([st_markdown_select entity_type;
       st_error_load_failed entity_type DataFetchError], Ok None))
  /\ (upper entity_type = "USER" \/ upper entity_type = "WAREHOUSE" ->
      (forall e,
         session query_id [] = Raise e ->
         selected
         = ([st_markdown_select entity_type;
             st_error_load_failed entity_type DataFetchError], Ok None))
      /\ (forall data,
            session query_id [] = Ok data -> df_empty data = true ->
            selected
            = ([st_markdown_select entity_type;
                st_warning_no_active entity_type], Ok None))
      /\ (forall data,
            session query_id [] = Ok data -> df_empty data = false ->
            has_column (upper entity_type ++ "_NAME") data = false ->
            selected
            = ([st_markdown_select entity_type;
                st_error_missing_columns entity_type], Ok None))).
Proof.
  intros query_id selected. subst selected. split.
  - intros Hu Hw. unfold entity_selector, DataFetcher.execute_query.
    cbv zeta. rewrite list_active_query_known.
    apply String.eqb_neq in Hu. apply String.eqb_neq in Hw. rewrite Hu, Hw.
    reflexivity.
  - intro Hk. unfold entity_selector. cbv zeta.
    rewrite (list_active_query_run session entity_type Hk). fold query_id.
    split; [| split].
    + intros e ->. reflexivity.
    + intros data -> E. rewrite w_bind_lift_ok, E. reflexivity.
    + intros data -> E C. rewrite w_bind_lift_ok, E.
      assert (K : df_getitem data (upper entity_type ++ "_NAME")
                  = Raise KeyError).
      { clear - C. unfold has_column, df_columns in C.
        induction data as [| [c vs] rest IH]; cbn in *; [reflexivity |].
        destruct (String.eqb (upper entity_type ++ "_NAME") c);
          [discriminate | exact (IH C)]. }
      rewrite K. reflexivity.
Qed.

(** X21 for the entity type "role", and for "User" when no user is
    active. *)
Lemma entity_selector_failures_witness :
  entity_selector (DataFetcher.execute_query fetch_fail) as_listed no_choice
    "role"
  = ([st_markdown_select "role"; st_error_load_failed "role" DataFetchError],
     Ok None)
  /\ entity_selector (DataFetcher.execute_query (fetch_const [])) as_listed
       no_choice "User"
     = ([st_markdown_select "User"; st_warning_no_active "User"], Ok None).
Proof.
  split.
  - apply (proj1 (entity_selector_failures fetch_fail as_listed no_choice
                    "role")); discriminate.
  - apply (proj1 (proj2 (proj2 (entity_selector_failures (fetch_const [])
                                  as_listed no_choice "User")
                           (or_introl eq_refl))) []); reflexivity.
Defined.

(** ** ui/chart_renderer.py: the frame of a pie chart *)

Lemma df_getitem_setitem_other (data : DataFrame) (col other : string)
    (series : list pyval) :
  other <> col ->
  df_getitem (df_setitem data col series) other = df_getitem data other.
Proof.
  intro N. apply String.eqb_neq in N.
  induction data as [| [c vs] rest IH]; cbn.
  - rewrite N. reflexivity.
  - destruct (String.eqb col c) eqn:E; cbn.
    + apply String.eqb_eq in E. subst c. rewrite N. reflexivity.
    + destruct (String.eqb other c); [reflexivity | exact IH].
Qed.

Lemma df_columns_setitem (data : DataFrame) (col : string)
    (series : list pyval) :
  df_columns (df_setitem data col series)
  = if has_column col data then df_columns data
    else (df_columns data ++ [col])%list.
Proof.
  unfold has_column, df_columns.
  induction data as [| [c vs] rest IH]; cbn; [reflexivity |].
  destruct (String.eqb col c) eqn:E; cbn; [reflexivity |].
  rewrite IH. destruct (existsb (String.eqb col) (map fst rest)); reflexivity.
Qed.

(** X22.  The frame a pie chart is drawn from differs from the fetched
    one in its [percentage] column only: every other column keeps its
    cells, and the columns are those of the fetched frame, in order, with
    [percentage] added last when it was not there. *)
Theorem pie_percentages_adds_one_column (data : DataFrame)
    (value_col : string) (out : DataFrame) :
  pie_percentages data value_col = Ok out ->
  (forall col, col <> "percentage" -> df_getitem out col = df_getitem data col)
  /\ df_columns out
     = (if has_column "percentage" data then df_columns data
        else (df_columns data ++ ["percentage"])%list).
Proof.
  unfold pie_percentages. cbv zeta.
  destruct (df_getitem data value_col) as [series | e]; [| discriminate].
  cbn [bind]. destruct (series_sum series) as [total | e]; [| discriminate].
  cbn [bind].
  destruct (num_gtb total (PInt 0)); intros [= <-];
    (split; [intros col N; apply df_getitem_setitem_other; exact N
            | apply df_columns_setitem]).
Qed.

(** X22 for a cost breakdown of two services. *)
Lemma pie_percentages_adds_one_column_witness :
  exists out,
    pie_percentages (pie_frame [1; 3]) "ESTIMATED_COST_USD" = Ok out
    /\ (forall col,
          col <> "percentage" ->
          df_getitem out col = df_getitem (pie_frame [1; 3]) col)
    /\ df_columns out = ["SERVICE_TYPE"; "ESTIMATED_COST_USD"; "percentage"].
Proof.
  eexists. split; [reflexivity |].
  apply (pie_percentages_adds_one_column (pie_frame [1; 3])
           "ESTIMATED_COST_USD").
  reflexivity.
Defined.

(** ** insights/recommendations.py: the warehouse rules together *)



